(** * Auto-Onboarding-Orchestrator: the strategy resolver and its collaborators

    A shallow embedding of [app/permission.py] (the probes,
    [detect_monitoring_strategy] and the actions), [app/redis_client.py]
    (the persisted decision record), [app/prometheus_dynamic.py] (the
    scrape-config mutation) and [app/main.py] (the two endpoints), with
    the properties the specification states about them.

    Python strings are modelled by [string]; the model is exact on ASCII
    text, which is all the program's own literals use. *)

From Stdlib Require Import ZArith Ascii String List Bool Lia.
From Stdlib Require Import Floats.SpecFloat.
From stdpp Require Import base option gmap strings list fin_maps pretty.

Set Warnings "-register-all".

Local Open Scope string_scope.
Local Open Scope Z_scope.
Local Open Scope list_scope.

(** ** Python values, results and exceptions *)

(** The exception classes that escape or are caught in the modelled code. *)
Inductive PyExn : Type :=
| ValueError
| TypeError
| KeyError
| AttributeError
| OSError
| YAMLError
| RequestException
| RedisConnectionError
| RedisDataError.

(** A call either returns a value or raises. *)
Inductive PyResult (A : Type) : Type :=
| Returned (a : A)
| Raised (e : PyExn).
Arguments Returned {A} a.
Arguments Raised {A} e.

Definition returns {A} (r : PyResult A) : Prop :=
  match r with Returned _ => True | Raised _ => False end.

(** The values a decision dictionary holds, and what
    [get_monitoring_strategy] may decode a stored field to.  [PyFloat lit]
    is the float that [float(lit)] denotes. *)
Inductive PyVal : Type :=
| PyNone
| PyBool (b : bool)
| PyInt (z : Z)
| PyFloat (lit : string)
| PyStr (s : string)
| PyStrList (l : list string).

#[global] Instance PyVal_eq_dec : EqDecision PyVal.
Proof. solve_decision. Defined.

(** A Python [dict] with string keys. *)
Abbreviation Dict := (gmap string PyVal).

(** ** String primitives *)

Definition ascii_in (lo hi : nat) (c : ascii) : bool :=
  (Nat.leb lo (nat_of_ascii c) && Nat.leb (nat_of_ascii c) hi)%bool.

Definition is_upper : ascii -> bool := ascii_in 65 90.
Definition is_lower : ascii -> bool := ascii_in 97 122.
Definition is_digit : ascii -> bool := ascii_in 48 57.
Definition is_alpha (c : ascii) : bool := (is_upper c || is_lower c)%bool.

Definition lower_char (c : ascii) : ascii :=
  if is_upper c then ascii_of_nat (nat_of_ascii c + 32) else c.

Definition upper_char (c : ascii) : ascii :=
  if is_lower c then ascii_of_nat (nat_of_ascii c - 32) else c.

Fixpoint map_string (f : ascii -> ascii) (s : string) : string :=
  match s with
  | EmptyString => EmptyString
  | String c t => String (f c) (map_string f t)
  end.

(** [s.lower()] and [s.upper()]. *)
Definition lower : string -> string := map_string lower_char.
Definition upper : string -> string := map_string upper_char.

(** [needle in hay] on strings. *)
Fixpoint contains (needle hay : string) : bool :=
  (String.prefix needle hay ||
   match hay with
   | EmptyString => false
   | String _ t => contains needle t
   end)%bool.

Fixpoint forall_chars (p : ascii -> bool) (s : string) : bool :=
  match s with
  | EmptyString => true
  | String c t => (p c && forall_chars p t)%bool
  end.

Fixpoint exists_char (p : ascii -> bool) (s : string) : bool :=
  match s with
  | EmptyString => false
  | String c t => (p c || exists_char p t)%bool
  end.

Definition is_char (c d : ascii) : bool := Ascii.eqb c d.

(** [break_at p s] cuts [s] in front of its first character satisfying
    [p]: the part before it, and the rest starting with that character
    (empty when there is none). *)
Fixpoint break_at (p : ascii -> bool) (s : string) : string * string :=
  match s with
  | EmptyString => (EmptyString, EmptyString)
  | String c t =>
      if p c then (EmptyString, s)
      else let '(a, b) := break_at p t in (String c a, b)
  end.

Fixpoint filter_string (p : ascii -> bool) (s : string) : string :=
  match s with
  | EmptyString => EmptyString
  | String c t => if p c then String c (filter_string p t) else filter_string p t
  end.

Fixpoint lstrip_chars (p : ascii -> bool) (s : string) : string :=
  match s with
  | EmptyString => EmptyString
  | String c t => if p c then lstrip_chars p t else s
  end.

Definition tail_string (s : string) : string :=
  match s with EmptyString => EmptyString | String _ t => t end.

(** The text after the last occurrence of [c] ([s.rpartition(c)[2]]). *)
Fixpoint after_last (c : ascii) (s : string) : string :=
  match s with
  | EmptyString => EmptyString
  | String d t =>
      if is_char c d then (if exists_char (is_char c) t then after_last c t else t)
      else if exists_char (is_char c) t then after_last c t else s
  end.

(** ** [urllib.parse.urlparse(url).hostname]

    The library function the resolver calls before probing, following
    CPython's [urlsplit]: leading control characters and spaces and
    embedded tab/CR/LF are dropped, a scheme is split off, a network
    location follows a leading [//], unbalanced brackets in it raise
    [ValueError], and [hostname] is the lower-cased host without user
    information and port, or [None] when it is empty. *)

Section Urllib.

(** [_check_bracketed_host]: whether the text between brackets is an
    acceptable IPv6 or IPvFuture literal.  It is decided by the
    [ipaddress] module, which is left abstract. *)
Variable bracketed_host_ok : string -> bool.

Definition scheme_char (c : ascii) : bool :=
  (is_alpha c || is_digit c || is_char "+" c || is_char "-" c || is_char "." c)%bool.

Definition c0_control_or_space (c : ascii) : bool := Nat.leb (nat_of_ascii c) 32.

Definition unsafe_url_byte (c : ascii) : bool :=
  (is_char "009" c || is_char "010" c || is_char "013" c)%bool.

(** The scheme (lower-cased) and the remainder of the URL. *)
Definition split_scheme (url : string) : string * string :=
  let '(pre, rest) := break_at (is_char ":") url in
  match rest, pre with
  | String _ after, String c0 _ =>
      if (is_alpha c0 && forall_chars scheme_char pre)%bool
      then (lower pre, after)
      else (EmptyString, url)
  | _, _ => (EmptyString, url)
  end.

Definition netloc_delim (c : ascii) : bool :=
  (is_char "/" c || is_char "?" c || is_char "#" c)%bool.

(** [_splitnetloc(url, 2)] when [url] starts with [//]; the empty
    network location otherwise. *)
Definition split_netloc (url : string) : string :=
  match url with
  | String "/" (String "/" t) => fst (break_at netloc_delim t)
  | _ => EmptyString
  end.

Definition netloc_of (url : string) : PyResult string :=
  let url := lstrip_chars c0_control_or_space url in
  let url := filter_string (fun c => negb (unsafe_url_byte c)) url in
  let netloc := split_netloc (snd (split_scheme url)) in
  let has_open := exists_char (is_char "[") netloc in
  let has_close := exists_char (is_char "]") netloc in
  if (has_open && negb has_close || has_close && negb has_open)%bool
  then Raised ValueError
  else if (has_open && has_close)%bool then
    let bracketed :=
      fst (break_at (is_char "]")
             (tail_string (snd (break_at (is_char "[") netloc)))) in
    if bracketed_host_ok bracketed then Returned netloc else Raised ValueError
  else Returned netloc.

(** The [hostname] property of the split result. *)
Definition hostname_of_netloc (netloc : string) : option string :=
  let hostinfo := after_last "@" netloc in
  let '(_, from_br) := break_at (is_char "[") hostinfo in
  let hostname :=
    match from_br with
    | String _ bracketed => fst (break_at (is_char "]") bracketed)
    | EmptyString => fst (break_at (is_char ":") hostinfo)
    end in
  match hostname with
  | EmptyString => None
  | _ =>
      let '(h, zone) := break_at (is_char "%") hostname in
      Some (lower h +:+ zone)
  end.

(** [urlparse(url).hostname]: raises, or gives the host or [None]. *)
Definition urlparse_hostname (url : string) : PyResult (option string) :=
  match netloc_of url with
  | Raised e => Raised e
  | Returned netloc => Returned (hostname_of_netloc netloc)
  end.

End Urllib.

(** ** The network, as the probes see it *)

Inductive NetError : Type :=
| ConnectionRefused
| DNSFailure
| Timeout
| TLSFailure
| InvalidRequest.

Record Response : Type := {
  status_code : Z;
  text : string;
  resp_headers : list (string * string)
}.

Inductive HttpOutcome : Type :=
| HttpFailed (e : NetError)
| HttpReplied (r : Response).

Inductive TcpOutcome : Type :=
| TcpFailed (e : NetError)
| TcpConnected.

Inductive Method : Type := GET | POST.

(** A computation that talks to the network: it returns, issues an HTTP
    request ([requests.get], [requests.post]) or opens a TCP connection
    ([socket.create_connection]) and goes on with what came back.  A
    library exception is the [HttpFailed] or [TcpFailed] outcome. *)
Inductive Prog (A : Type) : Type :=
| Ret (a : A)
| Http (m : Method) (url : string) (timeout : Z) (k : HttpOutcome -> Prog A)
| Tcp (host : option string) (port timeout : Z) (k : TcpOutcome -> Prog A).
Arguments Ret {A} a.
Arguments Http {A} m url timeout k.
Arguments Tcp {A} host port timeout k.

Fixpoint bind {A B} (p : Prog A) (f : A -> Prog B) : Prog B :=
  match p with
  | Ret a => f a
  | Http m url t k => Http m url t (fun o => bind (k o) f)
  | Tcp h port t k => Tcp h port t (fun o => bind (k o) f)
  end.

Declare Scope prog_scope.
Delimit Scope prog_scope with prog.
Notation "x <- p ;; q" := (bind p (fun x => q))
  (at level 100, p at next level, right associativity) : prog_scope.
Local Open Scope prog_scope.

(** The network answers a request by its content and by when it is made:
    the [n]-th request of a run may be answered differently from the
    [n+1]-st one, even for the same URL. *)
Record World : Type := {
  http_answer : nat -> Method -> string -> Z -> HttpOutcome;
  tcp_answer : nat -> option string -> Z -> Z -> TcpOutcome
}.

(** What a run observed: each request with its outcome, in order. *)
Inductive Event : Type :=
| EvHttp (m : Method) (url : string) (timeout : Z) (o : HttpOutcome)
| EvTcp (host : option string) (port timeout : Z) (o : TcpOutcome).

(** [run w clk p] executes [p] against [w], the first request being the
    [clk]-th one; it gives the result and the observed events. *)
Fixpoint run {A} (w : World) (clk : nat) (p : Prog A) : A * list Event :=
  match p with
  | Ret a => (a, [])
  | Http m url t k =>
      let o := http_answer w clk m url t in
      let '(a, tr) := run w (S clk) (k o) in
      (a, EvHttp m url t o :: tr)
  | Tcp h port t k =>
      let o := tcp_answer w clk h port t in
      let '(a, tr) := run w (S clk) (k o) in
      (a, EvTcp h port t o :: tr)
  end.

Definition result {A} (w : World) (clk : nat) (p : Prog A) : A := fst (run w clk p).
Definition trace {A} (w : World) (clk : nat) (p : Prog A) : list Event := snd (run w clk p).

(** A network whose answers do not depend on time. *)
Definition stable (w : World) : Prop :=
  (forall n n' m u t, http_answer w n m u t = http_answer w n' m u t) /\
  (forall n n' h p t, tcp_answer w n h p t = tcp_answer w n' h p t).

Definition requests_get (url : string) (timeout : Z) : Prog HttpOutcome :=
  Http GET url timeout Ret.

Definition requests_post (url : string) (timeout : Z) : Prog HttpOutcome :=
  Http POST url timeout Ret.

Definition create_connection (host : option string) (port timeout : Z) : Prog TcpOutcome :=
  Tcp host port timeout Ret.

(** ** [repr] and [str] *)

Definition hex_digit (n : nat) : ascii :=
  if Nat.ltb n 10 then ascii_of_nat (48 + n) else ascii_of_nat (87 + n).

Definition hex_escape (c : ascii) : string :=
  let n := nat_of_ascii c in
  String "\" (String "x" (String (hex_digit (Nat.div n 16))
                         (String (hex_digit (Nat.modulo n 16)) EmptyString))).

Definition repr_char (quote c : ascii) : string :=
  if (is_char quote c || is_char "\" c)%bool then String "\" (String c EmptyString)
  else if is_char "009" c then "\t"
  else if is_char "010" c then "\n"
  else if is_char "013" c then "\r"
  else if (Nat.ltb (nat_of_ascii c) 32 || is_char "127" c)%bool then hex_escape c
  else String c EmptyString.

Fixpoint repr_chars (quote : ascii) (s : string) : string :=
  match s with
  | EmptyString => EmptyString
  | String c t => repr_char quote c +:+ repr_chars quote t
  end.

Definition dquote : ascii := ascii_of_nat 34.

(** [repr(s)] of a string: single quotes, unless the text has a single
    quote and no double quote. *)
Definition repr_str (s : string) : string :=
  let quote : ascii :=
    if (exists_char (is_char "'") s && negb (exists_char (is_char dquote) s))%bool
    then dquote else "'"%char in
  String quote (repr_chars quote s +:+ String quote EmptyString).

(** [str(d)] of a dictionary of strings, and [str(l)] of a list of
    strings. *)
Fixpoint join_with (sep : string) (l : list string) : string :=
  match l with
  | [] => EmptyString
  | [x] => x
  | x :: rest => x +:+ sep +:+ join_with sep rest
  end.

Definition str_of_headers (h : list (string * string)) : string :=
  "{" +:+ join_with ", " (map (fun kv => repr_str (fst kv) +:+ ": " +:+ repr_str (snd kv)) h) +:+ "}".

Definition str_of_list (l : list string) : string :=
  "[" +:+ join_with ", " (map repr_str l) +:+ "]".

(** ** app/schemas.py *)

(** The dictionary the resolver and the actions are given: the fields of
    [AppOnboardRequest], with [url] a string. *)
Record AppOnboardRequest : Type := {
  app_type : string;
  framework : option string;
  url : string;
  env : option string
}.

(** A validated [HttpUrl].  pydantic keeps a URL in its normalised form
    (scheme and host in lower case, [/] for an empty path, no default
    port), and [str] gives that text: [str_of_url] is it, not the text
    the client sent. *)
Record HttpUrl : Type := { str_of_url : string }.

(** The request model FastAPI builds and hands to [onboard_app]. *)
Record OnboardModel : Type := {
  model_type : string;
  model_framework : option string;
  model_url : HttpUrl;
  model_env : option string
}.

(** [payload = app_data.model_dump()] followed by
    [payload["url"] = str(payload["url"])]. *)
Definition payload_of (app_data : OnboardModel) : AppOnboardRequest :=
  {| app_type := model_type app_data;
     framework := model_framework app_data;
     url := str_of_url (model_url app_data);
     env := model_env app_data |}.

(** ** app/permission.py: the probes *)

Definition PROM_TIMEOUT : Z := 3.
Definition OTEL_TIMEOUT : Z := 2.
Definition STATSD_PORT : Z := 8125.

(** [status in codes]. *)
Definition status_in (codes : list Z) (status : Z) : bool :=
  existsb (Z.eqb status) codes.

(** No caller passes the optional request headers, so the request
    carries none. *)
Definition check_prometheus_metrics (base_url : string) : Prog bool :=
  r <- requests_get (base_url +:+ "/metrics") PROM_TIMEOUT ;;
  match r with
  | HttpReplied r => Ret ((status_code r =? 200) && contains "HELP" (text r))%bool
  | HttpFailed _ => Ret false
  end.

Definition check_prometheus_auth (base_url : string) : Prog bool :=
  r <- requests_get (base_url +:+ "/metrics") PROM_TIMEOUT ;;
  match r with
  | HttpReplied r => Ret (status_in [401; 403] (status_code r))
  | HttpFailed _ => Ret false
  end.

(** The loop of [check_otlp_http] over the remaining paths. *)
Fixpoint check_otlp_paths (base_url : string) (otlp_paths : list string) : Prog bool :=
  match otlp_paths with
  | [] => Ret false
  | path :: rest =>
      r <- requests_post (base_url +:+ path) OTEL_TIMEOUT ;;
      match r with
      | HttpReplied r =>
          if status_in [200; 404; 415] (status_code r) then Ret true
          else check_otlp_paths base_url rest
      | HttpFailed _ => check_otlp_paths base_url rest
      end
  end.

Definition check_otlp_http (base_url : string) : Prog bool :=
  check_otlp_paths base_url ["/v1/traces"; "/v1/metrics"].

Definition check_otlp_grpc (host : option string) : Prog bool :=
  c <- create_connection host 4317 OTEL_TIMEOUT ;;
  match c with
  | TcpConnected => Ret true
  | TcpFailed _ => Ret false
  end.

Definition check_statsd (host : option string) : Prog bool :=
  c <- create_connection host STATSD_PORT 2 ;;
  match c with
  | TcpConnected => Ret true
  | TcpFailed _ => Ret false
  end.

Definition detect_kubernetes_env (headers : list (string * string)) : bool :=
  contains "x-kubernetes" (lower (str_of_headers headers)).

Definition detect_cloud_provider (headers : list (string * string)) : option string :=
  let header_str := lower (str_of_headers headers) in
  if contains "x-amzn" header_str then Some "aws"
  else if contains "x-goog" header_str then Some "gcp"
  else if contains "x-ms" header_str then Some "azure"
  else None.

Definition check_blackbox_http (url : string) : Prog bool :=
  r <- requests_get url 5 ;;
  match r with
  | HttpReplied r => Ret (status_code r <? 500)
  | HttpFailed _ => Ret false
  end.

(** ** app/permission.py: the strategy resolver *)

(** The dictionary literal of a positive decision. *)
Definition monitorable_decision (strategy confidence details : string) : Dict :=
  {[ "monitorable" := PyBool true;
     "strategy" := PyStr strategy;
     "confidence" := PyStr confidence;
     "details" := PyStr details ]}.

Definition unmonitorable_decision : Dict :=
  {[ "monitorable" := PyBool false;
     "strategy" := PyNone;
     "confidence" := PyStr "none";
     "details" := PyStr "No metrics or telemetry endpoints detected";
     "next_steps" := PyStrList
       [ "Expose /metrics";
         "Enable OpenTelemetry SDK";
         "Deploy OpenTelemetry Collector";
         "Use blackbox exporter" ] ]}.

(** The single exploratory GET; its failure leaves [headers = {}]. *)
Definition fetch_headers (base_url : string) : Prog (list (string * string)) :=
  r <- requests_get base_url 2 ;;
  match r with
  | HttpReplied r => Ret (resp_headers r)
  | HttpFailed _ => Ret []
  end.

Section Resolver.

Variable bracketed_host_ok : string -> bool.

Definition detect_monitoring_strategy (app : AppOnboardRequest) : Prog (PyResult Dict) :=
  let base_url := url app in
  match urlparse_hostname bracketed_host_ok base_url with
  | Raised e => Ret (Raised e)
  | Returned host =>
      headers <- fetch_headers base_url ;;
      prom <- check_prometheus_metrics base_url ;;
      if prom : bool then
        Ret (Returned (monitorable_decision
               "prometheus" "high" "/metrics endpoint detected"))
      else
      auth <- check_prometheus_auth base_url ;;
      if auth : bool then
        Ret (Returned (monitorable_decision
               "prometheus-auth" "medium" "/metrics exists but requires auth"))
      else
      otlp <- check_otlp_http base_url ;;
      if otlp : bool then
        Ret (Returned (monitorable_decision
               "opentelemetry-http" "high" "OTLP HTTP endpoint detected"))
      else
      grpc <- check_otlp_grpc host ;;
      if grpc : bool then
        Ret (Returned (monitorable_decision
               "opentelemetry-grpc" "high" "OTLP gRPC endpoint detected on port 4317"))
      else
      statsd <- check_statsd host ;;
      if statsd : bool then
        Ret (Returned (monitorable_decision
               "statsd" "medium" "StatsD-compatible agent detected"))
      else
      if detect_kubernetes_env headers then
        Ret (Returned (monitorable_decision
               "kubernetes-auto" "medium" "Kubernetes environment detected"))
      else
      match detect_cloud_provider headers with
      | Some cloud =>
          Ret (Returned (monitorable_decision
                 (cloud +:+ "-cloud-metrics") "low" (upper cloud +:+ " headers detected")))
      | None =>
          blackbox <- check_blackbox_http base_url ;;
          if blackbox : bool then
            Ret (Returned (monitorable_decision
                   "blackbox-http" "low" "Only uptime / latency monitoring possible"))
          else Ret (Returned unmonitorable_decision)
      end
  end.


(** *** The priority table of the specification

    A second reading of the resolver, following the specification's
    table: eight rows in priority order, each a probe with the strategy,
    confidence and rationale it stands for. *)

Record Row : Type := {
  row_strategy : string;
  row_confidence : string;
  row_details : string
}.

Definition decision_of (r : Row) : Dict :=
  monitorable_decision (row_strategy r) (row_confidence r) (row_details r).

Definition cloud_row (headers : list (string * string)) : Row :=
  let cloud := default EmptyString (detect_cloud_provider headers) in
  {| row_strategy := cloud +:+ "-cloud-metrics";
     row_confidence := "low";
     row_details := upper cloud +:+ " headers detected" |}.

Definition priority_table (headers : list (string * string)) : list Row :=
  [ {| row_strategy := "prometheus"; row_confidence := "high";
       row_details := "/metrics endpoint detected" |};
    {| row_strategy := "prometheus-auth"; row_confidence := "medium";
       row_details := "/metrics exists but requires auth" |};
    {| row_strategy := "opentelemetry-http"; row_confidence := "high";
       row_details := "OTLP HTTP endpoint detected" |};
    {| row_strategy := "opentelemetry-grpc"; row_confidence := "high";
       row_details := "OTLP gRPC endpoint detected on port 4317" |};
    {| row_strategy := "statsd"; row_confidence := "medium";
       row_details := "StatsD-compatible agent detected" |};
    {| row_strategy := "kubernetes-auto"; row_confidence := "medium";
       row_details := "Kubernetes environment detected" |};
    cloud_row headers;
    {| row_strategy := "blackbox-http"; row_confidence := "low";
       row_details := "Only uptime / latency monitoring possible" |} ].

(** The probe of each row, in the same order. *)
Definition probes (base_url : string) (host : option string)
    (headers : list (string * string)) : list (Prog bool) :=
  [ check_prometheus_metrics base_url;
    check_prometheus_auth base_url;
    check_otlp_http base_url;
    check_otlp_grpc host;
    check_statsd host;
    Ret (detect_kubernetes_env headers);
    Ret (bool_decide (is_Some (detect_cloud_provider headers)));
    check_blackbox_http base_url ].

(** Evaluate the probes in order and stop at the first success; the
    outcomes observed are the failures before it and the success. *)
Fixpoint probe_in_order (ps : list (Prog bool)) : Prog (list bool) :=
  match ps with
  | [] => Ret []
  | p :: rest =>
      ok <- p ;;
      if ok : bool then Ret [true]
      else (oks <- probe_in_order rest ;; Ret (false :: oks))
  end.

(** The decision of the first row whose probe succeeded, or the
    fallback. *)
Fixpoint first_success (oks : list bool) (rows : list Row) : Dict :=
  match oks, rows with
  | true :: _, r :: _ => decision_of r
  | false :: oks', _ :: rows' => first_success oks' rows'
  | _, _ => unmonitorable_decision
  end.

(** What one resolution observes: the headers of the exploratory GET
    and the probe outcomes up to the first success. *)
Definition observe (base_url : string) (host : option string)
  : Prog (list (string * string) * list bool) :=
  headers <- fetch_headers base_url ;;
  oks <- probe_in_order (probes base_url host headers) ;;
  Ret (headers, oks).

Definition resolve_by_priority (base_url : string) (host : option string) : Prog Dict :=
  obs <- observe base_url host ;;
  Ret (first_success (snd obs) (priority_table (fst obs))).

(** The table-driven resolution run from a given time: its decision
    and the events it observed. *)
Definition chain_outcome (w : World) (clk : nat) (ps : list (Prog bool)) (rows : list Row)
  : PyResult Dict * list Event :=
  let '(oks, tr) := run w clk (probe_in_order ps) in
  (Returned (first_success oks rows), tr).

(** What one resolution of [app] observes, when its URL is accepted. *)
Definition observation (w : World) (clk : nat) (app : AppOnboardRequest)
  : PyResult (list (string * string) * list bool) :=
  match urlparse_hostname bracketed_host_ok (url app) with
  | Raised e => Raised e
  | Returned host => Returned (result w clk (observe (url app) host))
  end.

(** The probe outcomes among it. *)
Definition observed_outcomes (w : World) (clk : nat) (app : AppOnboardRequest)
  : PyResult (list bool) :=
  match observation w clk app with
  | Raised e => Raised e
  | Returned obs => Returned (snd obs)
  end.

(** A target is malformed when its URL does not parse or has no host. *)
Definition malformed_target (app : AppOnboardRequest) : bool :=
  match urlparse_hostname bracketed_host_ok (url app) with
  | Raised _ => true
  | Returned None => true
  | Returned (Some _) => false
  end.

End Resolver.

(** The two success conditions on a reply to [GET /metrics], as the
    specification's table words them. *)
Definition metrics_exposed (o : HttpOutcome) : bool :=
  match o with
  | HttpReplied r => (status_code r =? 200) && contains "HELP" (text r)
  | HttpFailed _ => false
  end.

Definition metrics_need_auth (o : HttpOutcome) : bool :=
  match o with
  | HttpReplied r => (status_code r =? 401) || (status_code r =? 403)
  | HttpFailed _ => false
  end.

(** *** Reading a decision *)

Definition is_monitorable (d : Dict) : bool :=
  bool_decide (d !! "monitorable" = Some (PyBool true)).

Definition strategy_of (d : Dict) : option string :=
  match d !! "strategy" with
  | Some (PyStr s) => Some s
  | _ => None
  end.

Definition confidence_of (d : Dict) : option string :=
  match d !! "confidence" with
  | Some (PyStr s) => Some s
  | _ => None
  end.

Definition next_steps_of (d : Dict) : option (list string) :=
  match d !! "next_steps" with
  | Some (PyStrList l) => Some l
  | _ => None
  end.

(** The invariant of the data model: a strategy exactly when monitorable,
    confidence [none] exactly when there is no strategy, next steps only
    when not monitorable. *)
Definition decision_invariant (d : Dict) : Prop :=
  (is_Some (strategy_of d) <-> is_monitorable d = true) /\
  (confidence_of d = Some "none" <-> strategy_of d = None) /\
  (is_Some (d !! "next_steps") -> d !! "monitorable" = Some (PyBool false)).

(** ** Sample targets and networks *)

(** A Python whose [urlsplit] accepts any bracketed host (as CPython did
    before it validated them). *)
Definition lenient_brackets (_ : string) : bool := true.

Definition target (u : string) : AppOnboardRequest :=
  {| app_type := "backend"; framework := None; url := u; env := Some "prod" |}.

(** A validated request whose URL reads [u] once normalised. *)
Definition request_for (u : string) : OnboardModel :=
  {| model_type := "backend"; model_framework := None;
     model_url := {| str_of_url := u |}; model_env := Some "prod" |}.

(** A network on which every request fails. *)
Definition silent_world : World :=
  {| http_answer := fun _ _ _ _ => HttpFailed ConnectionRefused;
     tcp_answer := fun _ _ _ _ => TcpFailed ConnectionRefused |}.

(** A network that answers every GET of [u] with [r] and nothing else. *)
Definition serving (u : string) (r : Response) : World :=
  {| http_answer := fun _ m u' _ =>
       match m with
       | GET => if String.eqb u u' then HttpReplied r else HttpFailed ConnectionRefused
       | POST => HttpFailed ConnectionRefused
       end;
     tcp_answer := fun _ _ _ _ => TcpFailed ConnectionRefused |}.

Definition metrics_page : Response :=
  {| status_code := 200; text := "# HELP foo"; resp_headers := [] |}.

Definition forbidden_page : Response :=
  {| status_code := 403; text := EmptyString; resp_headers := [] |}.

(** ** app/redis_client.py *)

(** [v.isdigit()] on ASCII text, and [int(v)] of such a text. *)
Definition isdigit (v : string) : bool :=
  match v with
  | EmptyString => false
  | _ => forall_chars is_digit v
  end.

Fixpoint int_of_digits (acc : Z) (v : string) : Z :=
  match v with
  | EmptyString => acc
  | String c t => int_of_digits (10 * acc + (Z.of_nat (nat_of_ascii c) - 48)) t
  end.

(** CPython's limit on the number of digits of a decimal text that
    [int] converts ([sys.int_info.default_max_str_digits]); the program
    does not change it. *)
Definition INT_MAX_STR_DIGITS : nat := 4300.

(** [int(v)] of a text of digits: leading zeros count as digits, and a
    text beyond the limit is refused with [ValueError]. *)
Definition py_int (v : string) : PyResult Z :=
  if (INT_MAX_STR_DIGITS <? String.length v)%nat then Raised ValueError
  else Returned (int_of_digits 0 v).

(** The texts [float(v)] accepts: optional sign, then [inf], [infinity]
    or [nan] in any case, or a decimal number with an optional exponent,
    digits possibly grouped by single underscores, surrounded by
    whitespace. *)
Definition is_space (c : ascii) : bool :=
  (ascii_in 9 13 c || is_char " " c)%bool.

(** What follows the digits of a digit part already begun. *)
Fixpoint skip_digits (s : string) : string :=
  match s with
  | String c t =>
      if is_digit c then skip_digits t
      else if is_char "_" c then
        match t with
        | String d t' => if is_digit d then skip_digits t' else s
        | EmptyString => s
        end
      else s
  | EmptyString => s
  end.

(** What follows a digit part, if [s] starts with one. *)
Definition skip_digitpart (s : string) : option string :=
  match s with
  | String c t => if is_digit c then Some (skip_digits t) else None
  | EmptyString => None
  end.

Definition skip_sign (s : string) : string :=
  match s with
  | String c t => if (is_char "+" c || is_char "-" c)%bool then t else s
  | EmptyString => s
  end.

(** What follows an exponent, if there is a well-formed one; [s] itself
    if none begins. *)
Definition skip_exponent (s : string) : option string :=
  match s with
  | String c t =>
      if (is_char "e" c || is_char "E" c)%bool then skip_digitpart (skip_sign t)
      else Some s
  | EmptyString => Some s
  end.

Definition skip_number (s : string) : option string :=
  match skip_digitpart s with
  | Some (String "." t) =>
      match skip_digitpart t with
      | Some r => Some r
      | None => Some t
      end
  | Some r => Some r
  | None =>
      match s with
      | String "." t => skip_digitpart t
      | _ => None
      end
  end.

Fixpoint rstrip_spaces (s : string) : string :=
  match s with
  | EmptyString => EmptyString
  | String c t =>
      match rstrip_spaces t with
      | EmptyString => if is_space c then EmptyString else String c EmptyString
      | t' => String c t'
      end
  end.

Definition float_parses (v : string) : bool :=
  let body := skip_sign (rstrip_spaces (lstrip_chars is_space v)) in
  let word := lower body in
  if (String.eqb word "inf" || String.eqb word "infinity" || String.eqb word "nan")%bool
  then true
  else match skip_number body with
       | Some r =>
           match skip_exponent r with
           | Some EmptyString => true
           | _ => false
           end
       | None => false
       end.

(** The Redis server behind the client [r]: whether it can be reached,
    and its hashes. *)
Record RedisServer : Type := {
  reachable : bool;
  hashes : gmap string (gmap string string)
}.

(** [r.hset(name, mapping=fields)]: the client refuses an empty mapping
    with [DataError] before it talks to the server; otherwise the given
    fields are set in the hash at [name], which is created if absent, and
    its other fields stay. *)
Definition hset (name : string) (fields : gmap string string) (srv : RedisServer)
  : PyResult unit * RedisServer :=
  if bool_decide (fields = ∅) then (Raised RedisDataError, srv)
  else if negb (reachable srv) then (Raised RedisConnectionError, srv)
  else (Returned tt,
        {| reachable := reachable srv;
           hashes := <[name := fields ∪ default ∅ (hashes srv !! name)]> (hashes srv) |}).

(** [r.hgetall(name)]: the fields of the hash, none if there is no hash. *)
Definition hgetall (name : string) (srv : RedisServer) : PyResult (gmap string string) :=
  if negb (reachable srv) then Raised RedisConnectionError
  else Returned (default ∅ (hashes srv !! name)).

(** [r.delete(name)]. *)
Definition redis_delete (name : string) (srv : RedisServer) : PyResult unit * RedisServer :=
  if negb (reachable srv) then (Raised RedisConnectionError, srv)
  else (Returned tt, {| reachable := reachable srv; hashes := delete name (hashes srv) |}).

Section Persistence.

(** [str(x)] of a float, by the text it was read from; floating-point
    formatting is left abstract. *)
Variable repr_float : string -> string.

Definition py_str (v : PyVal) : string :=
  match v with
  | PyNone => "None"
  | PyBool true => "True"
  | PyBool false => "False"
  | PyInt z => pretty z
  | PyFloat lit => repr_float lit
  | PyStr s => s
  | PyStrList l => str_of_list l
  end.

(** The value stored for one field by [_serialize_strategy]. *)
Definition serialize_value (v : PyVal) : string :=
  match v with
  | PyBool b => py_str (PyBool b)
  | PyNone => "None"
  | _ => py_str v
  end.

Definition _serialize_strategy (strategy_info : Dict) : gmap string string :=
  serialize_value <$> strategy_info.

Definition app_key (app_name : string) : string := "app:" +:+ app_name.

Definition save_monitoring_strategy (app_name : string) (strategy_info : Dict)
    (srv : RedisServer) : PyResult unit * RedisServer :=
  hset (app_key app_name) (_serialize_strategy strategy_info) srv.

(** What [get_monitoring_strategy] turns one stored field into.  The
    [ValueError] of [float(v)] is caught there, that of [int(v)] is
    not. *)
Definition decode_value (v : string) : PyResult PyVal :=
  if String.eqb v "True" then Returned (PyBool true)
  else if String.eqb v "False" then Returned (PyBool false)
  else if String.eqb v "None" then Returned PyNone
  else if isdigit v then
    match py_int v with
    | Returned z => Returned (PyInt z)
    | Raised e => Raised e
    end
  else if float_parses v then Returned (PyFloat v)
  else Returned (PyStr v).

(** The loop over [data.items()]: every field is replaced by its
    decoded value, and the first conversion that raises ends the loop. *)
Definition decode_fields (data : gmap string string) : PyResult Dict :=
  map_fold (fun k v acc =>
              match acc with
              | Raised e => Raised e
              | Returned decoded =>
                  match decode_value v with
                  | Raised e => Raised e
                  | Returned x => Returned (<[k := x]> decoded)
                  end
              end)
           (Returned ∅) data.

(** [None] when nothing is stored under the key; only the errors of the
    Redis client are caught (and raised again), so that a [ValueError] of
    the decoding leaves the function too. *)
Definition get_monitoring_strategy (app_name : string) (srv : RedisServer)
  : PyResult (option Dict) :=
  match hgetall (app_key app_name) srv with
  | Raised e => Raised e
  | Returned data =>
      if bool_decide (data = ∅) then Returned None
      else match decode_fields data with
           | Raised e => Raised e
           | Returned decoded => Returned (Some decoded)
           end
  end.

Definition delete_monitoring_strategy (app_name : string) (srv : RedisServer)
  : PyResult unit * RedisServer :=
  redis_delete (app_key app_name) srv.

(** ** app/main.py: what an onboarding call does to the store

    [onboard_app] turns the request into its payload, whose [url] is the
    normalised text of the validated URL, resolves the strategy of the
    payload, applies it (which does not touch the store) and saves the
    decision under the payload's URL. *)
Variable bracketed_host_ok : string -> bool.

Definition onboard_app (w : World) (clk : nat) (app_data : OnboardModel)
    (srv : RedisServer) : PyResult Dict * RedisServer :=
  let payload := payload_of app_data in
  match result w clk (detect_monitoring_strategy bracketed_host_ok payload) with
  | Raised e => (Raised e, srv)
  | Returned decision =>
      match save_monitoring_strategy (url payload) decision srv with
      | (Raised e, srv') => (Raised e, srv')
      | (Returned _, srv') => (Returned decision, srv')
      end
  end.

End Persistence.


(** ** app/prometheus_dynamic.py *)

(** What [yaml.safe_load] gives: scalars, sequences and mappings.  A
    float is its IEEE 754 value.  [YRef a] mentions the shared object
    [a] of the document (see [Document]). *)
Inductive Yaml : Type :=
| YNull
| YBool (b : bool)
| YInt (z : Z)
| YFloat (f : spec_float)
| YStr (s : string)
| YSeq (l : list Yaml)
| YMap (m : gmap string Yaml)
| YRef (a : positive).

(** A loaded document.  A node that the YAML text anchors and mentions
    again through aliases is loaded as one Python object, shared by all
    its mentions, and [yaml.safe_dump] writes it back as such: these
    objects are kept in [shared], and each mention of one is a [YRef].  A
    node written in place is an object of its own, mentioned nowhere
    else. *)
Record Document : Type := {
  root : Yaml;
  shared : gmap positive Yaml
}.

(** A document without shared objects. *)
Definition unshared (y : Yaml) : Document := {| root := y; shared := ∅ |}.
Coercion unshared : Yaml >-> Document.

(** The scrape-config resource: unreadable (missing, unreadable or not
    YAML, with the exception that reading raises), or holding a
    document. *)
Inductive ConfigFile : Type :=
| Unreadable (e : PyExn)
| Holding (doc : Document).

(** The outside of [add_prometheus_scrape_job]: the file at
    [PROMETHEUS_CONFIG_PATH], whether it can be opened for writing, what
    the reload endpoint answers, and how many reloads it was asked for. *)
Record PromEnv : Type := {
  config_file : ConfigFile;
  writable : bool;
  reload_answer : HttpOutcome;
  reload_requests : nat
}.

(** The [scrape_config] argument; the optional keys are those read with
    [get]. *)
Record ScrapeConfig : Type := {
  job_name : string;
  metrics_path : option string;
  targets : option (list Yaml);
  auth_required : bool
}.

(** The object a node stands for.  In a loaded document every mention
    has its object; [None] is read for one that has not. *)
Definition resolve (objects : gmap positive Yaml) (node : Yaml) : Yaml :=
  match node with
  | YRef a => default YNull (objects !! a)
  | _ => node
  end.

(** The object at the root of a document. *)
Definition root_value (config : Document) : Yaml :=
  resolve (shared config) (root config).

(** The document whose root object has become [value]: a shared root is
    changed for all its mentions. *)
Definition with_root_value (value : Yaml) (config : Document) : Document :=
  match root config with
  | YRef a => {| root := YRef a; shared := <[a := value]> (shared config) |}
  | _ => {| root := value; shared := shared config |}
  end.

(** The truth value of an object; a float is false when it is a zero of
    either sign. *)
Definition truthy (y : Yaml) : option bool :=
  match y with
  | YNull => Some false
  | YBool b => Some b
  | YInt z => Some (negb (z =? 0))
  | YFloat f => Some (match f with S754_zero _ => false | _ => true end)
  | YStr s => Some (negb (String.eqb s EmptyString))
  | YSeq l => Some (match l with [] => false | _ => true end)
  | YMap m => Some (negb (bool_decide (m = ∅)))
  | YRef _ => None
  end.

Definition is_ystr (s : string) (y : Yaml) : bool :=
  match y with
  | YStr s' => String.eqb s s'
  | _ => false
  end.

(** ["scrape_configs" in config]. *)
Definition py_in (key : string) (config : Document) : PyResult bool :=
  match root_value config with
  | YMap m => Returned (bool_decide (is_Some (m !! key)))
  | YSeq l => Returned (existsb (fun x => is_ystr key (resolve (shared config) x)) l)
  | YStr s => Returned (contains key s)
  | _ => Raised TypeError
  end.

(** [config[key] = value]. *)
Definition py_setitem (key : string) (value : Yaml) (config : Document)
  : PyResult Document :=
  match root_value config with
  | YMap m => Returned (with_root_value (YMap (<[key := value]> m)) config)
  | _ => Raised TypeError
  end.

(** [obj[key]] for a key that is a string. *)
Definition py_getitem (key : string) (obj : Yaml) : PyResult Yaml :=
  match obj with
  | YMap m =>
      match m !! key with
      | Some v => Returned v
      | None => Raised KeyError
      end
  | _ => Raised TypeError
  end.

(** [[job["job_name"] for job in jobs]] over a list. *)
Fixpoint job_names (objects : gmap positive Yaml) (jobs : list Yaml)
  : PyResult (list Yaml) :=
  match jobs with
  | [] => Returned []
  | job :: rest =>
      match py_getitem "job_name" (resolve objects job) with
      | Raised e => Raised e
      | Returned name =>
          match job_names objects rest with
          | Raised e => Raised e
          | Returned names => Returned (resolve objects name :: names)
          end
      end
  end.

(** The same comprehension over whatever [config["scrape_configs"]] is:
    a list gives its jobs' names, an empty mapping or text gives none,
    their elements cannot be subscripted by a name, and nothing else can
    be iterated. *)
Definition existing_job_names (objects : gmap positive Yaml) (scrape_configs : Yaml)
  : PyResult (list Yaml) :=
  match resolve objects scrape_configs with
  | YSeq jobs => job_names objects jobs
  | YMap m => if bool_decide (m = ∅) then Returned [] else Raised TypeError
  | YStr s => if String.eqb s EmptyString then Returned [] else Raised TypeError
  | _ => Raised TypeError
  end.

(** [config[key].append(job_entry)]: the list object under [key] grows
    in place.  When it is a shared object, every mention of it shows the
    new entry; when it is written in place, it is mentioned by the root
    mapping only. *)
Definition py_append_under (key : string) (job_entry : Yaml) (config : Document)
  : PyResult Document :=
  match root_value config with
  | YMap m =>
      match m !! key with
      | Some (YRef a) =>
          match shared config !! a with
          | Some (YSeq jobs) =>
              Returned {| root := root config;
                          shared := <[a := YSeq (jobs ++ [job_entry])]> (shared config) |}
          | _ => Raised AttributeError
          end
      | Some (YSeq jobs) =>
          Returned (with_root_value (YMap (<[key := YSeq (jobs ++ [job_entry])]> m)) config)
      | Some _ => Raised AttributeError
      | None => Raised KeyError
      end
  | _ => Raised TypeError
  end.

Definition job_entry_of (scrape_config : ScrapeConfig) : Yaml :=
  let entry : gmap string Yaml :=
    {[ "job_name" := YStr (job_name scrape_config);
       "metrics_path" := YStr (default "/metrics" (metrics_path scrape_config));
       "static_configs" :=
         YSeq [YMap {[ "targets" := YSeq (default [] (targets scrape_config)) ]}] ]} in
  if auth_required scrape_config then
    YMap (<["basic_auth" :=
              YMap {[ "username" := YStr "PROM_USER"; "password" := YStr "PROM_PASS" ]}]> entry)
  else YMap entry.

(** [yaml.safe_load(f) or {}]: a document whose root is false in Python's
    sense is replaced by a new, empty mapping. *)
Definition or_empty_map (doc : Document) : Document :=
  if default true (truthy (root_value doc)) then doc else unshared (YMap ∅).

(** The configuration as loaded and completed with an empty
    [scrape_configs] when it has none. *)
Definition load_config (env : PromEnv) : PyResult Document :=
  match config_file env with
  | Unreadable e => Raised e
  | Holding doc =>
      let config := or_empty_map doc in
      match py_in "scrape_configs" config with
      | Raised e => Raised e
      | Returned true => Returned config
      | Returned false => py_setitem "scrape_configs" (YSeq []) config
      end
  end.

(** Writing the configuration back and asking for the reload. *)
Definition persist_and_reload (config : Document) (env : PromEnv)
  : PyResult bool * PromEnv :=
  if negb (writable env) then (Raised OSError, env)
  else
    let env' := {| config_file := Holding config;
                   writable := writable env;
                   reload_answer := reload_answer env;
                   reload_requests := S (reload_requests env) |} in
    match reload_answer env with
    | HttpFailed _ => (Raised RequestException, env')
    | HttpReplied r => (Returned (status_code r =? 200), env')
    end.

(** The body of the [try] of [add_prometheus_scrape_job]. *)
Definition add_prometheus_scrape_job_body (scrape_config : ScrapeConfig) (env : PromEnv)
  : PyResult bool * PromEnv :=
  match load_config env with
  | Raised e => (Raised e, env)
  | Returned config =>
      match py_getitem "scrape_configs" (root_value config) with
      | Raised e => (Raised e, env)
      | Returned scrape_configs =>
          match existing_job_names (shared config) scrape_configs with
          | Raised e => (Raised e, env)
          | Returned existing_jobs =>
              if existsb (is_ystr (job_name scrape_config)) existing_jobs
              then (Returned false, env)
              else
                match py_append_under "scrape_configs" (job_entry_of scrape_config) config with
                | Raised e => (Raised e, env)
                | Returned config' => persist_and_reload config' env
                end
          end
      end
  end.

(** Every exception of the body is caught and reported as [False]. *)
Definition add_prometheus_scrape_job (scrape_config : ScrapeConfig) (env : PromEnv)
  : bool * PromEnv :=
  match add_prometheus_scrape_job_body scrape_config env with
  | (Returned ok, env') => (ok, env')
  | (Raised _, env') => (false, env')
  end.

(** [f"auto_{hostname}"]. *)
Definition auto_job_name (hostname : option string) : string :=
  "auto_" +:+ default "None" hostname.

Definition yaml_of_hostname (hostname : option string) : Yaml :=
  match hostname with
  | Some h => YStr h
  | None => YNull
  end.

Section PrometheusScrape.

Variable bracketed_host_ok : string -> bool.

(** The generated configuration is returned; the success flag of the
    mutation is dropped here. *)
Definition configure_prometheus_scrape (url : string) (auth : bool) (env : PromEnv)
  : PyResult ScrapeConfig * PromEnv :=
  match urlparse_hostname bracketed_host_ok url with
  | Raised e => (Raised e, env)
  | Returned hostname =>
      let scrape_config :=
        {| job_name := auto_job_name hostname;
           metrics_path := Some "/metrics";
           targets := Some [yaml_of_hostname hostname];
           auth_required := auth |} in
      (Returned scrape_config, snd (add_prometheus_scrape_job scrape_config env))
  end.

End PrometheusScrape.

(** The jobs named [name] among [scrape_configs], as the mutation sees
    them. *)
Definition job_exists (name : string) (env : PromEnv) : Prop :=
  exists config scrape_configs names,
    load_config env = Returned config /\
    py_getitem "scrape_configs" (root_value config) = Returned scrape_configs /\
    existing_job_names (shared config) scrape_configs = Returned names /\
    existsb (is_ystr name) names = true.

(** ** Sample stores and configurations *)

Definition empty_redis : RedisServer := {| reachable := true; hashes := ∅ |}.

Definition sample_job (name : string) : Yaml := YMap {[ "job_name" := YStr name ]}.

(** A writable configuration with one job, behind a Prometheus that
    reloads. *)
Definition sample_prom_env : PromEnv :=
  {| config_file := Holding (YMap {[ "scrape_configs" := YSeq [sample_job "auto_svc.local"] ]});
     writable := true;
     reload_answer := HttpReplied {| status_code := 200; text := EmptyString; resp_headers := [] |};
     reload_requests := 0 |}.

Definition sample_scrape_config (host : string) : ScrapeConfig :=
  {| job_name := auto_job_name (Some host);
     metrics_path := Some "/metrics";
     targets := Some [YStr host];
     auth_required := false |}.

Definition svc : AppOnboardRequest := target "http://svc.local".
Definition svc_metrics : World := serving "http://svc.local/metrics" metrics_page.
Definition svc_forbidden : World := serving "http://svc.local/metrics" forbidden_page.

(** The request for [http://svc.local]: pydantic gives the URL a path, so
    that the payload reads [http://svc.local/] and [/metrics] is asked
    for at [http://svc.local//metrics]. *)
Definition svc_request : OnboardModel := request_for "http://svc.local/".
Definition svc_request_metrics : World := serving "http://svc.local//metrics" metrics_page.

(** A network on which every request times out. *)
Definition timeout_world : World :=
  {| http_answer := fun _ _ _ _ => HttpFailed Timeout;
     tcp_answer := fun _ _ _ _ => TcpFailed Timeout |}.

(** A network on which the target answers a plain GET from behind an AWS
    load balancer. *)
Definition svc_on_aws : World :=
  serving "http://svc.local"
    {| status_code := 200; text := "ok";
       resp_headers := [("Content-Type", "text/plain"); ("x-amzn-RequestId", "4f2a")] |}.

(** ** app/permission.py: the log and trace probes *)

Definition LOKI_TIMEOUT : Z := 3.

Definition check_loki_endpoint (base_url : string) : Prog bool :=
  r <- requests_get (base_url +:+ "/loki/api/v1/labels") LOKI_TIMEOUT ;;
  match r with
  | HttpReplied r => Ret (status_code r =? 200)
  | HttpFailed _ => Ret false
  end.

Definition check_tempo_endpoint (base_url : string) : Prog bool :=
  r <- requests_get (base_url +:+ "/tempo/api/traces") LOKI_TIMEOUT ;;
  match r with
  | HttpReplied r => Ret (status_in [200; 404] (status_code r))
  | HttpFailed _ => Ret false
  end.

(** ** app/permission.py: the actions *)

(** The dictionaries the configuration builders return, one constructor
    for each shape. *)
Inductive ActionResult : Type :=
| ScrapeConfigured (scrape_config : ScrapeConfig)
| OtlpPipeline (protocol : string) (endpoint : option string) (metrics : list string)
| StatsdExporter (host : option string) (port : Z) (metrics : list string)
| BlackboxExporter (url : string) (metrics : list string)
| K8sAutodiscovery (strategy : string) (metrics : list string)
| CloudMonitoring (cloud_provider : string) (metrics : list string)
| Skipped (status reason : string).

Definition configure_otlp_pipeline (endpoint : option string) (protocol : string)
  : ActionResult :=
  OtlpPipeline protocol endpoint
    [ "trace_duration_seconds"; "span_errors_total"; "http_client_duration_seconds";
      "http_server_requests_total"; "process_cpu_usage"; "process_memory_rss";
      "custom_app_metrics" ].

Definition configure_statsd_exporter (host : option string) : ActionResult :=
  StatsdExporter host 8125
    [ "requests.count"; "requests.duration"; "memory.usage"; "cpu.usage"; "queue.size" ].

Definition configure_blackbox_exporter (url : string) : ActionResult :=
  BlackboxExporter url
    [ "probe_success"; "probe_duration_seconds"; "http_status_code";
      "dns_lookup_duration_seconds"; "tcp_connection_duration_seconds" ].

Definition configure_k8s_autodiscovery : ActionResult :=
  K8sAutodiscovery "k8s-autodiscovery"
    [ "kube_pod_info"; "kube_pod_status_phase"; "kube_deployment_status_replicas";
      "container_cpu_usage_seconds_total"; "container_memory_usage_bytes";
      "kube_node_status_condition" ].

Definition configure_cloud_monitoring (provider : string) : ActionResult :=
  CloudMonitoring provider
    (if String.eqb provider "aws" then
       [ "EC2_CPUUtilization"; "EC2_MemoryUtilization"; "ELB_RequestCount";
         "RDS_CPUUtilization" ]
     else if String.eqb provider "gcp" then
       [ "compute.googleapis.com/instance/cpu/utilization";
         "compute.googleapis.com/instance/disk/write_bytes_count" ]
     else if String.eqb provider "azure" then
       [ "Percentage CPU"; "Network In Total"; "Disk Read Bytes/Sec" ]
     else []).

(** [s.endswith(suffix)]. *)
Fixpoint ends_with (suffix s : string) : bool :=
  (String.eqb suffix s ||
   match s with
   | EmptyString => false
   | String _ t => ends_with suffix t
   end)%bool.

(** [s.split("-")[0]]. *)
Definition before_first_dash (s : string) : string :=
  fst (break_at (is_char "-") s).

Section Actions.

Variable bracketed_host_ok : string -> bool.

(** Whether a float read from the given text is non-zero; floating-point
    evaluation is left abstract. *)
Variable float_nonzero : string -> bool.

(** The truth value of a Python value. *)
Definition py_truthy (v : PyVal) : bool :=
  match v with
  | PyNone => false
  | PyBool b => b
  | PyInt z => negb (z =? 0)
  | PyFloat lit => float_nonzero lit
  | PyStr s => negb (String.eqb s EmptyString)
  | PyStrList l => match l with [] => false | _ => true end
  end.

(** The branches of [apply_monitoring_strategy] that are tried once the
    strategy is none of the eight named ones: [logs_enabled] leads to
    [app["name"]], a key the onboarding payload does not have. *)
Definition apply_without_strategy (strategy_info : Dict) : PyResult ActionResult :=
  if py_truthy (default PyNone (strategy_info !! "logs_enabled"))
  then Raised KeyError
  else Returned (Skipped "skipped" "No actionable strategy found").

Definition apply_monitoring_strategy (app : AppOnboardRequest) (strategy_info : Dict)
    (env : PromEnv) : PyResult ActionResult * PromEnv :=
  let base_url := url app in
  match default PyNone (strategy_info !! "strategy") with
  | PyStr strategy =>
      if String.eqb strategy "prometheus" then
        match configure_prometheus_scrape bracketed_host_ok base_url false env with
        | (Returned sc, env') => (Returned (ScrapeConfigured sc), env')
        | (Raised e, env') => (Raised e, env')
        end
      else if String.eqb strategy "prometheus-auth" then
        match configure_prometheus_scrape bracketed_host_ok base_url true env with
        | (Returned sc, env') => (Returned (ScrapeConfigured sc), env')
        | (Raised e, env') => (Raised e, env')
        end
      else if String.eqb strategy "opentelemetry-http" then
        (Returned (configure_otlp_pipeline (Some base_url) "http"), env)
      else if String.eqb strategy "opentelemetry-grpc" then
        match urlparse_hostname bracketed_host_ok base_url with
        | Returned host => (Returned (configure_otlp_pipeline host "grpc"), env)
        | Raised e => (Raised e, env)
        end
      else if String.eqb strategy "statsd" then
        match urlparse_hostname bracketed_host_ok base_url with
        | Returned host => (Returned (configure_statsd_exporter host), env)
        | Raised e => (Raised e, env)
        end
      else if String.eqb strategy "kubernetes-auto" then
        (Returned configure_k8s_autodiscovery, env)
      else if (negb (String.eqb strategy EmptyString) && ends_with "cloud-metrics" strategy)%bool
      then (Returned (configure_cloud_monitoring (before_first_dash strategy)), env)
      else if String.eqb strategy "blackbox-http" then
        (Returned (configure_blackbox_exporter base_url), env)
      else (apply_without_strategy strategy_info, env)
  | other =>
      if py_truthy other then (Raised AttributeError, env)
      else (apply_without_strategy strategy_info, env)
  end.

(** ** app/main.py *)

Variable repr_float : string -> string.

(** [onboard_app] with its three steps on the payload: detect, apply,
    persist. *)
Definition onboard_app_steps (w : World) (clk : nat) (app_data : OnboardModel)
    (env : PromEnv) (srv : RedisServer) : PyResult Dict * PromEnv * RedisServer :=
  let payload := payload_of app_data in
  match result w clk (detect_monitoring_strategy bracketed_host_ok payload) with
  | Raised e => (Raised e, env, srv)
  | Returned decision =>
      match apply_monitoring_strategy payload decision env with
      | (Raised e, env') => (Raised e, env', srv)
      | (Returned _, env') =>
          match save_monitoring_strategy repr_float (url payload) decision srv with
          | (Raised e, srv') => (Raised e, env', srv')
          | (Returned _, srv') => (Returned decision, env', srv')
          end
      end
  end.

End Actions.

(** The decision [get_saved_strategy] answers with when nothing is found. *)
Definition no_strategy_found : Dict :=
  {[ "monitorable" := PyBool false;
     "strategy" := PyNone;
     "confidence" := PyStr "none";
     "details" := PyStr "No strategy found" ]}.

Definition get_saved_strategy (app_url : string) (srv : RedisServer) : PyResult Dict :=
  match get_monitoring_strategy app_url srv with
  | Raised e => Raised e
  | Returned None => Returned no_strategy_found
  | Returned (Some saved) =>
      if bool_decide (saved = ∅) then Returned no_strategy_found else Returned saved
  end.

(** ** Vocabulary for the properties *)

(** The requests a resolution of [base_url] with host [host] may make. *)
Definition resolver_request (base_url : string) (host : option string) (ev : Event) : bool :=
  match ev with
  | EvHttp GET u t _ =>
      (String.eqb u base_url && ((t =? 2) || (t =? 5)))
      || (String.eqb u (base_url +:+ "/metrics") && (t =? PROM_TIMEOUT))
  | EvHttp POST u t _ =>
      (String.eqb u (base_url +:+ "/v1/traces") || String.eqb u (base_url +:+ "/v1/metrics"))
      && (t =? OTEL_TIMEOUT)
  | EvTcp h p t _ =>
      bool_decide (h = host) && ((p =? 4317) || (p =? STATSD_PORT)) && (t =? 2)
  end.

(** Some header name or value contains [marker], whatever its case. *)
Definition header_mentions (marker : string) (headers : list (string * string)) : bool :=
  existsb (fun kv => contains marker (lower (fst kv)) || contains marker (lower (snd kv)))
    headers.

(** The decisions a resolution can return. *)
Definition possible_decisions : list Dict :=
  [ monitorable_decision "prometheus" "high" "/metrics endpoint detected";
    monitorable_decision "prometheus-auth" "medium" "/metrics exists but requires auth";
    monitorable_decision "opentelemetry-http" "high" "OTLP HTTP endpoint detected";
    monitorable_decision "opentelemetry-grpc" "high" "OTLP gRPC endpoint detected on port 4317";
    monitorable_decision "statsd" "medium" "StatsD-compatible agent detected";
    monitorable_decision "kubernetes-auto" "medium" "Kubernetes environment detected";
    monitorable_decision "aws-cloud-metrics" "low" "AWS headers detected";
    monitorable_decision "gcp-cloud-metrics" "low" "GCP headers detected";
    monitorable_decision "azure-cloud-metrics" "low" "AZURE headers detected";
    monitorable_decision "blackbox-http" "low" "Only uptime / latency monitoring possible";
    unmonitorable_decision ].

(** The jobs of a configuration document: the list object that
    [scrape_configs] of its root mapping stands for. *)
Definition jobs_of (doc : Document) : option (list Yaml) :=
  match root_value doc with
  | YMap m =>
      match m !! "scrape_configs" with
      | Some node =>
          match resolve (shared doc) node with
          | YSeq jobs => Some jobs
          | _ => None
          end
      | None => None
      end
  | _ => None
  end.

(** The decoded value of a stored field whose decoding does not
    raise. *)
Definition decoded (v : string) : PyVal :=
  match decode_value v with
  | Returned x => x
  | Raised _ => PyNone
  end.

(** What a decision is fetched back as when nothing else was stored
    under its key: a list comes back as the text Python prints for it. *)
Definition as_fetched (d : Dict) : Dict :=
  (fun v => match v with
            | PyStrList l => PyStr (str_of_list l)
            | _ => v
            end) <$> d.

(** A reply that [check_otlp_http] takes for an OTLP endpoint. *)
Definition otlp_accepts (o : HttpOutcome) : bool :=
  match o with
  | HttpReplied r => status_in [200; 404; 415] (status_code r)
  | HttpFailed _ => false
  end.

(** The characters of the header markers: lower-case letters and the
    dash. *)
Definition marker_char (c : ascii) : bool := (is_lower c || is_char "-" c)%bool.

(** A root object [add_prometheus_scrape_job] cannot work with: it is
    true in Python's sense and no mapping. *)
Definition unusable_document (doc : Yaml) : bool :=
  match doc with
  | YBool b => b
  | YInt z => negb (z =? 0)
  | YFloat f => match f with S754_zero _ => false | _ => true end
  | YStr s => negb (String.eqb s EmptyString)
  | YSeq l => match l with [] => false | _ => true end
  | YNull | YMap _ | YRef _ => false
  end.

(** The environment after [config] was written and one reload asked. *)
Definition written (config : Document) (env : PromEnv) : PromEnv :=
  {| config_file := Holding config;
     writable := true;
     reload_answer := reload_answer env;
     reload_requests := S (reload_requests env) |}.

(** Whether the reload endpoint answers 200. *)
Definition reload_succeeds (env : PromEnv) : bool :=
  match reload_answer env with
  | HttpReplied r => status_code r =? 200
  | HttpFailed _ => false
  end.

(** ** More samples *)

(** A network on which every HTTP request is answered with [r] and no
    port accepts a connection. *)
Definition answering (r : Response) : World :=
  {| http_answer := fun _ _ _ _ => HttpReplied r;
     tcp_answer := fun _ _ _ _ => TcpFailed ConnectionRefused |}.

Definition not_found_page : Response :=
  {| status_code := 404; text := "Not Found"; resp_headers := [] |}.

Definition prom_env_with (file : ConfigFile) (reload : HttpOutcome) : PromEnv :=
  {| config_file := file; writable := true; reload_answer := reload; reload_requests := 0 |}.

Definition reload_ok : HttpOutcome :=
  HttpReplied {| status_code := 200; text := EmptyString; resp_headers := [] |}.

Definition reload_down : HttpOutcome := HttpFailed ConnectionRefused.

Definition unreachable_redis : RedisServer := {| reachable := false; hashes := ∅ |}.

Definition no_float_is_zero (_ : string) : bool := true.

(** A configuration in which [scrape_configs] and [backup] are one list:
    the text anchors the list under one key and mentions it by an alias
    under the other. *)
Definition aliased_jobs_doc : Document :=
  {| root := YMap {[ "scrape_configs" := YRef 1; "backup" := YRef 1 ]};
     shared := {[ 1%positive := YSeq [sample_job "auto_svc.local"] ]} |}.

(** A text of 4301 digits. *)
Definition long_digits : string := string_of_list_ascii (repeat "9"%char 4301).

(** A configuration without jobs behind a reload endpoint that is
    down. *)
Definition no_jobs : gmap string Yaml := {[ "scrape_configs" := YSeq [] ]}.
Definition reload_down_env : PromEnv := prom_env_with (Holding (YMap no_jobs)) reload_down.

(** A configuration one of whose jobs is a text. *)
Definition bad_jobs : gmap string Yaml :=
  {[ "scrape_configs" := YSeq [sample_job "a"; YStr "not a job"] ]}.
(** * Properties *)

(** ** Running computations *)

Lemma run_bind {A B} (w : World) (p : Prog A) (f : A -> Prog B) (clk : nat) :
  run w clk (bind p f) =
  let '(a, tr) := run w clk p in
  let '(b, tr') := run w (clk + length tr)%nat (f a) in
  (b, tr ++ tr').
Proof.
  revert clk; induction p as [a | m u t k IH | h port t k IH]; intros clk; simpl.
  - rewrite Nat.add_0_r. destruct (run w clk (f a)); reflexivity.
  - rewrite IH. destruct (run w (S clk) (k _)) as [a tr]; simpl.
    replace (clk + S (length tr))%nat with (S clk + length tr)%nat by lia.
    destruct (run w _ (f a)); reflexivity.
  - rewrite IH. destruct (run w (S clk) (k _)) as [a tr]; simpl.
    replace (clk + S (length tr))%nat with (S clk + length tr)%nat by lia.
    destruct (run w _ (f a)); reflexivity.
Qed.

Lemma result_bind {A B} (w : World) (p : Prog A) (f : A -> Prog B) (clk : nat) :
  result w clk (bind p f) =
  result w (clk + length (trace w clk p))%nat (f (result w clk p)).
Proof.
  unfold result, trace. rewrite run_bind.
  destruct (run w clk p) as [a tr]; simpl.
  destruct (run w (clk + length tr)%nat (f a)); reflexivity.
Qed.

Lemma trace_bind {A B} (w : World) (p : Prog A) (f : A -> Prog B) (clk : nat) :
  trace w clk (bind p f) =
  trace w clk p ++ trace w (clk + length (trace w clk p))%nat (f (result w clk p)).
Proof.
  unfold result, trace. rewrite run_bind.
  destruct (run w clk p) as [a tr]; simpl.
  destruct (run w (clk + length tr)%nat (f a)); reflexivity.
Qed.

Lemma run_result_trace {A} (w : World) (clk : nat) (p : Prog A) :
  run w clk p = (result w clk p, trace w clk p).
Proof. unfold result, trace. destruct (run w clk p); reflexivity. Qed.

#[global] Arguments monitorable_decision : simpl never.
#[global] Arguments unmonitorable_decision : simpl never.
#[global] Arguments contains : simpl never.
#[global] Arguments detect_kubernetes_env : simpl never.
#[global] Arguments detect_cloud_provider : simpl never.
#[global] Arguments String.append : simpl never.

(** The probes are run one after the other, each at the time the
    previous one ended. *)
Lemma probe_in_order_cons (w : World) (clk : nat) (p : Prog bool) (ps : list (Prog bool)) :
  run w clk (probe_in_order (p :: ps)) =
  let '(ok, tr) := run w clk p in
  if ok : bool then ([true], tr)
  else let '(oks, tr') := run w (clk + length tr)%nat (probe_in_order ps) in
       (false :: oks, tr ++ tr').
Proof.
  cbn [probe_in_order]. rewrite run_bind.
  destruct (run w clk p) as [[|] tr]; simpl.
  - rewrite app_nil_r. reflexivity.
  - rewrite run_bind. destruct (run w _ (probe_in_order ps)) as [oks tr']; simpl.
    rewrite app_nil_r. reflexivity.
Qed.

Lemma observe_run (w : World) (clk : nat) (base_url : string) (host : option string) :
  run w clk (observe base_url host) =
  let '(headers, tr) := run w clk (fetch_headers base_url) in
  let '(oks, tr') :=
    run w (clk + length tr)%nat (probe_in_order (probes base_url host headers)) in
  ((headers, oks), tr ++ tr').
Proof.
  unfold observe. rewrite run_bind.
  destruct (run w clk (fetch_headers base_url)) as [headers tr].
  rewrite run_bind.
  destruct (run w _ (probe_in_order _)) as [oks tr']; simpl.
  rewrite app_nil_r. reflexivity.
Qed.

Lemma chain_outcome_cons (w : World) (clk : nat) (p : Prog bool) (ps : list (Prog bool))
    (r : Row) (rows : list Row) :
  chain_outcome w clk (p :: ps) (r :: rows) =
  let '(ok, tr) := run w clk p in
  if ok : bool then (Returned (decision_of r), tr)
  else let '(d, tr') := chain_outcome w (clk + length tr)%nat ps rows in
       (d, tr ++ tr').
Proof.
  unfold chain_outcome. rewrite probe_in_order_cons.
  destruct (run w clk p) as [[|] tr]; [reflexivity |].
  destruct (run w _ (probe_in_order ps)) as [oks tr']. reflexivity.
Qed.

(** ** Reading decisions *)

Lemma is_monitorable_decision (s c d : string) :
  is_monitorable (monitorable_decision s c d) = true.
Proof. reflexivity. Qed.

Lemma strategy_of_decision (s c d : string) :
  strategy_of (monitorable_decision s c d) = Some s.
Proof. reflexivity. Qed.

Lemma confidence_of_decision (s c d : string) :
  confidence_of (monitorable_decision s c d) = Some c.
Proof. reflexivity. Qed.

Lemma next_steps_of_decision (s c d : string) :
  monitorable_decision s c d !! "next_steps" = None.
Proof. reflexivity. Qed.

(** Equal observations give equal results: a computation has no input
    but the outcomes of its requests. *)
Lemma trace_determines_result {A} (p : Prog A) (w1 w2 : World) (c1 c2 : nat) :
  trace w1 c1 p = trace w2 c2 p -> result w1 c1 p = result w2 c2 p.
Proof.
  unfold trace, result. revert c1 c2.
  induction p as [a | m u t k IH | h port t k IH]; intros c1 c2; simpl.
  - reflexivity.
  - destruct (run w1 (S c1) (k _)) as [a1 tr1] eqn:E1.
    destruct (run w2 (S c2) (k _)) as [a2 tr2] eqn:E2. simpl.
    intros Heq. injection Heq as Ho Htr.
    rewrite Ho in E1.
    pose proof (IH (http_answer w2 c2 m u t) (S c1) (S c2)) as IH'.
    rewrite E1, E2 in IH'. exact (IH' Htr).
  - destruct (run w1 (S c1) (k _)) as [a1 tr1] eqn:E1.
    destruct (run w2 (S c2) (k _)) as [a2 tr2] eqn:E2. simpl.
    intros Heq. injection Heq as Ho Htr.
    rewrite Ho in E1.
    pose proof (IH (tcp_answer w2 c2 h port t) (S c1) (S c2)) as IH'.
    rewrite E1, E2 in IH'. exact (IH' Htr).
Qed.

(** On a stable network the time of a run does not matter. *)
Lemma stable_run {A} (p : Prog A) (w : World) (c1 c2 : nat) :
  stable w -> run w c1 p = run w c2 p.
Proof.
  intros [Hhttp Htcp]. revert c1 c2.
  induction p as [a | m u t k IH | h port t k IH]; intros c1 c2; simpl.
  - reflexivity.
  - rewrite (Hhttp c1 c2), (IH _ (S c1) (S c2)). reflexivity.
  - rewrite (Htcp c1 c2), (IH _ (S c1) (S c2)). reflexivity.
Qed.

Lemma first_success_cases (oks : list bool) (rows : list Row) :
  first_success oks rows = unmonitorable_decision \/
  exists r, In r rows /\ first_success oks rows = decision_of r.
Proof.
  revert rows; induction oks as [| [|] oks IH]; intros [| r rows]; simpl; auto.
  - right. exists r. auto.
  - destruct (IH rows) as [H | (r' & Hin & H)]; [left | right; exists r']; auto.
Qed.

Lemma detect_cloud_provider_cases (headers : list (string * string)) :
  In (detect_cloud_provider headers) [Some "aws"; Some "gcp"; Some "azure"; None].
Proof.
  unfold detect_cloud_provider.
  repeat match goal with |- context [if ?b then _ else _] => destruct b end;
    simpl; auto.
Qed.

Lemma urlparse_raises_value_error (ok : string -> bool) (u : string) (e : PyExn) :
  urlparse_hostname ok u = Raised e -> e = ValueError.
Proof.
  unfold urlparse_hostname, netloc_of.
  repeat match goal with |- context [if ?b then _ else _] => destruct b end;
    congruence.
Qed.

Lemma monitorable_decision_invariant (s c d : string) :
  c <> "none" -> decision_invariant (monitorable_decision s c d).
Proof.
  intros Hc. unfold decision_invariant.
  rewrite strategy_of_decision, confidence_of_decision, is_monitorable_decision,
    next_steps_of_decision.
  repeat split; try (intros; eauto; fail).
  - intros [=]. contradiction.
  - discriminate.
  - intros [x [=]].
Qed.

Lemma unmonitorable_decision_invariant : decision_invariant unmonitorable_decision.
Proof.
  unfold decision_invariant. repeat split; try reflexivity.
  - intros [x [=]].
  - discriminate.
Qed.

Lemma first_success_strategy (oks : list bool) (rows : list Row) (s : string) :
  strategy_of (first_success oks rows) = Some s -> In s (map row_strategy rows).
Proof.
  revert rows; induction oks as [| [|] oks IH]; intros [| r rows]; simpl;
    try discriminate.
  - unfold decision_of. rewrite strategy_of_decision. intros [= <-]. auto.
  - intros H. right. apply IH, H.
Qed.

Lemma priority_table_confidence (headers : list (string * string)) (r : Row) :
  In r (priority_table headers) -> row_confidence r <> "none".
Proof.
  intros Hin.
  assert (Hall : forallb (fun r => negb (String.eqb (row_confidence r) "none"))
                   (priority_table headers) = true) by reflexivity.
  rewrite forallb_forall in Hall. specialize (Hall r Hin).
  apply negb_true_iff, String.eqb_neq in Hall. exact Hall.
Qed.

Lemma lower_rows_strategy (headers : list (string * string)) (s : string) :
  In s (map row_strategy (skipn 2 (priority_table headers))) ->
  s <> "prometheus" /\ s <> "prometheus-auth".
Proof.
  intros Hin.
  assert (Hall : forallb (fun s => negb (String.eqb s "prometheus") &&
                                   negb (String.eqb s "prometheus-auth"))
                   (map row_strategy (skipn 2 (priority_table headers))) = true).
  { unfold priority_table, cloud_row.
    pose proof (detect_cloud_provider_cases headers) as Hc. simpl in Hc.
    destruct Hc as [<- | [<- | [<- | [<- | []]]]]; reflexivity. }
  rewrite forallb_forall in Hall. specialize (Hall s Hin).
  apply andb_true_iff in Hall as [H1 H2].
  apply negb_true_iff, String.eqb_neq in H1.
  apply negb_true_iff, String.eqb_neq in H2. auto.
Qed.

Lemma check_prometheus_metrics_run (w : World) (clk : nat) (base_url : string) :
  let o := http_answer w clk GET (base_url +:+ "/metrics") PROM_TIMEOUT in
  run w clk (check_prometheus_metrics base_url) =
  (metrics_exposed o, [EvHttp GET (base_url +:+ "/metrics") PROM_TIMEOUT o]).
Proof.
  unfold check_prometheus_metrics, requests_get; simpl.
  destruct (http_answer w clk GET _ PROM_TIMEOUT); reflexivity.
Qed.

Lemma check_prometheus_auth_run (w : World) (clk : nat) (base_url : string) :
  let o := http_answer w clk GET (base_url +:+ "/metrics") PROM_TIMEOUT in
  run w clk (check_prometheus_auth base_url) =
  (metrics_need_auth o, [EvHttp GET (base_url +:+ "/metrics") PROM_TIMEOUT o]).
Proof.
  unfold check_prometheus_auth, requests_get; simpl.
  destruct (http_answer w clk GET _ PROM_TIMEOUT); simpl;
    rewrite ?orb_false_r; reflexivity.
Qed.

Lemma prepend_nil {A} (x : A * list Event) :
  (let '(d, tr') := x in (d, [] ++ tr')) = x.
Proof. destruct x; reflexivity. Qed.

Section ResolverFacts.

Variable bracketed_host_ok : string -> bool.

Abbreviation detect := (detect_monitoring_strategy bracketed_host_ok).

(** One row of the chain: the code's [if probe: return decision] against
    the table's row; the rest of the chain is the new goal. *)
Ltac chain_step :=
  rewrite run_bind, chain_outcome_cons;
  match goal with
  | |- context [run ?w ?c ?p] =>
      destruct (run w c p) as [[|] ?tr];
      [ simpl; rewrite app_nil_r; reflexivity | ]
  end;
  match goal with
  | |- match ?a with pair _ _ => _ end = match ?b with pair _ _ => _ end =>
      replace a with b; [ reflexivity | symmetry ]
  end;
  match goal with
  | |- context [(?c + length ?tr)%nat] => generalize (c + length tr)%nat; clear tr; intros ?c
  end.

Lemma detect_run (w : World) (clk : nat) (app : AppOnboardRequest) (host : option string) :
  urlparse_hostname bracketed_host_ok (url app) = Returned host ->
  run w clk (detect app) =
  (Returned (result w clk (resolve_by_priority (url app) host)),
   trace w clk (observe (url app) host)).
Proof.
  intros Hparse. unfold detect_monitoring_strategy. rewrite Hparse.
  unfold resolve_by_priority, result, trace.
  rewrite (run_bind w (observe _ _)), observe_run, run_bind.
  destruct (run w clk (fetch_headers (url app))) as [headers tr0].
  match goal with
  | |- context [run w ?c (bind (check_prometheus_metrics ?u) ?f)] =>
      enough (H : run w c (bind (check_prometheus_metrics u) f) =
                  chain_outcome w c (probes u host headers) (priority_table headers))
  end.
  { rewrite H. unfold chain_outcome.
    destruct (run w _ (probe_in_order _)) as [oks tr]; simpl.
    rewrite ?app_nil_r. reflexivity. }
  unfold probes, priority_table.
  generalize (clk + length tr0)%nat as c; intros c. clear tr0.
  chain_step.
  chain_step. chain_step. chain_step. chain_step.
  rewrite chain_outcome_cons. cbn [run].
  destruct (detect_kubernetes_env headers); [reflexivity |].
  rewrite Nat.add_0_r, prepend_nil, chain_outcome_cons. cbn [run].
  unfold cloud_row.
  destruct (detect_cloud_provider headers) as [cloud |]; [reflexivity |].
  rewrite Nat.add_0_r, prepend_nil.
  replace (bool_decide (is_Some (@None string))) with false by reflexivity.
  cbv iota.
  rewrite run_bind, chain_outcome_cons.
  destruct (run w c4 (check_blackbox_http (url app))) as [[|] tr].
  - simpl. rewrite app_nil_r. reflexivity.
  - reflexivity.
Qed.

Lemma fetch_headers_one_request (w : World) (clk : nat) (u : string) :
  length (trace w clk (fetch_headers u)) = 1%nat.
Proof.
  unfold trace, fetch_headers, requests_get; simpl.
  destruct (http_answer w clk GET u 2); reflexivity.
Qed.

Lemma observe_result (w : World) (clk : nat) (u : string) (host : option string) :
  result w clk (observe u host) =
  (result w clk (fetch_headers u),
   result w (S clk) (probe_in_order (probes u host (result w clk (fetch_headers u))))).
Proof.
  unfold result at 1. rewrite observe_run.
  pose proof (fetch_headers_one_request w clk u) as Hlen. unfold trace in Hlen.
  unfold result.
  destruct (run w clk (fetch_headers u)) as [headers tr]; cbn [fst snd] in *.
  rewrite Hlen. replace (clk + 1)%nat with (S clk) by lia.
  match goal with |- context [run w (S clk) ?p] => destruct (run w (S clk) p) end.
  reflexivity.
Qed.

Lemma observe_trace (w : World) (clk : nat) (u : string) (host : option string) :
  trace w clk (observe u host) =
  trace w clk (fetch_headers u) ++
  trace w (S clk) (probe_in_order (probes u host (result w clk (fetch_headers u)))).
Proof.
  unfold trace at 1. rewrite observe_run.
  pose proof (fetch_headers_one_request w clk u) as Hlen. unfold trace in Hlen.
  unfold result, trace.
  destruct (run w clk (fetch_headers u)) as [headers tr]; cbn [fst snd] in *.
  rewrite Hlen. replace (clk + 1)%nat with (S clk) by lia.
  match goal with |- context [run w (S clk) ?p] => destruct (run w (S clk) p) end.
  reflexivity.
Qed.

Lemma detect_result (w : World) (clk : nat) (app : AppOnboardRequest) (host : option string) :
  urlparse_hostname bracketed_host_ok (url app) = Returned host ->
  result w clk (detect app) =
  Returned (first_success
              (result w (S clk)
                 (probe_in_order
                    (probes (url app) host (result w clk (fetch_headers (url app))))))
              (priority_table (result w clk (fetch_headers (url app))))).
Proof.
  intros Hparse. unfold result at 1. rewrite (detect_run _ _ _ _ Hparse). simpl.
  unfold resolve_by_priority. rewrite result_bind. cbn [result run fst].
  rewrite observe_result. reflexivity.
Qed.

Lemma check_prometheus_metrics_ok (w : World) (clk : nat) (base_url : string) (r : Response) :
  http_answer w clk GET (base_url +:+ "/metrics") PROM_TIMEOUT = HttpReplied r ->
  result w clk (check_prometheus_metrics base_url) =
  ((status_code r =? 200) && contains "HELP" (text r))%bool.
Proof.
  intros H. unfold result, check_prometheus_metrics, requests_get; simpl.
  rewrite H. reflexivity.
Qed.

(** C1. The resolver evaluates the probes in the fixed priority order
    prometheus, prometheus-auth, opentelemetry-http, opentelemetry-grpc,
    statsd, kubernetes-auto, cloud-metrics, blackbox-http, after the
    exploratory GET, and returns the decision of the first row whose
    probe succeeds, with that row's strategy and confidence; when the
    [/metrics] probe is answered 200 with the marker in the body the
    decision is prometheus with confidence high, whatever the network
    would answer to any later probe. *)
Theorem detect_first_success_in_priority_order
    (w : World) (clk : nat) (app : AppOnboardRequest) (host : option string) :
  urlparse_hostname bracketed_host_ok (url app) = Returned host ->
  let headers := result w clk (fetch_headers (url app)) in
  let ps := probes (url app) host headers in
  let oks := result w (S clk) (probe_in_order ps) in
  result w clk (detect app) = Returned (first_success oks (priority_table headers)) /\
  trace w clk (detect app) =
    trace w clk (fetch_headers (url app)) ++ trace w (S clk) (probe_in_order ps) /\
  map (fun r => (row_strategy r, row_confidence r)) (priority_table headers) =
    [ ("prometheus", "high"); ("prometheus-auth", "medium");
      ("opentelemetry-http", "high"); ("opentelemetry-grpc", "high");
      ("statsd", "medium"); ("kubernetes-auto", "medium");
      (default EmptyString (detect_cloud_provider headers) +:+ "-cloud-metrics", "low");
      ("blackbox-http", "low") ] /\
  (forall r, In r (priority_table headers) ->
     strategy_of (decision_of r) = Some (row_strategy r) /\
     confidence_of (decision_of r) = Some (row_confidence r)) /\
  (forall r,
     http_answer w (S clk) GET (url app +:+ "/metrics") PROM_TIMEOUT = HttpReplied r ->
     status_code r = 200 ->
     contains "HELP" (text r) = true ->
     exists d, result w clk (detect app) = Returned d /\
               is_monitorable d = true /\
               strategy_of d = Some "prometheus" /\
               confidence_of d = Some "high").
Proof.
  intros Hparse headers ps oks.
  split; [exact (detect_result w clk app host Hparse) |].
  split.
  { unfold trace at 1. rewrite (detect_run _ _ _ _ Hparse). simpl.
    apply observe_trace. }
  split; [reflexivity |].
  split.
  { intros r _. split; reflexivity. }
  intros r Hans Hstatus Hmarker.
  exists (monitorable_decision "prometheus" "high" "/metrics endpoint detected").
  split; [| repeat split].
  rewrite (detect_result w clk app host Hparse).
  unfold probes. unfold result at 1. rewrite probe_in_order_cons.
  pose proof (check_prometheus_metrics_ok w (S clk) (url app) r Hans) as Hok.
  rewrite Hstatus, Hmarker in Hok. unfold result in Hok.
  destruct (run w (S clk) (check_prometheus_metrics (url app))) as [ok tr].
  simpl in Hok. subst ok. reflexivity.
Qed.

Lemma detect_by_observation (w : World) (clk : nat) (app : AppOnboardRequest) :
  result w clk (detect app) =
  match observation bracketed_host_ok w clk app with
  | Raised e => Raised e
  | Returned obs => Returned (first_success (snd obs) (priority_table (fst obs)))
  end.
Proof.
  unfold observation.
  destruct (urlparse_hostname bracketed_host_ok (url app)) as [host | e] eqn:Hparse.
  - rewrite (detect_result w clk app host Hparse), observe_result. reflexivity.
  - unfold detect_monitoring_strategy. rewrite Hparse. reflexivity.
Qed.

(** C2. When all eight probes of a resolution fail, the decision is the
    fallback: not monitorable, no strategy, confidence none, and the
    fixed list of the four remediation suggestions in order. *)
Theorem all_probes_failed_gives_unmonitorable
    (w : World) (clk : nat) (app : AppOnboardRequest) :
  observed_outcomes bracketed_host_ok w clk app =
    Returned [false; false; false; false; false; false; false; false] ->
  exists d,
    result w clk (detect app) = Returned d /\
    d !! "monitorable" = Some (PyBool false) /\
    d !! "strategy" = Some PyNone /\
    confidence_of d = Some "none" /\
    next_steps_of d =
      Some [ "Expose /metrics"; "Enable OpenTelemetry SDK";
             "Deploy OpenTelemetry Collector"; "Use blackbox exporter" ].
Proof.
  intros Hobs. exists unmonitorable_decision.
  split; [| repeat split].
  rewrite detect_by_observation. unfold observed_outcomes in Hobs.
  destruct (observation bracketed_host_ok w clk app) as [[headers oks] | e];
    [| discriminate].
  injection Hobs as ->. reflexivity.
Qed.

(** C3, as the code has it.  Once [urlparse] has accepted the URL the
    resolution returns a decision whatever the network answers: a failed
    exploratory GET leaves empty headers, in which no marker is found,
    and every probe turns a transport failure into a failed probe. *)
Theorem detect_returns_decision_when_url_parses
    (w : World) (clk : nat) (app : AppOnboardRequest) (host : option string) :
  urlparse_hostname bracketed_host_ok (url app) = Returned host ->
  (exists d, result w clk (detect app) = Returned d) /\
  (forall e, http_answer w clk GET (url app) 2 = HttpFailed e ->
     result w clk (fetch_headers (url app)) = [] /\
     detect_kubernetes_env [] = false /\
     detect_cloud_provider [] = None) /\
  (forall c e,
     http_answer w c GET (url app +:+ "/metrics") PROM_TIMEOUT = HttpFailed e ->
     result w c (check_prometheus_metrics (url app)) = false /\
     result w c (check_prometheus_auth (url app)) = false) /\
  (forall c e e',
     http_answer w c POST (url app +:+ "/v1/traces") OTEL_TIMEOUT = HttpFailed e ->
     http_answer w (S c) POST (url app +:+ "/v1/metrics") OTEL_TIMEOUT = HttpFailed e' ->
     result w c (check_otlp_http (url app)) = false) /\
  (forall c e,
     tcp_answer w c host 4317 OTEL_TIMEOUT = TcpFailed e ->
     result w c (check_otlp_grpc host) = false) /\
  (forall c e,
     tcp_answer w c host STATSD_PORT 2 = TcpFailed e ->
     result w c (check_statsd host) = false) /\
  (forall c e,
     http_answer w c GET (url app) 5 = HttpFailed e ->
     result w c (check_blackbox_http (url app)) = false).
Proof.
  intros Hparse.
  split; [rewrite (detect_result w clk app host Hparse); eauto |].
  unfold result, fetch_headers, check_prometheus_metrics, check_prometheus_auth,
    check_otlp_http, check_otlp_grpc, check_statsd, check_blackbox_http,
    requests_get, requests_post, create_connection.
  repeat split; intros;
    repeat (simpl; match goal with H : _ = _ |- _ => rewrite H; clear H end);
    reflexivity.
Qed.

(** C4. Every decision the resolver returns satisfies the invariant of
    the data model. *)
Theorem returned_decision_satisfies_invariant
    (w : World) (clk : nat) (app : AppOnboardRequest) (d : Dict) :
  result w clk (detect app) = Returned d -> decision_invariant d.
Proof.
  rewrite detect_by_observation.
  destruct (observation bracketed_host_ok w clk app) as [[headers oks] | e];
    [| discriminate].
  intros [= <-]. cbn [fst snd].
  destruct (first_success_cases oks (priority_table headers)) as [-> | (r & Hin & ->)].
  - apply unmonitorable_decision_invariant.
  - unfold decision_of.
    exact (monitorable_decision_invariant _ _ _ (priority_table_confidence headers r Hin)).
Qed.

(** C5, as the code has it.  A malformed target is one whose URL
    [urlparse] rejects or in which it finds no host, and the resolver has
    no validation of its own for either: a URL that [urlparse] rejects
    makes the call raise [ValueError] before any request; a URL without a
    host is never rejected: the exploratory GET is made, the probes run
    in order with the TCP probes given no host, and the decision of the
    first successful probe, or the fallback, is returned. *)
Theorem malformed_target_is_not_rejected
    (w : World) (clk : nat) (app : AppOnboardRequest) :
  (malformed_target bracketed_host_ok app = true <->
   urlparse_hostname bracketed_host_ok (url app) = Returned None \/
   exists e, urlparse_hostname bracketed_host_ok (url app) = Raised e) /\
  (forall e,
     urlparse_hostname bracketed_host_ok (url app) = Raised e ->
     run w clk (detect app) = (Raised ValueError, [])) /\
  (urlparse_hostname bracketed_host_ok (url app) = Returned None ->
   let headers := result w clk (fetch_headers (url app)) in
   let oks := result w (S clk) (probe_in_order (probes (url app) None headers)) in
   result w clk (detect app) = Returned (first_success oks (priority_table headers)) /\
   trace w clk (detect app) =
     EvHttp GET (url app) 2 (http_answer w clk GET (url app) 2) ::
     trace w (S clk) (probe_in_order (probes (url app) None headers))).
Proof.
  split; [| split].
  - unfold malformed_target.
    destruct (urlparse_hostname bracketed_host_ok (url app)) as [[host |] | e].
    + split; [discriminate |]. intros [H | [e H]]; discriminate H.
    + split; auto.
    + split; eauto.
  - intros e Hparse. rewrite (urlparse_raises_value_error _ _ _ Hparse) in Hparse.
    unfold detect_monitoring_strategy. rewrite Hparse. reflexivity.
  - intros Hparse. cbv zeta. split.
    + apply (detect_result w clk app None Hparse).
    + unfold trace at 1. rewrite (detect_run _ _ _ _ Hparse). simpl.
      rewrite observe_trace. unfold trace, fetch_headers, requests_get. simpl.
      destruct (http_answer w clk GET (url app) 2); reflexivity.
Qed.

(** The three ways a resolution can go at the two [/metrics] rows. *)
Lemma detect_metrics_rows (w : World) (clk : nat) (app : AppOnboardRequest)
    (host : option string) :
  urlparse_hostname bracketed_host_ok (url app) = Returned host ->
  let o1 := http_answer w (S clk) GET (url app +:+ "/metrics") PROM_TIMEOUT in
  let o2 := http_answer w (S (S clk)) GET (url app +:+ "/metrics") PROM_TIMEOUT in
  let headers := result w clk (fetch_headers (url app)) in
  result w clk (detect app) =
  Returned
    (if metrics_exposed o1 then
       monitorable_decision "prometheus" "high" "/metrics endpoint detected"
     else if metrics_need_auth o2 then
       monitorable_decision "prometheus-auth" "medium" "/metrics exists but requires auth"
     else
       first_success
         (result w (S (S (S clk)))
            (probe_in_order (skipn 2 (probes (url app) host headers))))
         (skipn 2 (priority_table headers))).
Proof.
  intros Hparse o1 o2 headers.
  rewrite (detect_result w clk app host Hparse). fold headers.
  unfold probes, result. rewrite probe_in_order_cons, check_prometheus_metrics_run.
  fold o1. destruct (metrics_exposed o1); [reflexivity |].
  cbn [length]. replace (S clk + 1)%nat with (S (S clk)) by lia.
  rewrite probe_in_order_cons, check_prometheus_auth_run.
  fold o2. destruct (metrics_need_auth o2); [reflexivity |].
  cbn [length]. replace (S (S clk) + 1)%nat with (S (S (S clk))) by lia.
  cbn [skipn].
  match goal with |- context [run w ?c (probe_in_order ?ps)] =>
    destruct (run w c (probe_in_order ps)) as [oks tr] end.
  reflexivity.
Qed.

(** C6. The two success conditions on a reply to [GET /metrics] exclude
    each other; one resolution returns at most one of prometheus and
    prometheus-auth; a resolution whose prometheus probe succeeded
    returns prometheus, never prometheus-auth; and when both reads of
    [/metrics] observe one outcome, whichever of the two strategies is
    returned is the one whose condition holds, the other condition
    failing. *)
Theorem prometheus_and_prometheus_auth_exclusive
    (w : World) (clk : nat) (app : AppOnboardRequest) (d : Dict) :
  result w clk (detect app) = Returned d ->
  let o1 := http_answer w (S clk) GET (url app +:+ "/metrics") PROM_TIMEOUT in
  let o2 := http_answer w (S (S clk)) GET (url app +:+ "/metrics") PROM_TIMEOUT in
  (forall o, ~ (metrics_exposed o = true /\ metrics_need_auth o = true)) /\
  ~ (strategy_of d = Some "prometheus" /\ strategy_of d = Some "prometheus-auth") /\
  (metrics_exposed o1 = true ->
     strategy_of d = Some "prometheus" /\ strategy_of d <> Some "prometheus-auth") /\
  (o1 = o2 ->
     (strategy_of d = Some "prometheus" ->
        metrics_exposed o1 = true /\ metrics_need_auth o1 = false) /\
     (strategy_of d = Some "prometheus-auth" ->
        metrics_need_auth o1 = true /\ metrics_exposed o1 = false)).
Proof.
  intros Hres o1 o2.
  assert (Hexcl : forall o, ~ (metrics_exposed o = true /\ metrics_need_auth o = true)).
  { intros [e | r]; simpl; [intros [[=] _] |].
    intros [H1 H2]. apply andb_true_iff in H1 as [H1 _].
    apply Z.eqb_eq in H1. rewrite H1 in H2. discriminate. }
  split; [exact Hexcl |].
  split; [intros [H1 H2]; rewrite H1 in H2; discriminate H2 |].
  destruct (urlparse_hostname bracketed_host_ok (url app)) as [host | e] eqn:Hparse.
  2: { unfold detect_monitoring_strategy in Hres. rewrite Hparse in Hres. discriminate. }
  rewrite (detect_metrics_rows w clk app host Hparse) in Hres.
  fold o1 o2 in Hres. injection Hres as <-.
  assert (Hlow : forall oks headers s,
             strategy_of (first_success oks (skipn 2 (priority_table headers))) = Some s ->
             s <> "prometheus" /\ s <> "prometheus-auth").
  { intros oks headers s Hs. apply (lower_rows_strategy headers).
    apply (first_success_strategy oks), Hs. }
  split.
  - intros H1. rewrite H1, strategy_of_decision. split; [reflexivity | discriminate].
  - intros Heq. rewrite <- Heq.
    destruct (metrics_exposed o1) eqn:E1.
    + rewrite strategy_of_decision. split.
      * intros _. split; [reflexivity |].
        destruct (metrics_need_auth o1) eqn:E2; [| reflexivity].
        exfalso. apply (Hexcl o1). auto.
      * discriminate.
    + destruct (metrics_need_auth o1) eqn:E2.
      * rewrite strategy_of_decision. split; [discriminate | auto].
      * split; intros Hs; apply Hlow in Hs; destruct Hs; congruence.
Qed.

(** C7. The decision is a function of what the resolution observes: two
    runs on the same target that observe the same header fetch result
    and the same probe outcomes, or the same sequence of request
    outcomes, return the same result; and on a network that does not
    change, resolving at two different times gives the same result. *)
Theorem detect_deterministic_in_probe_outcomes (app : AppOnboardRequest) :
  (forall w1 w2 c1 c2,
     observation bracketed_host_ok w1 c1 app = observation bracketed_host_ok w2 c2 app ->
     result w1 c1 (detect app) = result w2 c2 (detect app)) /\
  (forall w1 w2 c1 c2,
     trace w1 c1 (detect app) = trace w2 c2 (detect app) ->
     result w1 c1 (detect app) = result w2 c2 (detect app)) /\
  (forall w c1 c2,
     stable w -> result w c1 (detect app) = result w c2 (detect app)).
Proof.
  split; [| split].
  - intros w1 w2 c1 c2 Hobs. rewrite !detect_by_observation, Hobs. reflexivity.
  - intros w1 w2 c1 c2. apply trace_determines_result.
  - intros w c1 c2 Hstable. unfold result.
    rewrite (stable_run (detect app) w c1 c2 Hstable). reflexivity.
Qed.

End ResolverFacts.

(** ** The persisted decision record *)

Section PersistenceFacts.

Variable repr_float : string -> string.
Variable bracketed_host_ok : string -> bool.

Abbreviation save := (save_monitoring_strategy repr_float).
Abbreviation stored v := (decode_value (serialize_value repr_float v)).

Lemma serialize_nonempty (d : Dict) : d <> ∅ -> _serialize_strategy repr_float d <> ∅.
Proof. unfold _serialize_strategy. intros Hd H. apply fmap_empty_inv in H. auto. Qed.

Lemma save_reachable (name : string) (d : Dict) (srv : RedisServer) :
  reachable srv = true -> d <> ∅ ->
  save name d srv =
  (Returned tt,
   {| reachable := true;
      hashes := <[app_key name :=
                    _serialize_strategy repr_float d ∪ default ∅ (hashes srv !! app_key name)]>
                  (hashes srv) |}).
Proof.
  intros Hup Hd. unfold save_monitoring_strategy, hset.
  rewrite bool_decide_eq_false_2 by (apply serialize_nonempty, Hd).
  rewrite Hup. reflexivity.
Qed.

(** The loop of the decoding, when no field raises. *)
Lemma decode_fields_returned (data : gmap string string) (g : string -> PyVal) :
  (forall k v, data !! k = Some v -> decode_value v = Returned (g v)) ->
  decode_fields data = Returned (g <$> data).
Proof.
  unfold decode_fields.
  apply (map_fold_weak_ind
           (fun r (m : gmap string string) =>
              (forall k v, m !! k = Some v -> decode_value v = Returned (g v)) ->
              r = Returned (g <$> m))).
  - intros _. rewrite fmap_empty. reflexivity.
  - intros i x m r Hi IH Hall.
    rewrite IH.
    + rewrite (Hall i x) by apply lookup_insert_eq. rewrite fmap_insert. reflexivity.
    + intros k v Hk. apply (Hall k). rewrite lookup_insert_ne; [exact Hk |].
      intros <-. congruence.
Qed.

(** The loop of the decoding, when a field raises. *)
Lemma decode_fields_raised (data : gmap string string) (k : string) (v : string) :
  data !! k = Some v -> decode_value v = Raised ValueError ->
  decode_fields data = Raised ValueError.
Proof.
  unfold decode_fields.
  apply (map_fold_weak_ind
           (fun r (m : gmap string string) =>
              (r = Raised ValueError \/ exists d, r = Returned d) /\
              (m !! k = Some v -> decode_value v = Raised ValueError ->
               r = Raised ValueError))).
  - split; [eauto |]. intros H. rewrite lookup_empty in H. discriminate H.
  - intros i x m r Hi [Hshape IH]. split.
    + destruct Hshape as [-> | [d ->]]; [auto |].
      unfold decode_value, py_int.
      repeat match goal with |- context [if ?b then _ else _] => destruct b end; eauto.
    + intros Hk Hv. destruct (decide (i = k)) as [-> | Hne].
      * rewrite lookup_insert_eq in Hk. injection Hk as ->.
        destruct Hshape as [-> | [d ->]]; [reflexivity |]. rewrite Hv. reflexivity.
      * rewrite lookup_insert_ne in Hk by exact Hne.
        rewrite (IH Hk Hv). reflexivity.
Qed.

Lemma get_stored (name : string) (fields : gmap string string) (srv : RedisServer)
    (g : string -> PyVal) :
  reachable srv = true -> hashes srv !! app_key name = Some fields -> fields <> ∅ ->
  (forall k v, fields !! k = Some v -> decode_value v = Returned (g v)) ->
  get_monitoring_strategy name srv = Returned (Some (g <$> fields)).
Proof.
  intros Hup Hh Hne Hall. unfold get_monitoring_strategy, hgetall. rewrite Hup, Hh. simpl.
  rewrite bool_decide_eq_false_2 by exact Hne.
  rewrite (decode_fields_returned fields g Hall). reflexivity.
Qed.

Lemma get_absent (name : string) (srv : RedisServer) :
  reachable srv = true -> hashes srv !! app_key name = None ->
  get_monitoring_strategy name srv = Returned None.
Proof.
  intros Hup Hh. unfold get_monitoring_strategy, hgetall. rewrite Hup, Hh. reflexivity.
Qed.

(** A record that holds the fields of one decision alone. *)
Lemma get_sole_decision (name : string) (d d' : Dict) (srv : RedisServer) :
  reachable srv = true ->
  hashes srv !! app_key name = Some (_serialize_strategy repr_float d) ->
  d <> ∅ ->
  decode_fields (_serialize_strategy repr_float d) = Returned d' ->
  get_monitoring_strategy name srv = Returned (Some d').
Proof.
  intros Hup Hh Hne Hdec. unfold get_monitoring_strategy, hgetall. rewrite Hup, Hh. simpl.
  rewrite bool_decide_eq_false_2 by (apply serialize_nonempty, Hne).
  rewrite Hdec. reflexivity.
Qed.

Lemma stored_monitorable_decision (s c d : string) :
  decode_value s = Returned (PyStr s) ->
  decode_value c = Returned (PyStr c) ->
  decode_value d = Returned (PyStr d) ->
  decode_fields (_serialize_strategy repr_float (monitorable_decision s c d)) =
    Returned (monitorable_decision s c d).
Proof.
  intros Hs Hc Hd.
  assert (Hstored : forall v, In v [PyBool true; PyStr s; PyStr c; PyStr d] ->
                      stored v = Returned v).
  { intros v [<- | [<- | [<- | [<- | []]]]]; simpl; auto. }
  rewrite (decode_fields_returned _ decoded).
  - unfold _serialize_strategy, monitorable_decision.
    rewrite <- map_fmap_compose, !fmap_insert, map_fmap_singleton. unfold compose, decoded.
    rewrite !Hstored by (simpl; auto). reflexivity.
  - unfold _serialize_strategy, monitorable_decision.
    rewrite !fmap_insert, map_fmap_singleton. intros k v Hk. unfold decoded.
    repeat (apply lookup_insert_Some in Hk as [[_ <-] | [_ Hk]];
            [rewrite Hstored by (simpl; auto); reflexivity |]).
    apply lookup_singleton_Some in Hk as [_ <-].
    rewrite Hstored by (simpl; auto). reflexivity.
Qed.

(** The texts of the priority table are read back as texts. *)
Lemma priority_table_texts (headers : list (string * string)) (r : Row) :
  In r (priority_table headers) ->
  decode_value (row_strategy r) = Returned (PyStr (row_strategy r)) /\
  decode_value (row_confidence r) = Returned (PyStr (row_confidence r)) /\
  decode_value (row_details r) = Returned (PyStr (row_details r)).
Proof.
  intros Hin.
  pose (is_text := fun s => match decode_value s with
                            | Returned x => bool_decide (x = PyStr s)
                            | Raised _ => false
                            end).
  assert (Htext : forall s, is_text s = true -> decode_value s = Returned (PyStr s)).
  { intros s. unfold is_text. destruct (decode_value s) as [x | e]; [| discriminate].
    intros H. apply bool_decide_eq_true in H. congruence. }
  assert (Hall : forallb (fun r => is_text (row_strategy r) && is_text (row_confidence r)
                                   && is_text (row_details r))
                   (priority_table headers) = true).
  { unfold priority_table, cloud_row.
    pose proof (detect_cloud_provider_cases headers) as Hc. simpl in Hc.
    destruct Hc as [<- | [<- | [<- | [<- | []]]]]; vm_compute; reflexivity. }
  rewrite forallb_forall in Hall. specialize (Hall r Hin).
  apply andb_true_iff in Hall as [Hall H3]. apply andb_true_iff in Hall as [H1 H2].
  auto.
Qed.

(** C10. A monitorable decision of the resolver, saved under a key that
    holds nothing yet, is fetched back equal to itself: the boolean
    survives its [True] text and the texts come back unchanged. *)
Theorem monitorable_decision_round_trip
    (w : World) (clk : nat) (app : AppOnboardRequest) (d : Dict)
    (name : string) (srv : RedisServer) :
  result w clk (detect_monitoring_strategy bracketed_host_ok app) = Returned d ->
  is_monitorable d = true ->
  reachable srv = true ->
  hashes srv !! app_key name = None ->
  fst (save name d srv) = Returned tt /\
  get_monitoring_strategy name (snd (save name d srv)) = Returned (Some d).
Proof.
  intros Hres Hmon Hup Hfresh.
  rewrite detect_by_observation in Hres.
  destruct (observation bracketed_host_ok w clk app) as [[headers oks] | e];
    [| discriminate].
  injection Hres as <-. cbn [fst snd] in *.
  destruct (first_success_cases oks (priority_table headers)) as [Hd | (r & Hin & Hd)];
    rewrite Hd in *; [discriminate |].
  destruct (priority_table_texts headers r Hin) as (Hs & Hc & Hdet).
  assert (Hne : decision_of r <> ∅).
  { intros H. apply (f_equal (fun m : Dict => m !! "monitorable")) in H. discriminate. }
  rewrite (save_reachable name _ srv Hup Hne), Hfresh. cbn [fst snd default].
  split; [reflexivity |].
  rewrite (right_id_L ∅ (∪)).
  apply (get_sole_decision name (decision_of r));
    [reflexivity | apply lookup_insert_eq | exact Hne |].
  unfold decision_of. exact (stored_monitorable_decision _ _ _ Hs Hc Hdet).
Qed.

End PersistenceFacts.

(** ** The scrape-config mutation *)


Lemma resolve_ref (objects : gmap positive Yaml) (a : positive) (v : Yaml) :
  objects !! a = Some v -> resolve objects (YRef a) = v.
Proof. unfold resolve. intros ->. reflexivity. Qed.



(** ** The properties at sample targets *)

(** The scenario of a [/metrics] page with a [# HELP] line. *)
Lemma detect_first_success_in_priority_order_witness :
  urlparse_hostname lenient_brackets (url svc) = Returned (Some "svc.local") /\
  exists d,
    result svc_metrics 0 (detect_monitoring_strategy lenient_brackets svc) = Returned d /\
    is_monitorable d = true /\
    strategy_of d = Some "prometheus" /\
    confidence_of d = Some "high".
Proof.
  split; [reflexivity |].
  destruct (detect_first_success_in_priority_order lenient_brackets svc_metrics 0 svc
              (Some "svc.local") eq_refl) as (_ & _ & _ & _ & Hdominates).
  apply (Hdominates metrics_page); reflexivity.
Defined.

(** The scenario of a target whose plain GET carries an AWS request id
    and that offers nothing else. *)
Example aws_headers_give_cloud_metrics :
  result svc_on_aws 0 (detect_monitoring_strategy lenient_brackets svc) =
  Returned (monitorable_decision "aws-cloud-metrics" "low" "AWS headers detected").
Proof. reflexivity. Qed.

(** The scenario of a target on which nothing answers. *)
Lemma all_probes_failed_gives_unmonitorable_witness :
  observed_outcomes lenient_brackets silent_world 0 svc =
    Returned [false; false; false; false; false; false; false; false] /\
  exists d,
    result silent_world 0 (detect_monitoring_strategy lenient_brackets svc) = Returned d /\
    d !! "monitorable" = Some (PyBool false) /\
    d !! "strategy" = Some PyNone /\
    confidence_of d = Some "none" /\
    next_steps_of d =
      Some [ "Expose /metrics"; "Enable OpenTelemetry SDK";
             "Deploy OpenTelemetry Collector"; "Use blackbox exporter" ].
Proof.
  split; [reflexivity |].
  apply (all_probes_failed_gives_unmonitorable lenient_brackets silent_world 0 svc).
  reflexivity.
Defined.

(** C3 fails on a URL with an unbalanced bracket: [urlparse] is called
    outside any [try], and its [ValueError] leaves the resolver. *)
Lemma detect_raises_on_unbalanced_bracket :
  result silent_world 0
    (detect_monitoring_strategy lenient_brackets (target "http://[")) = Raised ValueError /\
  ~ returns (result silent_world 0
               (detect_monitoring_strategy lenient_brackets (target "http://["))).
Proof. split; [reflexivity | intros H; exact H]. Qed.

Lemma detect_returns_decision_when_url_parses_witness :
  urlparse_hostname lenient_brackets (url svc) = Returned (Some "svc.local") /\
  exists d, result silent_world 0 (detect_monitoring_strategy lenient_brackets svc) = Returned d.
Proof.
  split; [reflexivity |].
  exact (proj1 (detect_returns_decision_when_url_parses lenient_brackets silent_world 0 svc
                  (Some "svc.local") eq_refl)).
Defined.

Lemma returned_decision_satisfies_invariant_witness :
  result svc_forbidden 0 (detect_monitoring_strategy lenient_brackets svc) =
    Returned (monitorable_decision "prometheus-auth" "medium"
                "/metrics exists but requires auth") /\
  decision_invariant (monitorable_decision "prometheus-auth" "medium"
                        "/metrics exists but requires auth").
Proof.
  split; [reflexivity |].
  apply (returned_decision_satisfies_invariant lenient_brackets svc_forbidden 0 svc).
  reflexivity.
Defined.

(** C5 fails on a URL without a host: no condition is raised, every probe
    runs and the fallback decision is returned. *)
Lemma detect_resolves_target_without_host :
  malformed_target lenient_brackets (target "svc.local") = true /\
  urlparse_hostname lenient_brackets "svc.local" = Returned None /\
  result silent_world 0 (detect_monitoring_strategy lenient_brackets (target "svc.local")) =
    Returned unmonitorable_decision /\
  length (trace silent_world 0
            (detect_monitoring_strategy lenient_brackets (target "svc.local"))) = 8%nat.
Proof. repeat split; reflexivity. Qed.

Lemma malformed_target_is_not_rejected_witness :
  malformed_target lenient_brackets (target "svc.local") = true /\
  urlparse_hostname lenient_brackets "svc.local" = Returned None /\
  result silent_world 0 (detect_monitoring_strategy lenient_brackets (target "svc.local")) =
    Returned unmonitorable_decision /\
  run silent_world 0 (detect_monitoring_strategy lenient_brackets (target "http://[")) =
    (Raised ValueError, []).
Proof.
  destruct (malformed_target_is_not_rejected lenient_brackets silent_world 0
              (target "svc.local")) as (Hmalformed & _ & Hhostless).
  destruct (malformed_target_is_not_rejected lenient_brackets silent_world 0
              (target "http://[")) as (_ & Hrejected & _).
  split; [apply Hmalformed; left; reflexivity |].
  split; [reflexivity |].
  split.
  - rewrite (proj1 (Hhostless eq_refl)). reflexivity.
  - exact (Hrejected ValueError eq_refl).
Defined.

(** The scenario of a [/metrics] that answers 403. *)
Lemma prometheus_and_prometheus_auth_exclusive_witness :
  exists d,
    result svc_forbidden 0 (detect_monitoring_strategy lenient_brackets svc) = Returned d /\
    strategy_of d = Some "prometheus-auth" /\
    metrics_need_auth (HttpReplied forbidden_page) = true /\
    metrics_exposed (HttpReplied forbidden_page) = false.
Proof.
  exists (monitorable_decision "prometheus-auth" "medium" "/metrics exists but requires auth").
  split; [reflexivity |]. split; [reflexivity |].
  destruct (prometheus_and_prometheus_auth_exclusive lenient_brackets svc_forbidden 0 svc
              _ eq_refl) as (_ & _ & _ & Hsame).
  exact (proj2 (Hsame eq_refl) eq_refl).
Defined.

Lemma silent_world_stable : stable silent_world.
Proof. split; reflexivity. Defined.

(** Two networks that fail in different ways are observed alike. *)
Lemma detect_deterministic_in_probe_outcomes_witness :
  observation lenient_brackets silent_world 0 svc =
    observation lenient_brackets timeout_world 7 svc /\
  result silent_world 0 (detect_monitoring_strategy lenient_brackets svc) =
    result timeout_world 7 (detect_monitoring_strategy lenient_brackets svc) /\
  stable silent_world /\
  result silent_world 0 (detect_monitoring_strategy lenient_brackets svc) =
    result silent_world 3 (detect_monitoring_strategy lenient_brackets svc).
Proof.
  destruct (detect_deterministic_in_probe_outcomes lenient_brackets svc)
    as (Hobs & _ & Hstable).
  split; [reflexivity |].
  split; [apply Hobs; reflexivity |].
  split; [exact silent_world_stable |].
  apply Hstable, silent_world_stable.
Defined.

(** C8 fails when the earlier decision had a field the later one lacks.
    Onboarding [http://svc.local] while nothing answers saves the fallback
    with its [next_steps]; onboarding it again once [/metrics] is served
    returns the prometheus decision, and the record then fetched for it is
    that decision together with the [next_steps] of the first one, where
    the same onboarding on a store that held nothing is fetched as the
    prometheus decision alone. *)
Lemma second_onboarding_keeps_next_steps :
  let first := onboard_app id lenient_brackets silent_world 0 svc_request empty_redis in
  let second :=
    onboard_app id lenient_brackets svc_request_metrics 0 svc_request (snd first) in
  let alone :=
    onboard_app id lenient_brackets svc_request_metrics 0 svc_request empty_redis in
  let d2 := monitorable_decision "prometheus" "high" "/metrics endpoint detected" in
  fst first = Returned unmonitorable_decision /\
  fst second = Returned d2 /\
  get_monitoring_strategy "http://svc.local/" (snd second) =
    Returned (Some (<["next_steps" :=
                        PyStr "['Expose /metrics', 'Enable OpenTelemetry SDK', 'Deploy OpenTelemetry Collector', 'Use blackbox exporter']"]> d2)) /\
  get_monitoring_strategy "http://svc.local/" (snd second) <> Returned (Some d2) /\
  fst alone = Returned d2 /\
  get_monitoring_strategy "http://svc.local/" (snd alone) = Returned (Some d2).
Proof.
  cbv zeta. split; [reflexivity |]. split; [reflexivity |].
  split; [vm_compute; reflexivity |].
  split; [| split; [reflexivity | vm_compute; reflexivity]].
  intros H.
  assert (Hns : (fun r => match r with
                          | Returned (Some d) => d !! "next_steps"
                          | _ => None
                          end)
                  (get_monitoring_strategy "http://svc.local/"
                     (snd (onboard_app id lenient_brackets svc_request_metrics 0 svc_request
                             (snd (onboard_app id lenient_brackets silent_world 0 svc_request
                                     empty_redis))))) = None)
    by (rewrite H; reflexivity).
  vm_compute in Hns. discriminate Hns.
Qed.

Lemma unmonitorable_decision_nonempty : unmonitorable_decision <> ∅.
Proof.
  intros H. apply (f_equal (fun m : Dict => m !! "monitorable")) in H. discriminate H.
Defined.

Lemma monitorable_decision_nonempty (s c d : string) : monitorable_decision s c d <> ∅.
Proof.
  intros H. apply (f_equal (fun m : Dict => m !! "monitorable")) in H. discriminate H.
Defined.

Lemma monitorable_decision_round_trip_witness :
  let d := monitorable_decision "prometheus" "high" "/metrics endpoint detected" in
  result svc_metrics 0 (detect_monitoring_strategy lenient_brackets svc) = Returned d /\
  is_monitorable d = true /\
  get_monitoring_strategy "http://svc.local"
    (snd (save_monitoring_strategy id "http://svc.local" d empty_redis)) =
    Returned (Some d).
Proof.
  cbv zeta. split; [reflexivity |]. split; [reflexivity |].
  exact (proj2 (monitorable_decision_round_trip id lenient_brackets svc_metrics 0 svc _
                  "http://svc.local" empty_redis eq_refl eq_refl eq_refl eq_refl)).
Defined.


(** * Further properties of the resolver *)

Lemma probe_in_order_trace_cons (w : World) (clk : nat) (p : Prog bool) (ps : list (Prog bool)) :
  trace w clk (probe_in_order (p :: ps)) =
  if result w clk p then trace w clk p
  else trace w clk p ++ trace w (clk + length (trace w clk p))%nat (probe_in_order ps).
Proof.
  unfold trace, result. rewrite probe_in_order_cons.
  destruct (run w clk p) as [[|] tr]; cbn [fst snd]; [reflexivity |].
  destruct (run w (clk + length tr)%nat (probe_in_order ps)); reflexivity.
Qed.

Lemma probe_in_order_result_cons (w : World) (clk : nat) (p : Prog bool) (ps : list (Prog bool)) :
  result w clk (probe_in_order (p :: ps)) =
  if result w clk p then [true]
  else false :: result w (clk + length (trace w clk p))%nat (probe_in_order ps).
Proof.
  unfold trace, result. rewrite probe_in_order_cons.
  destruct (run w clk p) as [[|] tr]; cbn [fst snd]; [reflexivity |].
  destruct (run w (clk + length tr)%nat (probe_in_order ps)); reflexivity.
Qed.

(** The requests of a chain of probes stay within what each probe may
    request, and number at most the sum of what each may make. *)
Lemma probe_in_order_footprint (P : Event -> bool) (w : World) (p : Prog bool)
    (ps : list (Prog bool)) (k n : nat) :
  (forall c, forallb P (trace w c p) = true /\ (length (trace w c p) <= k)%nat) ->
  (forall c, forallb P (trace w c (probe_in_order ps)) = true /\
             (length (trace w c (probe_in_order ps)) <= n)%nat) ->
  forall c, forallb P (trace w c (probe_in_order (p :: ps))) = true /\
            (length (trace w c (probe_in_order (p :: ps))) <= k + n)%nat.
Proof.
  intros Hp Hps c. rewrite probe_in_order_trace_cons.
  destruct (Hp c) as [HP Hk].
  destruct (result w c p).
  - split; [exact HP | lia].
  - destruct (Hps (c + length (trace w c p))%nat) as [HP' Hn].
    rewrite forallb_app, length_app, HP, HP'. split; [reflexivity | lia].
Qed.

Lemma probe_in_order_outcomes (w : World) (ps : list (Prog bool)) (clk : nat) :
  result w clk (probe_in_order ps) = repeat false (length ps) \/
  exists k, (k < length ps)%nat /\ result w clk (probe_in_order ps) = repeat false k ++ [true].
Proof.
  revert clk; induction ps as [| p ps IH]; intros clk.
  - left. reflexivity.
  - rewrite probe_in_order_result_cons. destruct (result w clk p).
    + right. exists 0%nat. split; [simpl; lia | reflexivity].
    + destruct (IH (clk + length (trace w clk p))%nat) as [-> | (k & Hk & ->)].
      * left. reflexivity.
      * right. exists (S k). split; [simpl; lia | reflexivity].
Qed.

Lemma first_success_after_failures (k : nat) (rows : list Row) :
  (k < length rows)%nat ->
  exists r, In r rows /\ first_success (repeat false k ++ [true]) rows = decision_of r.
Proof.
  revert rows; induction k as [| k IH]; intros [| r rows] Hlen; simpl in Hlen; try lia.
  - exists r. split; [left; reflexivity | reflexivity].
  - destruct (IH rows) as (r' & Hin & Heq); [lia |].
    exists r'. split; [right; exact Hin | exact Heq].
Qed.

Lemma decision_of_not_fallback (r : Row) : decision_of r <> unmonitorable_decision.
Proof.
  intros H. apply (f_equal is_monitorable) in H.
  unfold decision_of in H. rewrite is_monitorable_decision in H. discriminate H.
Qed.

Section ResolverExtras.

Variable bracketed_host_ok : string -> bool.

Abbreviation detect := (detect_monitoring_strategy bracketed_host_ok).

Lemma detect_trace (w : World) (clk : nat) (app : AppOnboardRequest) (host : option string) :
  urlparse_hostname bracketed_host_ok (url app) = Returned host ->
  trace w clk (detect app) =
  trace w clk (fetch_headers (url app)) ++
  trace w (S clk)
    (probe_in_order (probes (url app) host (result w clk (fetch_headers (url app))))).
Proof.
  intros Hparse. unfold trace at 1. rewrite (detect_run _ _ _ _ _ Hparse).
  cbn [snd]. apply observe_trace.
Qed.

Ltac one_request :=
  intros c; unfold trace, resolver_request; simpl;
  repeat match goal with
         | |- context [http_answer ?w ?n ?m ?u ?t] =>
             destruct (http_answer w n m u t) as [? | ?]; simpl
         | |- context [tcp_answer ?w ?n ?h ?p ?t] =>
             destruct (tcp_answer w n h p t) as [? | ]; simpl
         | |- context [if ?b then _ else _] => destruct b; simpl
         end;
  rewrite ?String.eqb_refl, ?andb_false_r, ?orb_true_r;
  rewrite ?bool_decide_eq_true_2 by reflexivity;
  (split; [reflexivity | lia]).

(** X1. A resolution of a URL that parses makes at least two and at most
    eight calls of [requests.get], [requests.post] and
    [socket.create_connection]; the first is the plain GET of the URL with
    timeout 2, the second the GET of its [/metrics]; and every call is a
    GET of the URL or of its [/metrics], a POST to its [/v1/traces] or
    [/v1/metrics], or a connection to port 4317 or 8125 of the host that
    [urlparse] found (none for a URL without one).  This bounds the calls
    the resolver makes; what the libraries do with one (redirections
    followed, names resolved) is below the model. *)
Theorem resolution_requests_are_confined
    (w : World) (clk : nat) (app : AppOnboardRequest) (host : option string) :
  urlparse_hostname bracketed_host_ok (url app) = Returned host ->
  let tr := trace w clk (detect app) in
  forallb (resolver_request (url app) host) tr = true /\
  (2 <= length tr <= 8)%nat /\
  exists o1 o2 rest,
    tr = EvHttp GET (url app) 2 o1 ::
         EvHttp GET (url app +:+ "/metrics") PROM_TIMEOUT o2 :: rest.
Proof.
  intros Hparse tr. unfold tr. rewrite (detect_trace w clk app host Hparse).
  set (headers := result w clk (fetch_headers (url app))).
  set (P := resolver_request (url app) host).
  assert (Hfetch : trace w clk (fetch_headers (url app)) =
                   [EvHttp GET (url app) 2 (http_answer w clk GET (url app) 2)]).
  { unfold trace, fetch_headers, requests_get; simpl.
    destruct (http_answer w clk GET (url app) 2); reflexivity. }
  assert (Hchain : forall c,
             forallb P (trace w c (probe_in_order (probes (url app) host headers))) = true /\
             (length (trace w c (probe_in_order (probes (url app) host headers)))
              <= 1 + (1 + (2 + (1 + (1 + (0 + (0 + (1 + 0))))))))%nat).
  { unfold probes.
    repeat (refine (probe_in_order_footprint P w _ _ _ _ _ _); [unfold P; one_request |]).
    intros c. split; [reflexivity | simpl; lia]. }
  destruct (Hchain (S clk)) as [Hall Hlen].
  assert (Hhead : exists o2 rest,
             trace w (S clk) (probe_in_order (probes (url app) host headers)) =
             EvHttp GET (url app +:+ "/metrics") PROM_TIMEOUT o2 :: rest).
  { unfold probes. rewrite probe_in_order_trace_cons.
    assert (Htr : trace w (S clk) (check_prometheus_metrics (url app)) =
                  [EvHttp GET (url app +:+ "/metrics") PROM_TIMEOUT
                     (http_answer w (S clk) GET (url app +:+ "/metrics") PROM_TIMEOUT)])
      by (unfold trace; rewrite check_prometheus_metrics_run; reflexivity).
    rewrite Htr. destruct (result w (S clk) (check_prometheus_metrics (url app))); eauto. }
  destruct Hhead as (o2 & rest & Heq). rewrite Heq in *.
  rewrite Hfetch. cbn [List.app length forallb] in *.
  split; [| split].
  - rewrite Hall. unfold P, resolver_request. rewrite String.eqb_refl. reflexivity.
  - lia.
  - eauto.
Qed.

(** X2. The fallback decision is returned exactly when all eight probes
    of the resolution were evaluated and failed. *)
Theorem fallback_exactly_when_all_probes_failed
    (w : World) (clk : nat) (app : AppOnboardRequest) :
  result w clk (detect app) = Returned unmonitorable_decision <->
  observed_outcomes bracketed_host_ok w clk app =
    Returned [false; false; false; false; false; false; false; false].
Proof.
  rewrite detect_by_observation. unfold observed_outcomes, observation.
  destruct (urlparse_hostname bracketed_host_ok (url app)) as [host | e];
    [| split; discriminate].
  rewrite observe_result. cbn [fst snd].
  set (headers := result w clk (fetch_headers (url app))).
  destruct (probe_in_order_outcomes w (probes (url app) host headers) (S clk))
    as [-> | (k & Hk & ->)].
  - split; reflexivity.
  - destruct (first_success_after_failures k (priority_table headers) Hk)
      as (r & _ & ->).
    split.
    + intros H. exfalso. apply (decision_of_not_fallback r). congruence.
    + intros H. exfalso.
      assert (H' := f_equal (fun x => match x with
                                      | Returned l => existsb id l
                                      | Raised _ => false
                                      end) H).
      cbv beta iota in H'. rewrite existsb_app in H'. simpl in H'.
      rewrite orb_true_r in H'. discriminate H'.
Qed.

Lemma detect_result_possible
    (w : World) (clk : nat) (app : AppOnboardRequest) (d : Dict) :
  result w clk (detect app) = Returned d -> In d possible_decisions.
Proof.
  rewrite detect_by_observation. unfold observation.
  destruct (urlparse_hostname bracketed_host_ok (url app)) as [host | e];
    [| discriminate].
  rewrite observe_result. cbn [fst snd].
  set (headers := result w clk (fetch_headers (url app))).
  intros H.
  apply (f_equal (fun r => match r with Returned x => x | Raised _ => d end)) in H.
  cbv beta iota in H. rewrite <- H. clear H d.
  unfold probes, priority_table.
  generalize (S clk) as c. intros c.
  do 5 (rewrite probe_in_order_result_cons;
        match goal with
        | |- context [if result w ?c ?p then _ else _] => destruct (result w c p)
        end; [simpl; tauto |];
        match goal with
        | |- context [(?c + length ?tr)%nat] => generalize (c + length tr)%nat; intros ?c
        end; cbn [first_success]).
  rewrite probe_in_order_result_cons. cbn [result run fst].
  destruct (detect_kubernetes_env headers); [simpl; tauto |].
  cbn [first_success]. rewrite probe_in_order_result_cons. cbn [result run fst].
  unfold cloud_row.
  pose proof (detect_cloud_provider_cases headers) as Hc. simpl in Hc.
  destruct Hc as [<- | [<- | [<- | [<- | []]]]];
    try (cbn [first_success]; unfold decision_of; simpl; tauto).
  replace (bool_decide (is_Some (@None string))) with false by reflexivity.
  cbn [first_success]. rewrite probe_in_order_result_cons.
  match goal with
  | |- context [if result w ?c ?p then _ else _] => destruct (result w c p)
  end; simpl; tauto.
Qed.

(** X3. A resolution returns one of eleven dictionaries: the ten
    monitorable decisions of the table, the cloud one naming aws, gcp or
    azure, or the fallback. *)
Theorem returned_decision_is_one_of_eleven
    (w : World) (clk : nat) (app : AppOnboardRequest) (d : Dict) :
  result w clk (detect app) = Returned d -> In d possible_decisions.
Proof. apply detect_result_possible. Qed.

Lemma check_otlp_http_result (w : World) (clk : nat) (base_url : string) :
  result w clk (check_otlp_http base_url) =
  (otlp_accepts (http_answer w clk POST (base_url +:+ "/v1/traces") OTEL_TIMEOUT)
   || otlp_accepts (http_answer w (S clk) POST (base_url +:+ "/v1/metrics") OTEL_TIMEOUT))%bool.
Proof.
  unfold result, check_otlp_http, check_otlp_paths, requests_post, otlp_accepts.
  cbn -[status_in].
  destruct (http_answer w clk POST _ OTEL_TIMEOUT) as [e | r]; cbn -[status_in].
  - destruct (http_answer w (S clk) POST _ OTEL_TIMEOUT) as [e' | r']; cbn -[status_in];
      [reflexivity |].
    destruct (status_in [200; 404; 415] (status_code r')); reflexivity.
  - destruct (status_in [200; 404; 415] (status_code r)); cbn -[status_in]; [reflexivity |].
    destruct (http_answer w (S clk) POST _ OTEL_TIMEOUT) as [e' | r']; cbn -[status_in];
      [reflexivity |].
    destruct (status_in [200; 404; 415] (status_code r')); reflexivity.
Qed.

(** X4. When neither read of [/metrics] succeeds and one of the two OTLP
    paths answers 200, 404 or 415 to the POST, the decision is
    opentelemetry-http with confidence high, whatever the later probes
    would find: a target that answers 404 to unknown paths is taken for
    an OTLP endpoint. *)
Theorem otlp_reply_gives_opentelemetry_http
    (w : World) (clk : nat) (app : AppOnboardRequest) (host : option string) :
  urlparse_hostname bracketed_host_ok (url app) = Returned host ->
  metrics_exposed
    (http_answer w (S clk) GET (url app +:+ "/metrics") PROM_TIMEOUT) = false ->
  metrics_need_auth
    (http_answer w (S (S clk)) GET (url app +:+ "/metrics") PROM_TIMEOUT) = false ->
  (otlp_accepts
     (http_answer w (S (S (S clk))) POST (url app +:+ "/v1/traces") OTEL_TIMEOUT)
   || otlp_accepts
        (http_answer w (S (S (S (S clk)))) POST (url app +:+ "/v1/metrics") OTEL_TIMEOUT))%bool
    = true ->
  result w clk (detect app) =
  Returned (monitorable_decision "opentelemetry-http" "high" "OTLP HTTP endpoint detected").
Proof.
  intros Hparse H1 H2 H3.
  rewrite (detect_metrics_rows bracketed_host_ok w clk app host Hparse).
  cbv zeta. rewrite H1, H2. unfold probes. cbn [skipn].
  rewrite probe_in_order_result_cons, check_otlp_http_result, H3. reflexivity.
Qed.

End ResolverExtras.

(** ** Markers in response headers *)

Lemma contains_cons (m : string) (c : ascii) (t : string) :
  contains m (String c t) = (String.prefix m (String c t) || contains m t)%bool.
Proof. reflexivity. Qed.

Lemma append_cons (c : ascii) (a b : string) : String c a +:+ b = String c (a +:+ b).
Proof. reflexivity. Qed.

Lemma lower_cons (c : ascii) (s : string) : lower (String c s) = String (lower_char c) (lower s).
Proof. reflexivity. Qed.

Lemma prefix_append (m a b : string) :
  String.prefix m a = true -> String.prefix m (a +:+ b) = true.
Proof.
  revert a; induction m as [| c m IH]; intros a H.
  - destruct (a +:+ b); reflexivity.
  - destruct a as [| d a]; [discriminate H |].
    rewrite append_cons. simpl in *.
    destruct (ascii_dec c d); [apply IH, H | discriminate H].
Qed.

Lemma contains_append_l (m a b : string) :
  contains m a = true -> contains m (a +:+ b) = true.
Proof.
  induction a as [| c a IH]; intros H.
  - destruct m as [| c m]; [| discriminate H].
    destruct (EmptyString +:+ b); reflexivity.
  - rewrite contains_cons in H. rewrite append_cons, contains_cons.
    apply orb_true_iff in H as [H | H].
    + rewrite <- append_cons, (prefix_append m (String c a) b H). reflexivity.
    + rewrite (IH H). apply orb_true_r.
Qed.

Lemma contains_append_r (m a b : string) :
  contains m b = true -> contains m (a +:+ b) = true.
Proof.
  intros H. induction a as [| c a IH]; [exact H |].
  rewrite append_cons, contains_cons, IH. apply orb_true_r.
Qed.

Lemma lower_append (a b : string) : lower (a +:+ b) = lower a +:+ lower b.
Proof.
  induction a as [| c a IH]; [reflexivity |].
  rewrite append_cons, !lower_cons, IH. reflexivity.
Qed.

(** A character that lower-cases to a marker character is printed as
    itself by [repr], between quotes of either kind. *)
Lemma repr_char_marker (quote c : ascii) :
  marker_char (lower_char c) = true ->
  marker_char (lower_char quote) = false ->
  repr_char quote c = String c EmptyString.
Proof.
  intros Hc Hq. unfold repr_char.
  destruct (is_char quote c) eqn:Eq.
  { apply Ascii.eqb_eq in Eq. subst c. congruence. }
  clear Eq Hq. revert Hc.
  destruct c as [[] [] [] [] [] [] [] []]; vm_compute; congruence.
Qed.

Lemma repr_chars_cons (quote c : ascii) (s : string) :
  repr_chars quote (String c s) = repr_char quote c +:+ repr_chars quote s.
Proof. reflexivity. Qed.

Lemma prefix_lower_repr (quote : ascii) (m s : string) :
  forall_chars marker_char m = true ->
  marker_char (lower_char quote) = false ->
  String.prefix m (lower s) = true ->
  String.prefix m (lower (repr_chars quote s)) = true.
Proof.
  intros Hm Hq. revert s Hm.
  induction m as [| a m IH]; intros s Hm Hp.
  - destruct (lower (repr_chars quote s)); reflexivity.
  - destruct s as [| c s]; [discriminate Hp |].
    cbn [forall_chars] in Hm. apply andb_true_iff in Hm as [Ha Hm].
    rewrite lower_cons in Hp. simpl in Hp.
    destruct (ascii_dec a (lower_char c)) as [-> | ]; [| discriminate Hp].
    rewrite repr_chars_cons, (repr_char_marker quote c Ha Hq), append_cons, lower_cons.
    simpl. destruct (ascii_dec (lower_char c) (lower_char c)); [| contradiction].
    apply IH; assumption.
Qed.

Lemma contains_lower_repr (quote : ascii) (m s : string) :
  forall_chars marker_char m = true ->
  marker_char (lower_char quote) = false ->
  contains m (lower s) = true ->
  contains m (lower (repr_chars quote s)) = true.
Proof.
  intros Hm Hq. induction s as [| c s IH]; intros H.
  - exact H.
  - rewrite lower_cons, contains_cons in H.
    apply orb_true_iff in H as [H | H].
    + rewrite <- lower_cons in H.
      pose proof (prefix_lower_repr quote m (String c s) Hm Hq H) as Hp.
      destruct (lower (repr_chars quote (String c s))) as [| x t] eqn:E.
      * destruct m; [reflexivity | discriminate Hp].
      * rewrite contains_cons, Hp. reflexivity.
    + rewrite repr_chars_cons, lower_append. apply contains_append_r, IH, H.
Qed.

Lemma contains_lower_repr_str (m s : string) :
  forall_chars marker_char m = true ->
  contains m (lower s) = true ->
  contains m (lower (repr_str s)) = true.
Proof.
  intros Hm H. unfold repr_str.
  set (quote := if (_ && _)%bool then dquote else "'"%char).
  assert (Hq : marker_char (lower_char quote) = false)
    by (unfold quote; destruct (_ && _)%bool; reflexivity).
  change (String quote (repr_chars quote s +:+ String quote EmptyString))
    with (String quote EmptyString +:+ (repr_chars quote s +:+ String quote EmptyString)).
  rewrite lower_append. apply contains_append_r.
  rewrite lower_append. apply contains_append_l.
  apply contains_lower_repr; assumption.
Qed.

Lemma contains_lower_join (m : string) (items : list string) (x : string) :
  In x items -> contains m (lower x) = true ->
  contains m (lower (join_with ", " items)) = true.
Proof.
  induction items as [| y items IH]; [contradiction |].
  intros [-> | Hin] Hx.
  - destruct items as [| z items]; [exact Hx |].
    cbn [join_with]. rewrite lower_append. apply contains_append_l, Hx.
  - destruct items as [| z items]; [contradiction |].
    cbn [join_with]. rewrite !lower_append.
    apply contains_append_r, contains_append_r, IH; assumption.
Qed.

Lemma header_mention_found (m : string) (headers : list (string * string)) :
  forall_chars marker_char m = true ->
  header_mentions m headers = true ->
  contains m (lower (str_of_headers headers)) = true.
Proof.
  intros Hm H. unfold header_mentions in H.
  apply existsb_exists in H as ((k & v) & Hin & Hkv). cbn [fst snd] in Hkv.
  unfold str_of_headers. rewrite !lower_append.
  apply contains_append_r, contains_append_l.
  apply (contains_lower_join m _ (repr_str k +:+ ": " +:+ repr_str v)).
  - apply in_map_iff. exists (k, v). split; [reflexivity | exact Hin].
  - rewrite !lower_append. apply orb_true_iff in Hkv as [Hk | Hv].
    + apply contains_append_l, contains_lower_repr_str; assumption.
    + apply contains_append_r, contains_append_r, contains_lower_repr_str; assumption.
Qed.

(** X5. Header detection is by text, in any case, over names and values
    alike: a header whose name or value contains [x-kubernetes] marks a
    Kubernetes environment; one containing [x-amzn] gives aws, whatever
    else is there; one containing [x-goog] gives gcp unless aws is found;
    one containing [x-ms] gives some provider. *)
Theorem header_markers_are_found (headers : list (string * string)) :
  (header_mentions "x-kubernetes" headers = true ->
   detect_kubernetes_env headers = true) /\
  (header_mentions "x-amzn" headers = true ->
   detect_cloud_provider headers = Some "aws") /\
  (header_mentions "x-goog" headers = true ->
   detect_cloud_provider headers = Some "aws" \/
   detect_cloud_provider headers = Some "gcp") /\
  (header_mentions "x-ms" headers = true ->
   is_Some (detect_cloud_provider headers)).
Proof.
  unfold detect_kubernetes_env, detect_cloud_provider.
  repeat split.
  - intros H. apply header_mention_found; [reflexivity | exact H].
  - intros H. rewrite (header_mention_found "x-amzn" headers eq_refl H). reflexivity.
  - intros H. rewrite (header_mention_found "x-goog" headers eq_refl H).
    destruct (contains "x-amzn" _); auto.
  - intros H. rewrite (header_mention_found "x-ms" headers eq_refl H).
    destruct (contains "x-amzn" _); [eauto |].
    destruct (contains "x-goog" _); eauto.
Qed.

(** * Further properties of the scrape-config mutation *)

Lemma job_entry_name (scrape_config : ScrapeConfig) :
  py_getitem "job_name" (job_entry_of scrape_config) = Returned (YStr (job_name scrape_config)).
Proof. unfold job_entry_of. destruct (auth_required scrape_config); reflexivity. Qed.

Lemma job_entry_in_place (objects : gmap positive Yaml) (scrape_config : ScrapeConfig) :
  resolve objects (job_entry_of scrape_config) = job_entry_of scrape_config.
Proof. unfold job_entry_of. destruct (auth_required scrape_config); reflexivity. Qed.

Lemma job_names_app (objects : gmap positive Yaml) (jobs names : list Yaml) (job name : Yaml) :
  job_names objects jobs = Returned names ->
  py_getitem "job_name" (resolve objects job) = Returned name ->
  job_names objects (jobs ++ [job]) = Returned (names ++ [resolve objects name]).
Proof.
  revert names; induction jobs as [| j jobs IH]; intros names Hn Hj; simpl in *.
  - injection Hn as <-. rewrite Hj. reflexivity.
  - destruct (py_getitem "job_name" (resolve objects j)) as [n | e]; [| discriminate Hn].
    destruct (job_names objects jobs) as [ns | e]; [| discriminate Hn].
    injection Hn as <-. rewrite (IH ns eq_refl Hj). reflexivity.
Qed.

Lemma job_names_still_return (objects objects' : gmap positive Yaml)
    (jobs names : list Yaml) :
  (forall job name,
     py_getitem "job_name" (resolve objects job) = Returned name ->
     py_getitem "job_name" (resolve objects' job) = Returned name) ->
  job_names objects jobs = Returned names ->
  exists names', job_names objects' jobs = Returned names'.
Proof.
  intros Hsame. revert names. induction jobs as [| j jobs IH]; intros names Hn; simpl in *.
  - eauto.
  - destruct (py_getitem "job_name" (resolve objects j)) as [n | e] eqn:Hj;
      [| discriminate Hn].
    destruct (job_names objects jobs) as [ns | e]; [| discriminate Hn].
    rewrite (Hsame j n Hj). destruct (IH ns eq_refl) as [ns' ->]. eauto.
Qed.

Lemma root_value_with_mapping (m' : gmap string Yaml) (config : Document) :
  root_value (with_root_value (YMap m') config) = YMap m'.
Proof.
  unfold with_root_value, root_value.
  destruct (root config); cbn [root shared resolve]; try reflexivity.
  rewrite lookup_insert_eq. reflexivity.
Qed.

Lemma or_empty_map_mapping (doc : Document) (m : gmap string Yaml) :
  root_value doc = YMap m -> m <> ∅ -> or_empty_map doc = doc.
Proof.
  intros Hroot Hm. unfold or_empty_map. rewrite Hroot. cbn [truthy].
  rewrite bool_decide_eq_false_2 by exact Hm. reflexivity.
Qed.

(** A document that holds a list of jobs is loaded as it is. *)
Lemma load_config_with_jobs (env : PromEnv) (doc : Document) (m : gmap string Yaml)
    (node : Yaml) :
  config_file env = Holding doc ->
  root_value doc = YMap m ->
  m !! "scrape_configs" = Some node ->
  load_config env = Returned doc.
Proof.
  intros Hfile Hroot Hnode. unfold load_config. rewrite Hfile.
  rewrite (or_empty_map_mapping doc m Hroot)
    by (intros ->; rewrite lookup_empty in Hnode; discriminate Hnode).
  unfold py_in. rewrite Hroot, bool_decide_eq_true_2 by eauto. reflexivity.
Qed.

(** What [load_config] returns: the document itself, or a new mapping
    when the document is false in Python's sense, completed with an empty
    list of jobs when it has no [scrape_configs]. *)
Lemma load_config_cases (env : PromEnv) (config : Document) :
  load_config env = Returned config ->
  exists doc,
    config_file env = Holding doc /\
    (config = or_empty_map doc \/
     exists m, root_value (or_empty_map doc) = YMap m /\
               m !! "scrape_configs" = None /\
               config = with_root_value (YMap (<["scrape_configs" := YSeq []]> m))
                          (or_empty_map doc)).
Proof.
  unfold load_config. destruct (config_file env) as [e | doc]; [discriminate |].
  intros H. exists doc. split; [reflexivity |].
  destruct (py_in "scrape_configs" (or_empty_map doc)) as [[|] | e] eqn:Hin;
    [injection H as <-; auto | | discriminate H].
  right. unfold py_in, py_setitem in *.
  destruct (root_value (or_empty_map doc)) as [| | | | | | m |]; try discriminate H.
  exists m. split; [reflexivity |]. split; [| injection H as <-; reflexivity].
  injection Hin as Hin. apply bool_decide_eq_false in Hin.
  destruct (m !! "scrape_configs"); [exfalso; apply Hin; eauto | reflexivity].
Qed.

(** What an append does to a configuration: the list of jobs grows by
    the entry, the root mapping keeps its other keys, and no object of
    the document changes but the list and the root mapping. *)
Lemma append_under_result (entry : Yaml) (config config' : Document) :
  py_append_under "scrape_configs" entry config = Returned config' ->
  exists m node jobs m' node',
    root_value config = YMap m /\
    m !! "scrape_configs" = Some node /\
    resolve (shared config) node = YSeq jobs /\
    root_value config' = YMap m' /\
    m' !! "scrape_configs" = Some node' /\
    resolve (shared config') node' = YSeq (jobs ++ [entry]) /\
    (forall k, k <> "scrape_configs" -> m' !! k = m !! k) /\
    (forall b, shared config' !! b = shared config !! b \/
               node = YRef b \/ root config = YRef b) /\
    (forall job name,
       py_getitem "job_name" (resolve (shared config) job) = Returned name ->
       py_getitem "job_name" (resolve (shared config') job) = Returned name).
Proof.
  unfold py_append_under.
  destruct (root_value config) as [| | | | | | m |] eqn:Hroot; try discriminate.
  destruct (m !! "scrape_configs") as [node |] eqn:Hnode; [| discriminate].
  destruct node as [| | | | | jobs | | a]; try discriminate.
  - (* the list is written in place *)
    intros H. injection H as <-.
    exists m, (YSeq jobs), jobs,
      (<["scrape_configs" := YSeq (jobs ++ [entry])]> m), (YSeq (jobs ++ [entry])).
    split; [reflexivity |]. split; [exact Hnode |]. split; [reflexivity |].
    split; [apply root_value_with_mapping |].
    split; [apply lookup_insert_eq |]. split; [reflexivity |].
    split; [intros k Hk; apply lookup_insert_ne; congruence |].
    unfold with_root_value, root_value in *.
    destruct (root config) as [| | | | | | | r] eqn:Hr; cbn [shared];
      try (split; [auto | intros job name Hname; exact Hname]).
    split.
    + intros b. destruct (decide (r = b)) as [<- | Hne]; [auto |].
      left. apply lookup_insert_ne, Hne.
    + intros job name. unfold resolve in *.
      destruct job as [| | | | | | | b]; try (intros Hname; exact Hname).
      destruct (decide (r = b)) as [<- | Hne].
      * rewrite lookup_insert_eq, Hroot. unfold from_option, id, py_getitem.
        rewrite lookup_insert_ne by discriminate. intros Hname; exact Hname.
      * rewrite lookup_insert_ne by exact Hne. intros Hname; exact Hname.
  - (* the list is a shared object *)
    destruct (shared config !! a) as [[| | | | | jobs | |] |] eqn:Ha; try discriminate.
    intros H. injection H as <-.
    assert (Hroot' : resolve (<[a := YSeq (jobs ++ [entry])]> (shared config)) (root config)
                     = YMap m).
    { unfold root_value, resolve in *.
      destruct (root config) as [| | | | | | | r]; try exact Hroot.
      destruct (decide (a = r)) as [<- | Hne].
      - rewrite Ha in Hroot. discriminate Hroot.
      - rewrite lookup_insert_ne by exact Hne. exact Hroot. }
    exists m, (YRef a), jobs, m, (YRef a).
    split; [reflexivity |]. split; [exact Hnode |].
    split; [apply resolve_ref, Ha |].
    split; [exact Hroot' |]. split; [exact Hnode |].
    split; [apply resolve_ref, lookup_insert_eq |].
    split; [reflexivity |].
    cbn [shared]. split.
    + intros b. destruct (decide (a = b)) as [<- | Hne]; [auto |].
      left. apply lookup_insert_ne, Hne.
    + intros job name. unfold resolve.
      destruct job as [| | | | | | | b]; try (intros Hname; exact Hname).
      destruct (decide (a = b)) as [<- | Hne].
      * rewrite Ha. unfold from_option, id, py_getitem. discriminate.
      * rewrite lookup_insert_ne by exact Hne. intros Hname; exact Hname.
Qed.

Lemma jobs_of_resolved (doc : Document) (m : gmap string Yaml) (node : Yaml)
    (jobs : list Yaml) :
  root_value doc = YMap m ->
  m !! "scrape_configs" = Some node ->
  resolve (shared doc) node = YSeq jobs ->
  jobs_of doc = Some jobs.
Proof. intros Hroot Hnode Hjobs. unfold jobs_of. rewrite Hroot, Hnode, Hjobs. reflexivity. Qed.

(** The two ways a call can end: nothing has changed and [False] is
    returned, or the job was appended to the jobs found, the file written
    and one reload asked. *)
Lemma add_prometheus_scrape_job_cases (scrape_config : ScrapeConfig) (env : PromEnv) :
  add_prometheus_scrape_job scrape_config env = (false, env) \/
  exists config config' jobs names,
    load_config env = Returned config /\
    jobs_of config = Some jobs /\
    job_names (shared config) jobs = Returned names /\
    existsb (is_ystr (job_name scrape_config)) names = false /\
    writable env = true /\
    py_append_under "scrape_configs" (job_entry_of scrape_config) config = Returned config' /\
    add_prometheus_scrape_job scrape_config env =
      (reload_succeeds env, written config' env).
Proof.
  unfold add_prometheus_scrape_job, add_prometheus_scrape_job_body.
  destruct (load_config env) as [config | e] eqn:Hload; [| auto].
  destruct (py_getitem "scrape_configs" (root_value config)) as [node | e] eqn:Hget;
    [| auto].
  destruct (existing_job_names (shared config) node) as [names | e] eqn:Hnames; [| auto].
  destruct (existsb (is_ystr (job_name scrape_config)) names) eqn:Hex; [auto |].
  destruct (py_append_under "scrape_configs" (job_entry_of scrape_config) config)
    as [config' | e] eqn:Happ; [| auto].
  unfold persist_and_reload.
  destruct (writable env) eqn:Hw; [| auto].
  right. exists config, config'.
  destruct (append_under_result _ _ _ Happ)
    as (m & node0 & jobs & _ & _ & Hroot & Hnode & Hjobs & _).
  unfold py_getitem in Hget. rewrite Hroot, Hnode in Hget. injection Hget as <-.
  unfold existing_job_names in Hnames. rewrite Hjobs in Hnames.
  exists jobs, names.
  split; [reflexivity |].
  split; [exact (jobs_of_resolved config m node0 jobs Hroot Hnode Hjobs) |].
  split; [exact Hnames |]. split; [exact Hex |]. split; [reflexivity |].
  split; [exact Happ |].
  unfold reload_succeeds, written. cbn [negb].
  destruct (reload_answer env); reflexivity.
Qed.

(** A file that holds what an append gave lists the appended job. *)
Lemma job_exists_after_append (scrape_config : ScrapeConfig) (config config' : Document)
    (jobs names : list Yaml) (env' : PromEnv) :
  py_append_under "scrape_configs" (job_entry_of scrape_config) config = Returned config' ->
  jobs_of config = Some jobs ->
  job_names (shared config) jobs = Returned names ->
  config_file env' = Holding config' ->
  job_exists (job_name scrape_config) env'.
Proof.
  intros Happ Hjobs Hnames Hfile.
  destruct (append_under_result _ _ _ Happ)
    as (m & node & jobs0 & m' & node' & Hroot & Hnode & Hres & Hroot' & Hnode' & Hres'
        & _ & _ & Hsame).
  assert (jobs0 = jobs) as ->.
  { unfold jobs_of in Hjobs. rewrite Hroot, Hnode, Hres in Hjobs. congruence. }
  destruct (job_names_still_return _ _ jobs names Hsame Hnames) as [names' Hnames'].
  exists config', node', (names' ++ [YStr (job_name scrape_config)]).
  split; [exact (load_config_with_jobs env' config' m' node' Hfile Hroot' Hnode') |].
  split; [unfold py_getitem; rewrite Hroot', Hnode'; reflexivity |].
  split.
  - unfold existing_job_names. rewrite Hres'.
    apply (job_names_app _ jobs names' (job_entry_of scrape_config)
             (YStr (job_name scrape_config)) Hnames').
    rewrite job_entry_in_place. apply job_entry_name.
  - rewrite existsb_app. cbn [existsb is_ystr]. rewrite String.eqb_refl.
    apply orb_true_iff. right. reflexivity.
Qed.

Lemma job_exists_skips (scrape_config : ScrapeConfig) (env : PromEnv) :
  job_exists (job_name scrape_config) env ->
  add_prometheus_scrape_job scrape_config env = (false, env).
Proof.
  intros (config & scs & names & Hload & Hget & Hnames & Hex).
  unfold add_prometheus_scrape_job, add_prometheus_scrape_job_body.
  rewrite Hload, Hget, Hnames, Hex. reflexivity.
Qed.

Lemma changed_file_has_job (scrape_config : ScrapeConfig) (env env' : PromEnv) :
  config_file (snd (add_prometheus_scrape_job scrape_config env)) <> config_file env ->
  config_file env' = config_file (snd (add_prometheus_scrape_job scrape_config env)) ->
  job_exists (job_name scrape_config) env'.
Proof.
  intros Hchanged Hfile.
  destruct (add_prometheus_scrape_job_cases scrape_config env)
    as [Hsame | (config & config' & jobs & names & _ & Hjobs & Hnames & _ & _ & Happ & Hadd)].
  - rewrite Hsame in Hchanged. contradiction.
  - rewrite Hadd in Hfile. cbn [snd written config_file] in Hfile.
    exact (job_exists_after_append scrape_config config config' jobs names env'
             Happ Hjobs Hnames Hfile).
Qed.

(** A call on a configuration with a list of jobs that lacks the name
    and a file that can be written does not leave the environment as it
    was. *)
Lemma new_job_changes_environment (scrape_config : ScrapeConfig) (env : PromEnv)
    (config : Document) (jobs names : list Yaml) :
  load_config env = Returned config ->
  jobs_of config = Some jobs ->
  job_names (shared config) jobs = Returned names ->
  existsb (is_ystr (job_name scrape_config)) names = false ->
  writable env = true ->
  add_prometheus_scrape_job scrape_config env <> (false, env).
Proof.
  intros Hload Hjobs Hnames Hex Hw.
  unfold add_prometheus_scrape_job, add_prometheus_scrape_job_body. rewrite Hload.
  unfold jobs_of in Hjobs.
  destruct (root_value config) as [| | | | | | m |] eqn:Hroot; try discriminate Hjobs.
  destruct (m !! "scrape_configs") as [node |] eqn:Hnode; [| discriminate Hjobs].
  destruct (resolve (shared config) node) as [| | | | | jobs1 | |] eqn:Hres;
    try discriminate Hjobs.
  injection Hjobs as ->. cbn [py_getitem]. rewrite Hnode.
  unfold existing_job_names. rewrite Hres, Hnames, Hex.
  unfold py_append_under. rewrite Hroot, Hnode.
  assert (Hpersist : forall c, snd (let (p, env') := persist_and_reload c env in
                                    match p with
                                    | Returned ok => (ok, env')
                                    | Raised _ => (false, env')
                                    end) <> env).
  { intros c. unfold persist_and_reload. rewrite Hw. cbn [negb].
    destruct (reload_answer env); cbn [fst snd];
      intros H; apply (f_equal reload_requests) in H; cbn in H; lia. }
  destruct node as [| | | | | jobs1 | | a]; try discriminate Hres.
  - intros H. apply (f_equal snd) in H. exact (Hpersist _ H).
  - unfold resolve in Hres.
    destruct (shared config !! a) as [[| | | | | jobs2 | |] |]; try discriminate Hres.
    intros H. apply (f_equal snd) in H. exact (Hpersist _ H).
Qed.

(** X6. A job is added at most once: once a call has changed the file,
    every later call for a job of the same name on that file returns
    [False] and changes nothing, whatever the reload endpoint or the
    permissions have become. *)
Theorem job_is_added_at_most_once
    (scrape_config again : ScrapeConfig) (env env' : PromEnv) :
  config_file (snd (add_prometheus_scrape_job scrape_config env)) <> config_file env ->
  job_name again = job_name scrape_config ->
  config_file env' = config_file (snd (add_prometheus_scrape_job scrape_config env)) ->
  add_prometheus_scrape_job again env' = (false, env').
Proof.
  intros Hchanged Hname Hfile.
  apply job_exists_skips. rewrite Hname.
  exact (changed_file_has_job scrape_config env env' Hchanged Hfile).
Qed.

(** X7. When the job is new and the file can be written but the reload
    does not answer 200, the call returns [False] although the job has
    been written at the end of the list of jobs; a retry on that file
    then finds the job and returns [False] too, also once the reload
    endpoint works again. *)
Theorem failed_reload_is_reported_but_job_stays
    (scrape_config : ScrapeConfig) (env : PromEnv) (config : Document)
    (jobs names : list Yaml) :
  load_config env = Returned config ->
  jobs_of config = Some jobs ->
  job_names (shared config) jobs = Returned names ->
  existsb (is_ystr (job_name scrape_config)) names = false ->
  writable env = true ->
  reload_succeeds env = false ->
  exists config',
    add_prometheus_scrape_job scrape_config env = (false, written config' env) /\
    jobs_of config' = Some (jobs ++ [job_entry_of scrape_config]) /\
    (forall env', config_file env' = Holding config' ->
                  add_prometheus_scrape_job scrape_config env' = (false, env')).
Proof.
  intros Hload Hjobs Hnames Hex Hw Hreload.
  destruct (add_prometheus_scrape_job_cases scrape_config env)
    as [Hsame | (config0 & config' & jobs0 & names0 & Hload0 & Hjobs0 & Hnames0 & _ & _
                 & Happ & Hadd)].
  - exfalso.
    exact (new_job_changes_environment scrape_config env config jobs names
             Hload Hjobs Hnames Hex Hw Hsame).
  - assert (config0 = config) as -> by congruence.
    assert (jobs0 = jobs) as -> by congruence.
    exists config'. rewrite Hadd, Hreload. split; [reflexivity |].
    destruct (append_under_result _ _ _ Happ)
      as (m & node & jobs1 & m' & node' & Hroot & Hnode & Hres & Hroot' & Hnode' & Hres' & _).
    assert (jobs1 = jobs) as ->.
    { unfold jobs_of in Hjobs. rewrite Hroot, Hnode, Hres in Hjobs. congruence. }
    split; [exact (jobs_of_resolved config' m' node' _ Hroot' Hnode' Hres') |].
    intros env' Hfile. apply job_exists_skips.
    exact (job_exists_after_append scrape_config config config' jobs names env'
             Happ Hjobs Hnames Hfile).
Qed.

(** X8. A file that cannot be read, or whose root is true in Python's
    sense without being a mapping (a list, a text, a number), makes the
    call return [False] and is left as it is: the file is never created
    or replaced. *)
Theorem unusable_config_is_left_alone (scrape_config : ScrapeConfig) (env : PromEnv) :
  match config_file env with
  | Unreadable _ => True
  | Holding doc => unusable_document (root_value doc) = true
  end ->
  add_prometheus_scrape_job scrape_config env = (false, env).
Proof.
  intros H.
  destruct (add_prometheus_scrape_job_cases scrape_config env)
    as [Hsame | (config & config' & jobs & names & Hload & Hjobs & _)]; [exact Hsame |].
  exfalso. apply load_config_cases in Hload as (doc & Hfile & Hconfig).
  rewrite Hfile in H.
  assert (Hdoc : or_empty_map doc = doc).
  { unfold or_empty_map.
    destruct (root_value doc) as [| b | z | f | s | l | m | a]; cbn in H |- *;
      try discriminate H; try rewrite H; reflexivity. }
  rewrite Hdoc in Hconfig. unfold jobs_of in Hjobs.
  destruct Hconfig as [-> | (m & Hroot & _)].
  - destruct (root_value doc); try discriminate Hjobs. discriminate H.
  - rewrite Hroot in H. discriminate H.
Qed.

(** X9. A document whose root is false in Python's sense (an empty
    file, [null], an empty mapping, list or text, a zero) is taken for an
    empty configuration: when the file can be written it becomes a mapping
    whose only key is [scrape_configs], holding the one new job, one
    reload is asked and its success is the answer. *)
Theorem empty_config_is_initialised
    (scrape_config : ScrapeConfig) (env : PromEnv) (doc : Document) :
  config_file env = Holding doc ->
  truthy (root_value doc) = Some false ->
  writable env = true ->
  add_prometheus_scrape_job scrape_config env =
  (reload_succeeds env,
   {| config_file :=
        Holding (YMap {[ "scrape_configs" := YSeq [job_entry_of scrape_config] ]});
      writable := true;
      reload_answer := reload_answer env;
      reload_requests := S (reload_requests env) |}).
Proof.
  intros Hfile Hfalsy Hw.
  unfold add_prometheus_scrape_job, add_prometheus_scrape_job_body, load_config.
  rewrite Hfile. unfold or_empty_map. rewrite Hfalsy. simpl default.
  unfold py_in, py_setitem, unshared, root_value, with_root_value. cbn [root shared resolve].
  rewrite lookup_empty, bool_decide_eq_false_2 by (intros [x Hx]; discriminate Hx).
  cbn [root shared resolve py_getitem]. rewrite lookup_insert_eq.
  unfold existing_job_names. cbn [resolve job_names existsb].
  unfold py_append_under, root_value, with_root_value. cbn [root shared resolve].
  rewrite lookup_insert_eq. cbn [root shared List.app].
  unfold persist_and_reload. rewrite Hw. cbn [negb].
  rewrite insert_insert_eq, insert_empty. unfold reload_succeeds.
  destruct (reload_answer env); reflexivity.
Qed.

(** X10. Whenever a call changes the file of a non-empty mapping, the
    new document has the jobs that were there, in order, followed by the
    new one; its root mapping holds every other key as before; and no
    object of the document has changed but the list of jobs and the root
    mapping.  So a value that mentions neither is what it was, while a
    key that shares the list of jobs shows the new job too. *)
Theorem written_config_keeps_everything_else
    (scrape_config : ScrapeConfig) (env : PromEnv) (doc : Document) (m0 : gmap string Yaml) :
  config_file env = Holding doc ->
  root_value doc = YMap m0 ->
  m0 <> ∅ ->
  config_file (snd (add_prometheus_scrape_job scrape_config env)) <> config_file env ->
  exists doc' m' jobs,
    config_file (snd (add_prometheus_scrape_job scrape_config env)) = Holding doc' /\
    root_value doc' = YMap m' /\
    (forall k, k <> "scrape_configs" -> m' !! k = m0 !! k) /\
    jobs_of doc' = Some (jobs ++ [job_entry_of scrape_config]) /\
    (jobs_of doc = Some jobs \/ (m0 !! "scrape_configs" = None /\ jobs = [])) /\
    (forall b, shared doc' !! b = shared doc !! b \/
               m0 !! "scrape_configs" = Some (YRef b) \/ root doc = YRef b) /\
    (forall k b, m0 !! k = Some (YRef b) -> m0 !! "scrape_configs" = Some (YRef b) ->
                 m' !! k = Some (YRef b) /\
                 resolve (shared doc') (YRef b) =
                   YSeq (jobs ++ [job_entry_of scrape_config])).
Proof.
  intros Hfile Hroot Hne Hchanged.
  destruct (add_prometheus_scrape_job_cases scrape_config env)
    as [Hsame | (config & config' & jobs & names & Hload & Hjobs & _ & _ & _ & Happ & Hadd)].
  { rewrite Hsame in Hchanged. contradiction. }
  rewrite Hadd. cbn [snd written config_file].
  destruct (append_under_result _ _ _ Happ)
    as (m & node & jobs0 & m' & node' & Hroot1 & Hnode & Hres & Hroot' & Hnode' & Hres'
        & Hkeys & Hobjects & _).
  assert (jobs0 = jobs) as ->.
  { unfold jobs_of in Hjobs. rewrite Hroot1, Hnode, Hres in Hjobs. congruence. }
  apply load_config_cases in Hload as (doc0 & Hfile0 & Hconfig).
  rewrite Hfile in Hfile0. injection Hfile0 as <-.
  rewrite (or_empty_map_mapping doc m0 Hroot Hne) in Hconfig.
  exists config', m', jobs.
  split; [reflexivity |]. split; [exact Hroot' |].
  destruct Hconfig as [-> | (m1 & Hroot2 & Hnone & ->)].
  - (* the document had its list of jobs *)
    assert (m = m0) as -> by congruence.
    split; [exact Hkeys |].
    split; [exact (jobs_of_resolved config' m' node' _ Hroot' Hnode' Hres') |].
    split; [left; exact Hjobs |].
    split.
    + intros b. destruct (Hobjects b) as [H | [H | H]]; auto.
      right. left. rewrite Hnode, H. reflexivity.
    + intros k b Hk Hb. rewrite Hnode in Hb. injection Hb as ->.
      assert (Hsame_node : node' = YRef b).
      { revert Hnode' Hroot' Happ. unfold py_append_under. rewrite Hroot, Hnode.
        destruct (shared doc !! b) as [[| | | | | jobs1 | |] |] eqn:Hb; try discriminate.
        intros Hnode' Hroot' H. injection H as <-.
        unfold root_value in Hroot', Hroot. cbn [root shared] in Hroot'.
        assert (Hm : m' = m0).
        { destruct (root doc) as [| | | | | | | r]; cbn [resolve] in *; try congruence.
          destruct (decide (b = r)) as [<- | Hbr].
          - rewrite Hb in Hroot. discriminate Hroot.
          - rewrite lookup_insert_ne in Hroot' by exact Hbr. congruence. }
        subst m'. congruence. }
      subst node'. split; [| exact Hres'].
      destruct (decide (k = "scrape_configs")) as [-> | Hkne]; [exact Hnode' |].
      rewrite (Hkeys k Hkne). exact Hk.
  - (* the list of jobs was added by the call *)
    assert (m1 = m0) as -> by congruence.
    rewrite root_value_with_mapping in Hroot1. injection Hroot1 as <-.
    rewrite lookup_insert_eq in Hnode. injection Hnode as <-.
    cbn [resolve] in Hres. injection Hres as <-.
    split; [intros k Hk; rewrite (Hkeys k Hk); apply lookup_insert_ne; congruence |].
    split; [exact (jobs_of_resolved config' m' node' _ Hroot' Hnode' Hres') |].
    split; [right; auto |].
    split.
    + intros b. destruct (Hobjects b) as [H | [H | H]]; [| discriminate H |].
      * rewrite H. unfold with_root_value.
        destruct (root doc) as [| | | | | | | r] eqn:Hr; cbn [shared]; auto.
        destruct (decide (r = b)) as [<- | Hrb]; [auto |].
        left. apply lookup_insert_ne, Hrb.
      * right. right. unfold with_root_value in H.
        destruct (root doc); try discriminate H. exact H.
    + intros k b Hk Hb. rewrite Hnone in Hb. discriminate Hb.
Qed.

(** X11. One job of [scrape_configs] that is no mapping, or has no
    [job_name], stops every addition: the call returns [False] and
    changes nothing. *)
Theorem malformed_job_blocks_additions
    (scrape_config : ScrapeConfig) (env : PromEnv) (doc : Document)
    (m : gmap string Yaml) (node : Yaml) (jobs : list Yaml) (job : Yaml) :
  config_file env = Holding doc ->
  root_value doc = YMap m ->
  m !! "scrape_configs" = Some node ->
  resolve (shared doc) node = YSeq jobs ->
  In job jobs ->
  (forall fields, resolve (shared doc) job = YMap fields -> fields !! "job_name" = None) ->
  add_prometheus_scrape_job scrape_config env = (false, env).
Proof.
  intros Hfile Hroot Hnode Hres Hin Hbad.
  assert (Hraise : exists e, job_names (shared doc) jobs = Raised e).
  { clear Hres. induction jobs as [| j jobs IH]; [contradiction |].
    simpl. destruct Hin as [-> | Hin].
    - destruct (resolve (shared doc) job) as [| | | | | | fields |]; simpl; eauto.
      rewrite (Hbad fields eq_refl). eauto.
    - destruct (py_getitem "job_name" (resolve (shared doc) j)); [| eauto].
      destruct (IH Hin) as [e ->]. eauto. }
  destruct Hraise as [e Hraise].
  unfold add_prometheus_scrape_job, add_prometheus_scrape_job_body.
  rewrite (load_config_with_jobs env doc m node Hfile Hroot Hnode), Hroot.
  cbn [py_getitem]. rewrite Hnode. unfold existing_job_names. rewrite Hres, Hraise.
  reflexivity.
Qed.

Section ScrapeNames.

Variable bracketed_host_ok : string -> bool.

(** X12. Every URL without a host gets the job [auto_None] with a null
    target, so that such URLs share one job: once the job of one of them
    has been written, configuring another changes nothing. *)
Theorem hostless_urls_share_one_job (url1 url2 : string) (auth1 auth2 : bool) (env : PromEnv) :
  urlparse_hostname bracketed_host_ok url1 = Returned None ->
  urlparse_hostname bracketed_host_ok url2 = Returned None ->
  let first := configure_prometheus_scrape bracketed_host_ok url1 auth1 env in
  let second := configure_prometheus_scrape bracketed_host_ok url2 auth2 (snd first) in
  (exists sc, fst first = Returned sc /\ job_name sc = "auto_None" /\
              targets sc = Some [YNull]) /\
  (config_file (snd first) <> config_file env -> snd second = snd first).
Proof.
  intros H1 H2. unfold configure_prometheus_scrape. rewrite H1, H2. cbn [fst snd].
  split; [eexists; split; [reflexivity |]; split; reflexivity |].
  intros Hchanged.
  rewrite job_exists_skips; [reflexivity |].
  exact (changed_file_has_job _ env _ Hchanged eq_refl).
Qed.

End ScrapeNames.

(** * Further properties of the persisted record *)

Lemma app_key_inj (a b : string) : app_key a = app_key b -> a = b.
Proof. unfold app_key. intros H. injection H as H. exact H. Qed.

Lemma str_of_list_bracket (l : list string) :
  exists rest, str_of_list l = String "[" rest.
Proof. unfold str_of_list. eexists. reflexivity. Qed.

Lemma rstrip_spaces_bracket (rest : string) :
  exists rest', rstrip_spaces (String "[" rest) = String "[" rest'.
Proof.
  cbn [rstrip_spaces]. destruct (rstrip_spaces rest); eexists; reflexivity.
Qed.

Lemma decode_bracketed (rest : string) :
  decode_value (String "[" rest) = Returned (PyStr (String "[" rest)).
Proof.
  unfold decode_value.
  replace (String.eqb (String "[" rest) "True") with false by reflexivity.
  replace (String.eqb (String "[" rest) "False") with false by reflexivity.
  replace (String.eqb (String "[" rest) "None") with false by reflexivity.
  replace (isdigit (String "[" rest)) with false by reflexivity.
  replace (float_parses (String "[" rest)) with false; [reflexivity |].
  unfold float_parses. cbn [lstrip_chars].
  replace (is_space "[") with false by reflexivity. cbv iota.
  destruct (rstrip_spaces_bracket rest) as [rest' ->]. reflexivity.
Qed.

Section RecordExtras.

Variable repr_float : string -> string.

Abbreviation save := (save_monitoring_strategy repr_float).
Abbreviation stored v := (decode_value (serialize_value repr_float v)).

(** X14. Booleans and [None] are fetched back as they were saved; a list
    is fetched back as the text Python prints for it, never as a list. *)
Theorem list_is_fetched_as_its_text (b : bool) (l : list string) :
  stored (PyBool b) = Returned (PyBool b) /\
  stored PyNone = Returned PyNone /\
  stored (PyStrList l) = Returned (PyStr (str_of_list l)).
Proof.
  split; [destruct b; reflexivity |]. split; [reflexivity |].
  cbn [serialize_value py_str].
  destruct (str_of_list_bracket l) as [rest ->]. apply decode_bracketed.
Qed.

Lemma get_other_key (name' : string) (srv srv' : RedisServer) :
  reachable srv' = reachable srv ->
  hashes srv' !! app_key name' = hashes srv !! app_key name' ->
  get_monitoring_strategy name' srv' = get_monitoring_strategy name' srv.
Proof.
  intros Hup Hh. unfold get_monitoring_strategy, hgetall. rewrite Hup, Hh. reflexivity.
Qed.

(** X15. Records are kept apart by key: saving or deleting the record of
    one name changes nothing in what is fetched for any other name. *)
Theorem other_records_are_untouched
    (name name' : string) (d : Dict) (srv : RedisServer) :
  name <> name' ->
  get_monitoring_strategy name' (snd (save name d srv)) =
    get_monitoring_strategy name' srv /\
  get_monitoring_strategy name' (snd (delete_monitoring_strategy name srv)) =
    get_monitoring_strategy name' srv.
Proof.
  intros Hne.
  assert (Hkey : app_key name <> app_key name')
    by (intros H; apply Hne, app_key_inj, H).
  split; apply get_other_key.
  - unfold save_monitoring_strategy, hset.
    destruct (bool_decide _); [reflexivity |].
    destruct (negb (reachable srv)); reflexivity.
  - unfold save_monitoring_strategy, hset.
    destruct (bool_decide _); [reflexivity |].
    destruct (negb (reachable srv)); [reflexivity |]. cbn [snd hashes].
    apply lookup_insert_ne, Hkey.
  - unfold delete_monitoring_strategy, redis_delete.
    destruct (negb (reachable srv)); reflexivity.
  - unfold delete_monitoring_strategy, redis_delete.
    destruct (negb (reachable srv)); [reflexivity |]. cbn [snd hashes].
    apply lookup_delete_ne, Hkey.
Qed.

Lemma monitorable_as_fetched (s c d : string) :
  as_fetched (monitorable_decision s c d) = monitorable_decision s c d.
Proof.
  unfold as_fetched, monitorable_decision.
  rewrite !fmap_insert, map_fmap_singleton. reflexivity.
Qed.

Lemma fallback_fetched :
  decode_fields (_serialize_strategy repr_float unmonitorable_decision) =
    Returned (as_fetched unmonitorable_decision).
Proof.
  assert (Hstored : forall v,
            In v [PyBool false; PyNone; PyStr "none";
                  PyStr "No metrics or telemetry endpoints detected";
                  PyStrList [ "Expose /metrics"; "Enable OpenTelemetry SDK";
                              "Deploy OpenTelemetry Collector"; "Use blackbox exporter" ]] ->
            stored v = Returned (match v with
                                 | PyStrList l => PyStr (str_of_list l)
                                 | _ => v
                                 end)).
  { intros v [<- | [<- | [<- | [<- | [<- | []]]]]]; vm_compute; reflexivity. }
  rewrite (decode_fields_returned _ decoded).
  - unfold _serialize_strategy, as_fetched, unmonitorable_decision.
    rewrite <- map_fmap_compose, !fmap_insert, !map_fmap_singleton. unfold compose, decoded.
    rewrite !Hstored by (simpl; auto 10). reflexivity.
  - unfold _serialize_strategy, unmonitorable_decision.
    rewrite !fmap_insert, map_fmap_singleton. intros k v Hk. unfold decoded.
    repeat (apply lookup_insert_Some in Hk as [[_ <-] | [_ Hk]];
            [rewrite Hstored by (simpl; auto 10); reflexivity |]).
    apply lookup_singleton_Some in Hk as [_ <-].
    rewrite Hstored by (simpl; auto 10). reflexivity.
Qed.

(** What is fetched for a record that holds one decision of the
    resolver alone. *)
Lemma possible_decision_fetched (d : Dict) :
  In d possible_decisions ->
  d <> ∅ /\
  decode_fields (_serialize_strategy repr_float d) = Returned (as_fetched d).
Proof.
  intros Hin.
  assert (Hmon : forall s c t,
            decode_value s = Returned (PyStr s) ->
            decode_value c = Returned (PyStr c) ->
            decode_value t = Returned (PyStr t) ->
            monitorable_decision s c t <> ∅ /\
            decode_fields (_serialize_strategy repr_float (monitorable_decision s c t)) =
              Returned (as_fetched (monitorable_decision s c t))).
  { intros s c t Hs Hc Ht. split; [apply monitorable_decision_nonempty |].
    rewrite monitorable_as_fetched. exact (stored_monitorable_decision repr_float s c t Hs Hc Ht). }
  unfold possible_decisions in Hin.
  repeat (destruct Hin as [Hd | Hin];
          [rewrite <- Hd;
           first [apply Hmon; vm_compute; reflexivity
                 | split; [apply unmonitorable_decision_nonempty | apply fallback_fetched]] |]).
  contradiction.
Qed.

(** X16. After an explicit removal nothing is fetched for the name, and
    a decision of the resolver saved after the removal is fetched alone,
    with no field of an earlier record. *)
Theorem removal_forgets_the_record (name : string) (d : Dict) (srv : RedisServer) :
  reachable srv = true ->
  In d possible_decisions ->
  let removed := snd (delete_monitoring_strategy name srv) in
  get_monitoring_strategy name removed = Returned None /\
  get_saved_strategy name removed = Returned no_strategy_found /\
  get_monitoring_strategy name (snd (save name d removed)) = Returned (Some (as_fetched d)).
Proof.
  intros Hup Hin removed.
  destruct (possible_decision_fetched d Hin) as [Hd Hfetched].
  assert (Hremoved : removed = {| reachable := true;
                                  hashes := delete (app_key name) (hashes srv) |}).
  { unfold removed, delete_monitoring_strategy, redis_delete. rewrite Hup. reflexivity. }
  assert (Hnone : get_monitoring_strategy name removed = Returned None).
  { rewrite Hremoved. apply get_absent; [reflexivity | apply lookup_delete_eq]. }
  split; [exact Hnone |].
  split; [unfold get_saved_strategy; rewrite Hnone; reflexivity |].
  rewrite Hremoved.
  rewrite (save_reachable repr_float name d
             {| reachable := true; hashes := delete (app_key name) (hashes srv) |}
             eq_refl Hd).
  cbn [snd hashes].
  rewrite lookup_delete_eq. cbn [default]. rewrite (right_id_L ∅ (∪)).
  apply (get_sole_decision repr_float name d);
    [reflexivity | apply lookup_insert_eq | exact Hd | exact Hfetched].
Qed.

(** X17. For a name under which nothing is stored, [get_saved_strategy]
    answers with its own decision, which satisfies the invariant of the
    data model and carries no next steps. *)
Theorem unknown_name_gets_the_default_decision (name : string) (srv : RedisServer) :
  reachable srv = true ->
  hashes srv !! app_key name = None ->
  get_saved_strategy name srv = Returned no_strategy_found /\
  decision_invariant no_strategy_found /\
  no_strategy_found !! "next_steps" = None.
Proof.
  intros Hup Hnone. unfold get_saved_strategy.
  rewrite (get_absent name srv Hup Hnone).
  split; [reflexivity |]. split; [| reflexivity].
  unfold decision_invariant. repeat split; try reflexivity.
  - intros [x [=]].
  - discriminate.
Qed.

(** X22. A record can be saved that cannot be fetched: a decision with a
    text field of more than 4300 digits is saved without complaint, and
    every fetch of it then raises [ValueError], from
    [get_monitoring_strategy] and from [get_saved_strategy] alike. *)
Theorem long_digit_field_cannot_be_fetched
    (name : string) (d : Dict) (k v : string) (srv : RedisServer) :
  reachable srv = true ->
  d !! k = Some (PyStr v) ->
  isdigit v = true ->
  (INT_MAX_STR_DIGITS < String.length v)%nat ->
  fst (save name d srv) = Returned tt /\
  get_monitoring_strategy name (snd (save name d srv)) = Raised ValueError /\
  get_saved_strategy name (snd (save name d srv)) = Raised ValueError.
Proof.
  intros Hup Hk Hdigits Hlong.
  assert (Hd : d <> ∅) by (intros ->; rewrite lookup_empty in Hk; discriminate Hk).
  rewrite (save_reachable repr_float name d srv Hup Hd). cbn [fst snd].
  split; [reflexivity |].
  set (fields := _serialize_strategy repr_float d ∪ default ∅ (hashes srv !! app_key name)).
  assert (Hfield : fields !! k = Some v).
  { unfold fields. apply lookup_union_Some_l. unfold _serialize_strategy.
    rewrite lookup_fmap, Hk. reflexivity. }
  assert (Hraise : decode_value v = Raised ValueError).
  { unfold decode_value, py_int. rewrite Hdigits.
    apply Nat.ltb_lt in Hlong. rewrite Hlong.
    assert (Hshort : forall t, (String.length t <= 5)%nat -> String.eqb v t = false).
    { intros t Ht. apply String.eqb_neq. intros ->. apply Nat.ltb_lt in Hlong.
      unfold INT_MAX_STR_DIGITS in Hlong. lia. }
    rewrite !Hshort by (simpl; lia). reflexivity. }
  assert (Hget : get_monitoring_strategy name
                   {| reachable := true; hashes := <[app_key name := fields]> (hashes srv) |}
                 = Raised ValueError).
  { unfold get_monitoring_strategy, hgetall. cbn [reachable hashes negb].
    rewrite lookup_insert_eq. unfold from_option, id.
    rewrite bool_decide_eq_false_2
      by (intros H; rewrite H, lookup_empty in Hfield; discriminate Hfield).
    rewrite (decode_fields_raised fields k v Hfield Hraise). reflexivity. }
  split; [exact Hget |].
  unfold get_saved_strategy. rewrite Hget. reflexivity.
Qed.

Variable bracketed_host_ok : string -> bool.

(** X18. Onboarding a target that turns out monitorable, on a store that
    holds nothing for the URL of the payload (the normalised text of the
    request's URL), and then asking for the saved strategy of that URL
    gives back the decision the onboarding returned. *)
Theorem onboarded_decision_is_fetched_back
    (w : World) (clk : nat) (app_data : OnboardModel) (srv srv' : RedisServer) (d : Dict) :
  onboard_app repr_float bracketed_host_ok w clk app_data srv = (Returned d, srv') ->
  is_monitorable d = true ->
  hashes srv !! app_key (str_of_url (model_url app_data)) = None ->
  get_saved_strategy (str_of_url (model_url app_data)) srv' = Returned d.
Proof.
  unfold onboard_app. cbv zeta. change (url (payload_of app_data))
    with (str_of_url (model_url app_data)).
  intros Hon Hmon Hfresh.
  destruct (result w clk (detect_monitoring_strategy bracketed_host_ok (payload_of app_data)))
    as [d' | e] eqn:Hres; [| discriminate Hon].
  rewrite detect_by_observation in Hres.
  destruct (observation bracketed_host_ok w clk (payload_of app_data)) as [[headers oks] | e];
    [| discriminate Hres].
  cbn [fst snd] in Hres.
  unfold save_monitoring_strategy, hset in Hon.
  destruct (bool_decide (_serialize_strategy repr_float d' = ∅)) eqn:Hempty;
    [discriminate Hon |].
  destruct (reachable srv) eqn:Hup; cbn [negb] in Hon; [| discriminate Hon].
  apply bool_decide_eq_false in Hempty.
  injection Hon as <- <-. rewrite Hfresh. cbn [default]. rewrite (right_id_L ∅ (∪)).
  assert (Hd : d' = first_success oks (priority_table headers)) by congruence.
  destruct (first_success_cases oks (priority_table headers)) as [Hf | (r & Hin & Hf)];
    rewrite Hf in Hd; subst d'; [discriminate Hmon |].
  destruct (priority_table_texts headers r Hin) as (Hs & Hc & Hdet).
  assert (Hne : decision_of r <> ∅).
  { intros H. apply (f_equal (fun m : Dict => m !! "monitorable")) in H. discriminate H. }
  unfold get_saved_strategy.
  rewrite (get_sole_decision repr_float _ (decision_of r) (decision_of r));
    [| reflexivity | apply lookup_insert_eq | exact Hne
     | unfold decision_of; exact (stored_monitorable_decision repr_float _ _ _ Hs Hc Hdet)].
  rewrite bool_decide_eq_false_2 by exact Hne. reflexivity.
Qed.

End RecordExtras.

(** * Further properties of the actions and of the onboarding *)

Lemma decision_strategy_field (s c d : string) :
  default PyNone (monitorable_decision s c d !! "strategy") = PyStr s.
Proof. reflexivity. Qed.

Lemma fallback_strategy_field :
  default PyNone (unmonitorable_decision !! "strategy") = PyNone.
Proof. reflexivity. Qed.

Lemma fallback_logs_field :
  default PyNone (unmonitorable_decision !! "logs_enabled") = PyNone.
Proof. reflexivity. Qed.

Lemma monitorable_not_fallback (s c d : string) :
  monitorable_decision s c d <> unmonitorable_decision.
Proof.
  intros H. apply (f_equal is_monitorable) in H.
  rewrite is_monitorable_decision in H. discriminate H.
Qed.

Section ActionExtras.

Variable bracketed_host_ok : string -> bool.
Variable float_nonzero : string -> bool.
Variable repr_float : string -> string.

Abbreviation detect := (detect_monitoring_strategy bracketed_host_ok).
Abbreviation apply_strategy := (apply_monitoring_strategy bracketed_host_ok float_nonzero).

Lemma detect_returned_parses (w : World) (clk : nat) (app : AppOnboardRequest) (d : Dict) :
  result w clk (detect app) = Returned d ->
  exists host, urlparse_hostname bracketed_host_ok (url app) = Returned host.
Proof.
  unfold detect_monitoring_strategy.
  destruct (urlparse_hostname bracketed_host_ok (url app)) as [host | e]; [eauto |].
  discriminate.
Qed.

(** What the action of each possible decision is. *)
Lemma apply_on_possible_decision (app : AppOnboardRequest) (host : option string)
    (d : Dict) (env : PromEnv) :
  urlparse_hostname bracketed_host_ok (url app) = Returned host ->
  In d possible_decisions ->
  exists action,
    fst (apply_strategy app d env) = Returned action /\
    (action = Skipped "skipped" "No actionable strategy found" <-> d = unmonitorable_decision) /\
    (forall provider metrics,
       action = CloudMonitoring provider metrics ->
       In provider ["aws"; "gcp"; "azure"] /\ metrics <> [] /\
       strategy_of d = Some (provider +:+ "-cloud-metrics")) /\
    (forall sc,
       action = ScrapeConfigured sc ->
       job_name sc = auto_job_name host /\
       (strategy_of d = Some "prometheus" /\ auth_required sc = false \/
        strategy_of d = Some "prometheus-auth" /\ auth_required sc = true)) /\
    ((forall sc, action <> ScrapeConfigured sc) -> snd (apply_strategy app d env) = env).
Proof.
  intros Hparse Hin. unfold possible_decisions in Hin. simpl in Hin.
  assert (Hnf := monitorable_not_fallback).
  repeat (destruct Hin as [<- | Hin];
    [ unfold apply_monitoring_strategy, configure_prometheus_scrape;
      rewrite ?decision_strategy_field, ?fallback_strategy_field; simpl;
      rewrite ?Hparse; unfold apply_without_strategy;
      rewrite ?fallback_logs_field; simpl;
      eexists; split; [reflexivity |];
      split; [split; intros H; try discriminate H; try reflexivity;
              exfalso; first [ exact (Hnf _ _ _ H) | exact (Hnf _ _ _ (eq_sym H)) ] |];
      split; [intros provider metrics H;
              first [ discriminate H
                    | injection H as <- <-; repeat split; simpl; auto; discriminate ] |];
      split; [intros sc H;
              first [ discriminate H
                    | injection H as <-; split; [reflexivity |];
                      rewrite strategy_of_decision; simpl; auto ] |];
      intros Hno; first [ reflexivity | exfalso; exact (Hno _ eq_refl) ]
    | ]).
  contradiction.
Qed.

(** X19. Every decision the resolver returns is handled by
    [apply_monitoring_strategy] without an exception: the fallback alone is
    skipped; a cloud decision always names a provider the builder knows,
    with a non-empty list of metrics; a scrape job is configured exactly
    for prometheus and prometheus-auth, with authentication for the
    latter; and nothing but these two strategies touches the Prometheus
    side. *)
Theorem every_returned_decision_has_its_action
    (w : World) (clk : nat) (app : AppOnboardRequest) (d : Dict) (env : PromEnv) :
  result w clk (detect app) = Returned d ->
  exists action,
    fst (apply_strategy app d env) = Returned action /\
    (action = Skipped "skipped" "No actionable strategy found" <-> d = unmonitorable_decision) /\
    (forall provider metrics,
       action = CloudMonitoring provider metrics ->
       In provider ["aws"; "gcp"; "azure"] /\ metrics <> [] /\
       strategy_of d = Some (provider +:+ "-cloud-metrics")) /\
    (forall sc,
       action = ScrapeConfigured sc ->
       strategy_of d = Some "prometheus" /\ auth_required sc = false \/
       strategy_of d = Some "prometheus-auth" /\ auth_required sc = true) /\
    ((forall sc, action <> ScrapeConfigured sc) -> snd (apply_strategy app d env) = env).
Proof.
  intros Hres.
  destruct (detect_returned_parses w clk app d Hres) as [host Hparse].
  destruct (apply_on_possible_decision app host d env Hparse
              (detect_result_possible bracketed_host_ok w clk app d Hres))
    as (action & Hact & Hskip & Hcloud & Hscrape & Hother).
  exists action.
  split; [exact Hact |]. split; [exact Hskip |]. split; [exact Hcloud |].
  split; [| exact Hother].
  intros sc Hsc. exact (proj2 (Hscrape sc Hsc)).
Qed.

(** X20. The action step never stands in the way of the persistence: the
    decision an onboarding returns and the store it leaves are those of
    resolving and saving alone. *)
Theorem actions_do_not_affect_what_is_saved
    (w : World) (clk : nat) (app_data : OnboardModel) (env : PromEnv) (srv : RedisServer) :
  let steps :=
    onboard_app_steps bracketed_host_ok float_nonzero repr_float w clk app_data env srv in
  (fst (fst steps), snd steps) = onboard_app repr_float bracketed_host_ok w clk app_data srv.
Proof.
  cbv zeta. unfold onboard_app_steps, onboard_app.
  destruct (result w clk (detect (payload_of app_data))) as [d | e] eqn:Hres; [| reflexivity].
  destruct (detect_returned_parses w clk (payload_of app_data) d Hres) as [host Hparse].
  destruct (apply_on_possible_decision (payload_of app_data) host d env Hparse
              (detect_result_possible bracketed_host_ok w clk (payload_of app_data) d Hres))
    as (action & Hact & _).
  destruct (apply_strategy (payload_of app_data) d env) as [r env']. cbn [fst] in Hact. subst r.
  destruct (save_monitoring_strategy repr_float (url (payload_of app_data)) d srv)
    as [[u | e] srv']; reflexivity.
Qed.

(** X21. The onboarding is not undone when the store cannot be reached:
    it raises the connection error after the action has been applied, so
    that a scrape job written for the target stays written, and nothing is
    saved. *)
Theorem unreachable_store_leaves_the_action_applied
    (w : World) (clk : nat) (app_data : OnboardModel) (d : Dict)
    (env : PromEnv) (srv : RedisServer) :
  result w clk (detect (payload_of app_data)) = Returned d ->
  reachable srv = false ->
  onboard_app_steps bracketed_host_ok float_nonzero repr_float w clk app_data env srv =
  (Raised RedisConnectionError, snd (apply_strategy (payload_of app_data) d env), srv).
Proof.
  intros Hres Hdown. unfold onboard_app_steps. cbv zeta. rewrite Hres.
  destruct (detect_returned_parses w clk (payload_of app_data) d Hres) as [host Hparse].
  pose proof (detect_result_possible bracketed_host_ok w clk (payload_of app_data) d Hres)
    as Hin.
  destruct (apply_on_possible_decision (payload_of app_data) host d env Hparse Hin)
    as (action & Hact & _).
  destruct (apply_strategy (payload_of app_data) d env) as [r env']. cbn [fst snd] in *. subst r.
  unfold save_monitoring_strategy, hset.
  rewrite bool_decide_eq_false_2
    by (apply serialize_nonempty, (possible_decision_fetched repr_float d Hin)).
  rewrite Hdown. reflexivity.
Qed.

End ActionExtras.

(** ** The further properties at sample inputs *)

Lemma resolution_requests_are_confined_witness :
  urlparse_hostname lenient_brackets (url svc) = Returned (Some "svc.local") /\
  (2 <= length (trace silent_world 0 (detect_monitoring_strategy lenient_brackets svc)) <= 8)%nat.
Proof.
  split; [reflexivity |].
  exact (proj1 (proj2 (resolution_requests_are_confined lenient_brackets silent_world 0 svc
                         (Some "svc.local") eq_refl))).
Defined.

Lemma returned_decision_is_one_of_eleven_witness :
  result svc_on_aws 0 (detect_monitoring_strategy lenient_brackets svc) =
    Returned (monitorable_decision "aws-cloud-metrics" "low" "AWS headers detected") /\
  In (monitorable_decision "aws-cloud-metrics" "low" "AWS headers detected")
    possible_decisions.
Proof.
  split; [reflexivity |].
  apply (returned_decision_is_one_of_eleven lenient_brackets svc_on_aws 0 svc).
  reflexivity.
Defined.

(** A web server that answers 404 to everything is taken for an OTLP
    endpoint. *)
Lemma otlp_reply_gives_opentelemetry_http_witness :
  urlparse_hostname lenient_brackets (url svc) = Returned (Some "svc.local") /\
  result (answering not_found_page) 0 (detect_monitoring_strategy lenient_brackets svc) =
  Returned (monitorable_decision "opentelemetry-http" "high" "OTLP HTTP endpoint detected").
Proof.
  split; [reflexivity |].
  apply (otlp_reply_gives_opentelemetry_http lenient_brackets (answering not_found_page) 0 svc
           (Some "svc.local")); reflexivity.
Defined.

Lemma header_markers_are_found_witness :
  header_mentions "x-kubernetes" [("Server", "nginx"); ("X-Kubernetes-Pod", "web-1")] = true /\
  detect_kubernetes_env [("Server", "nginx"); ("X-Kubernetes-Pod", "web-1")] = true /\
  header_mentions "x-ms" [("Via", "1.1 X-MS-Edge")] = true /\
  is_Some (detect_cloud_provider [("Via", "1.1 X-MS-Edge")]).
Proof.
  split; [reflexivity |]. split.
  - apply (proj1 (header_markers_are_found _)). reflexivity.
  - split; [reflexivity |].
    apply (proj2 (proj2 (proj2 (header_markers_are_found _)))). reflexivity.
Defined.

Lemma first_job_changes_blank_file :
  config_file (snd (add_prometheus_scrape_job (sample_scrape_config "db.local")
                      (prom_env_with (Holding YNull) reload_down))) <>
  config_file (prom_env_with (Holding YNull) reload_down).
Proof. intros H. vm_compute in H. discriminate H. Defined.

(** The job written while the reload endpoint was down is not added
    again once it is up. *)
Lemma job_is_added_at_most_once_witness :
  let env := prom_env_with (Holding YNull) reload_down in
  let env1 := snd (add_prometheus_scrape_job (sample_scrape_config "db.local") env) in
  let env2 := prom_env_with (config_file env1) reload_ok in
  add_prometheus_scrape_job (sample_scrape_config "db.local") env2 = (false, env2).
Proof.
  cbv zeta.
  apply (job_is_added_at_most_once (sample_scrape_config "db.local")
           (sample_scrape_config "db.local")
           (prom_env_with (Holding YNull) reload_down)).
  - exact first_job_changes_blank_file.
  - reflexivity.
  - reflexivity.
Defined.

Lemma no_jobs_lookup : no_jobs !! "scrape_configs" = Some (YSeq []).
Proof. apply lookup_singleton_eq. Defined.

Lemma failed_reload_is_reported_but_job_stays_witness :
  reload_succeeds reload_down_env = false /\
  exists config',
    add_prometheus_scrape_job (sample_scrape_config "db.local") reload_down_env =
      (false, written config' reload_down_env) /\
    jobs_of config' = Some [job_entry_of (sample_scrape_config "db.local")].
Proof.
  split; [reflexivity |].
  destruct (failed_reload_is_reported_but_job_stays (sample_scrape_config "db.local")
              reload_down_env (unshared (YMap no_jobs)) [] []
              (load_config_with_jobs reload_down_env (unshared (YMap no_jobs)) no_jobs
                 (YSeq []) eq_refl eq_refl no_jobs_lookup)
              (jobs_of_resolved (unshared (YMap no_jobs)) no_jobs (YSeq []) []
                 eq_refl no_jobs_lookup eq_refl)
              eq_refl eq_refl eq_refl eq_refl) as (config' & Hadd & Hjobs & _).
  exists config'. split; [exact Hadd | exact Hjobs].
Defined.

Lemma unusable_config_is_left_alone_witness :
  add_prometheus_scrape_job (sample_scrape_config "db.local")
    (prom_env_with (Unreadable OSError) reload_ok) =
    (false, prom_env_with (Unreadable OSError) reload_ok) /\
  add_prometheus_scrape_job (sample_scrape_config "db.local")
    (prom_env_with (Holding (YSeq [YStr "scrape_configs"])) reload_ok) =
    (false, prom_env_with (Holding (YSeq [YStr "scrape_configs"])) reload_ok).
Proof.
  split.
  - apply (unusable_config_is_left_alone (sample_scrape_config "db.local")
             (prom_env_with (Unreadable OSError) reload_ok)).
    exact I.
  - apply (unusable_config_is_left_alone (sample_scrape_config "db.local")
             (prom_env_with (Holding (YSeq [YStr "scrape_configs"])) reload_ok)).
    reflexivity.
Defined.

(** A file that holds the float zero is taken for an empty
    configuration. *)
Lemma empty_config_is_initialised_witness :
  truthy (YFloat (S754_zero false)) = Some false /\
  add_prometheus_scrape_job (sample_scrape_config "db.local")
    (prom_env_with (Holding (YFloat (S754_zero false))) reload_ok) =
  (true,
   {| config_file :=
        Holding (YMap {[ "scrape_configs" :=
                           YSeq [job_entry_of (sample_scrape_config "db.local")] ]});
      writable := true;
      reload_answer := reload_ok;
      reload_requests := 1 |}).
Proof.
  split; [reflexivity |].
  exact (empty_config_is_initialised (sample_scrape_config "db.local")
           (prom_env_with (Holding (YFloat (S754_zero false))) reload_ok)
           (unshared (YFloat (S754_zero false))) eq_refl eq_refl eq_refl).
Defined.

Lemma aliased_jobs_change :
  config_file (snd (add_prometheus_scrape_job (sample_scrape_config "db.local")
                      (prom_env_with (Holding aliased_jobs_doc) reload_ok))) <>
  config_file (prom_env_with (Holding aliased_jobs_doc) reload_ok).
Proof. intros H. vm_compute in H. discriminate H. Defined.

(** In the document whose [backup] is the list of jobs itself, the new
    job shows under [backup] too. *)
Lemma written_config_keeps_everything_else_witness :
  exists doc',
    config_file (snd (add_prometheus_scrape_job (sample_scrape_config "db.local")
                        (prom_env_with (Holding aliased_jobs_doc) reload_ok))) =
      Holding doc' /\
    root doc' = YMap {[ "scrape_configs" := YRef 1; "backup" := YRef 1 ]} /\
    resolve (shared doc') (YRef 1) =
      YSeq [sample_job "auto_svc.local"; job_entry_of (sample_scrape_config "db.local")].
Proof.
  destruct (written_config_keeps_everything_else (sample_scrape_config "db.local")
              (prom_env_with (Holding aliased_jobs_doc) reload_ok) aliased_jobs_doc
              {[ "scrape_configs" := YRef 1; "backup" := YRef 1 ]}
              eq_refl eq_refl (insert_non_empty _ _ _) aliased_jobs_change)
    as (doc' & m' & jobs & Hfile & _ & _ & _ & [Hjobs | [Hnone _]] & _ & Hshared).
  - exists doc'. split; [exact Hfile |].
    assert (Hdoc : Holding doc' =
                   Holding {| root := YMap {[ "scrape_configs" := YRef 1; "backup" := YRef 1 ]};
                              shared := {[ 1%positive :=
                                             YSeq [sample_job "auto_svc.local";
                                                   job_entry_of
                                                     (sample_scrape_config "db.local")] ]} |})
      by (rewrite <- Hfile; vm_compute; reflexivity).
    injection Hdoc as ->. split; reflexivity.
  - vm_compute in Hnone. discriminate Hnone.
Defined.

Lemma bad_jobs_lookup :
  bad_jobs !! "scrape_configs" = Some (YSeq [sample_job "a"; YStr "not a job"]).
Proof. apply lookup_singleton_eq. Defined.

Lemma malformed_job_blocks_additions_witness :
  let env := prom_env_with (Holding (YMap bad_jobs)) reload_ok in
  add_prometheus_scrape_job (sample_scrape_config "db.local") env = (false, env).
Proof.
  cbv zeta.
  apply (malformed_job_blocks_additions (sample_scrape_config "db.local")
           (prom_env_with (Holding (YMap bad_jobs)) reload_ok)
           (unshared (YMap bad_jobs)) bad_jobs
           (YSeq [sample_job "a"; YStr "not a job"])
           [sample_job "a"; YStr "not a job"] (YStr "not a job")).
  - reflexivity.
  - reflexivity.
  - exact bad_jobs_lookup.
  - reflexivity.
  - right. left. reflexivity.
  - intros fields H. discriminate H.
Defined.

Lemma hostless_first_job_changes_blank_file :
  config_file (snd (configure_prometheus_scrape lenient_brackets "svc.local" false
                      (prom_env_with (Holding YNull) reload_ok))) <>
  config_file (prom_env_with (Holding YNull) reload_ok).
Proof. intros H. vm_compute in H. discriminate H. Defined.

Lemma hostless_urls_share_one_job_witness :
  let first := configure_prometheus_scrape lenient_brackets "svc.local" false
                 (prom_env_with (Holding YNull) reload_ok) in
  urlparse_hostname lenient_brackets "svc.local" = Returned None /\
  urlparse_hostname lenient_brackets "http:///health" = Returned None /\
  snd (configure_prometheus_scrape lenient_brackets "http:///health" true (snd first)) =
    snd first.
Proof.
  cbv zeta. split; [reflexivity |]. split; [reflexivity |].
  exact (proj2 (hostless_urls_share_one_job lenient_brackets "svc.local" "http:///health"
                  false true (prom_env_with (Holding YNull) reload_ok) eq_refl eq_refl)
           hostless_first_job_changes_blank_file).
Defined.

Lemma svc_names_differ : "http://svc.local" <> "http://db.local".
Proof. discriminate. Defined.

Lemma other_records_are_untouched_witness :
  get_monitoring_strategy "http://db.local"
    (snd (save_monitoring_strategy id "http://svc.local" unmonitorable_decision empty_redis)) =
  get_monitoring_strategy "http://db.local" empty_redis.
Proof.
  exact (proj1 (other_records_are_untouched id "http://svc.local" "http://db.local"
                  unmonitorable_decision empty_redis svc_names_differ)).
Defined.

Lemma statsd_decision_possible :
  In (monitorable_decision "statsd" "medium" "StatsD-compatible agent detected")
     possible_decisions.
Proof. do 4 right. left. reflexivity. Defined.

Lemma removal_forgets_the_record_witness :
  let saved := snd (save_monitoring_strategy id "http://svc.local" unmonitorable_decision
                      empty_redis) in
  let d := monitorable_decision "statsd" "medium" "StatsD-compatible agent detected" in
  reachable saved = true /\
  get_monitoring_strategy "http://svc.local"
    (snd (delete_monitoring_strategy "http://svc.local" saved)) = Returned None /\
  get_monitoring_strategy "http://svc.local"
    (snd (save_monitoring_strategy id "http://svc.local" d
            (snd (delete_monitoring_strategy "http://svc.local" saved)))) =
    Returned (Some (as_fetched d)).
Proof.
  cbv zeta. split; [reflexivity |].
  destruct (removal_forgets_the_record id "http://svc.local"
              (monitorable_decision "statsd" "medium" "StatsD-compatible agent detected")
              (snd (save_monitoring_strategy id "http://svc.local" unmonitorable_decision
                      empty_redis))
              eq_refl statsd_decision_possible) as (Hnone & _ & Hsaved).
  split; [exact Hnone | exact Hsaved].
Defined.

Lemma unknown_name_gets_the_default_decision_witness :
  reachable empty_redis = true /\
  get_saved_strategy "http://svc.local" empty_redis = Returned no_strategy_found.
Proof.
  split; [reflexivity |].
  exact (proj1 (unknown_name_gets_the_default_decision "http://svc.local" empty_redis
                  eq_refl eq_refl)).
Defined.

Lemma long_digits_are_digits : isdigit long_digits = true.
Proof. vm_compute. reflexivity. Defined.

Lemma long_digits_are_long : (INT_MAX_STR_DIGITS < String.length long_digits)%nat.
Proof. apply Nat.ltb_lt. vm_compute. reflexivity. Defined.

Lemma long_digits_details :
  ({[ "details" := PyStr long_digits ]} : Dict) !! "details" = Some (PyStr long_digits).
Proof. apply lookup_singleton_eq. Defined.

Lemma long_digit_field_cannot_be_fetched_witness :
  let d : Dict := {[ "details" := PyStr long_digits ]} in
  fst (save_monitoring_strategy id "app" d empty_redis) = Returned tt /\
  get_monitoring_strategy "app" (snd (save_monitoring_strategy id "app" d empty_redis)) =
    Raised ValueError.
Proof.
  cbv zeta.
  destruct (long_digit_field_cannot_be_fetched id "app" {[ "details" := PyStr long_digits ]}
              "details" long_digits empty_redis eq_refl long_digits_details
              long_digits_are_digits long_digits_are_long) as (Hsave & Hget & _).
  split; [exact Hsave | exact Hget].
Defined.

(** The request for [http://svc.local] is saved, and fetched, under
    [http://svc.local/]. *)
Lemma onboarded_decision_is_fetched_back_witness :
  let d := monitorable_decision "prometheus" "high" "/metrics endpoint detected" in
  let onboarded := onboard_app id lenient_brackets svc_request_metrics 0 svc_request
                     empty_redis in
  fst onboarded = Returned d /\
  get_saved_strategy "http://svc.local/" (snd onboarded) = Returned d.
Proof.
  cbv zeta. split; [reflexivity |].
  apply (onboarded_decision_is_fetched_back id lenient_brackets svc_request_metrics 0
           svc_request empty_redis).
  - reflexivity.
  - reflexivity.
  - reflexivity.
Defined.

(** The decision for a [/metrics] that answers 403 configures a scrape
    job with authentication. *)
Lemma every_returned_decision_has_its_action_witness :
  let d := monitorable_decision "prometheus-auth" "medium"
             "/metrics exists but requires auth" in
  result svc_forbidden 0 (detect_monitoring_strategy lenient_brackets svc) = Returned d /\
  exists action,
    fst (apply_monitoring_strategy lenient_brackets no_float_is_zero svc d sample_prom_env) =
      Returned action /\
    action <> Skipped "skipped" "No actionable strategy found".
Proof.
  cbv zeta. split; [reflexivity |].
  destruct (every_returned_decision_has_its_action lenient_brackets no_float_is_zero
              svc_forbidden 0 svc
              (monitorable_decision "prometheus-auth" "medium"
                 "/metrics exists but requires auth")
              sample_prom_env eq_refl) as (action & Hact & Hskip & _).
  exists action. split; [exact Hact |].
  intros H. apply Hskip in H. apply (f_equal is_monitorable) in H. discriminate H.
Defined.

Lemma unreachable_store_leaves_the_action_applied_witness :
  let d := monitorable_decision "prometheus" "high" "/metrics endpoint detected" in
  let env := prom_env_with (Holding YNull) reload_ok in
  reachable unreachable_redis = false /\
  onboard_app_steps lenient_brackets no_float_is_zero id svc_request_metrics 0 svc_request env
    unreachable_redis =
  (Raised RedisConnectionError,
   snd (apply_monitoring_strategy lenient_brackets no_float_is_zero
          (payload_of svc_request) d env),
   unreachable_redis).
Proof.
  cbv zeta. split; [reflexivity |].
  apply (unreachable_store_leaves_the_action_applied lenient_brackets no_float_is_zero id
           svc_request_metrics 0 svc_request).
  - reflexivity.
  - reflexivity.
Defined.
